(** * usdtapi: deposit verification, settlement and withdrawal

    A shallow embedding of the Express server (the entry point that
    requires [./binanceClient] and [./db]), of the SQLite store and of the
    signed Binance client, followed by the properties proved about them.

    JavaScript numbers are IEEE-754 binary64 values, modelled with the
    Standard Library's [spec_float] at precision 53 and maximal exponent
    1024.  JavaScript strings are sequences of UTF-16 code units.  A
    function that can throw returns a [Completion]; the functions of the
    runtime that the program calls are the fields of the class [Host]. *)

From Stdlib Require Import ZArith NArith QArith Qabs Bool List String Ascii Lia.
From Stdlib Require Import Floats.SpecFloat.
From Stdlib Require Import DecimalString.
From stdpp Require Import base option list gmap sorting.

Set Warnings "-register-all".
Local Open Scope Z_scope.

(** ** JavaScript values *)

Module Js.

(** *** Numbers *)

Definition prec : Z := 53.
Definition emax : Z := 1024.

Definition Number : Type := spec_float.

Definition NaN : Number := S754_nan.
Definition Infinity : Number := S754_infinity false.
Definition num (z : Z) : Number := binary_normalize prec emax z 0 false.

(** [Number.isNaN(n)] *)
Definition isNaN (n : Number) : bool :=
  match n with S754_nan => true | _ => false end.

(** [Number.isFinite(n)] *)
Definition isFinite (n : Number) : bool :=
  match n with S754_zero _ | S754_finite _ _ _ => true | _ => false end.

Definition num_lt (a b : Number) : bool := SFltb a b.   (* a < b *)
Definition num_le (a b : Number) : bool := SFleb a b.   (* a <= b *)
Definition num_gt (a b : Number) : bool := SFltb b a.   (* a > b *)
Definition num_ge (a b : Number) : bool := SFleb b a.   (* a >= b *)
Definition num_eq (a b : Number) : bool := SFeqb a b.   (* a === b on numbers *)
Definition num_mul (a b : Number) : Number := SFmul prec emax a b.   (* a * b *)

(** A number is well formed when it is a binary64 value in canonical form. *)
Definition wf (n : Number) : bool := valid_binary prec emax n.

(** The rational number a finite double denotes, in lowest terms. *)
Definition exact (n : Number) : option Q :=
  match n with
  | S754_zero _ => Some 0%Q
  | S754_finite s m e =>
      let v := (inject_Z (Zpos m) * Qpower 2 e)%Q in
      Some (Qred (if s then Qopp v else v))
  | _ => None
  end.

(** *** Strings *)

Definition jstring : Type := list N.

Definition js (s : string) : jstring :=
  map N_of_ascii (list_ascii_of_string s).

(** WhiteSpace and LineTerminator code points, the ones [trim] strips. *)
Definition isWhiteSpace (c : N) : bool :=
  existsb (N.eqb c)
    [9; 10; 11; 12; 13; 32; 160; 5760; 8192; 8193; 8194; 8195; 8196; 8197;
     8198; 8199; 8200; 8201; 8202; 8232; 8233; 8239; 8287; 12288; 65279]%N.

Fixpoint trimStart (s : jstring) : jstring :=
  match s with
  | c :: s' => if isWhiteSpace c then trimStart s' else s
  | [] => []
  end.

Definition trimEnd (s : jstring) : jstring := rev (trimStart (rev s)).

(** [s.trim()] *)
Definition trim (s : jstring) : jstring := trimEnd (trimStart s).

(** [s.startsWith(p)] *)
Fixpoint startsWith (s p : jstring) : bool :=
  match p, s with
  | [], _ => true
  | a :: p', b :: s' => N.eqb a b && startsWith s' p'
  | _ :: _, [] => false
  end.

(** [a === b] on strings *)
Definition streq (a b : jstring) : bool := bool_decide (a = b).

(** The code units of a surrogate pair: U+D800..U+DBFF leads,
    U+DC00..U+DFFF trails. *)
Definition isLeadSurrogate (c : N) : bool := N.leb 55296 c && N.leb c 56319.
Definition isTrailSurrogate (c : N) : bool := N.leb 56320 c && N.leb c 57343.

(** [s.toWellFormed()]: every surrogate that is not part of a pair is
    replaced by U+FFFD.  It is also what the conversion of a string to
    UTF-8 yields, read back as a string. *)
Fixpoint toWellFormed (s : jstring) : jstring :=
  match s with
  | [] => []
  | c :: rest =>
      if isLeadSurrogate c then
        match rest with
        | c' :: rest' =>
            if isTrailSurrogate c' then c :: c' :: toWellFormed rest'
            else 65533%N :: toWellFormed rest
        | [] => [65533%N]
        end
      else if isTrailSurrogate c then 65533%N :: toWellFormed rest
      else c :: toWellFormed rest
  end.

(** [s.isWellFormed()] *)
Definition isWellFormed (s : jstring) : bool := streq (toWellFormed s) s.

(** *** Dynamic values: what [JSON.parse] produces, and [undefined] *)

Inductive JsVal : Type :=
| JUndefined
| JNull
| JBool (b : bool)
| JNum (n : Number)
| JStr (s : jstring)
| JArr (items : list JsVal)
| JObj (fields : list (jstring * JsVal)).

Fixpoint assoc (k : jstring) (fs : list (jstring * JsVal)) : JsVal :=
  match fs with
  | [] => JUndefined
  | (k', v) :: fs' => if streq k k' then v else assoc k fs'
  end.

(** [v.k] for a [v] that is neither [null] nor [undefined] and a key [k]
    that no prototype defines. *)
Definition prop (v : JsVal) (k : jstring) : JsVal :=
  match v with
  | JObj fs => assoc k fs
  | _ => JUndefined
  end.

(** ToBoolean *)
Definition truthy (v : JsVal) : bool :=
  match v with
  | JUndefined | JNull => false
  | JBool b => b
  | JNum n =>
      match n with
      | S754_zero _ | S754_nan => false
      | _ => true
      end
  | JStr s => match s with [] => false | _ => true end
  | JArr _ | JObj _ => true
  end.

Definition logical_or (a b : JsVal) : JsVal := if truthy a then a else b.    (* a || b *)
Definition logical_and (a b : JsVal) : JsVal := if truthy a then b else a.   (* a && b *)

(** [v == null] *)
Definition nullish (v : JsVal) : bool :=
  match v with JUndefined | JNull => true | _ => false end.

(** [typeof v === "string"] *)
Definition isString (v : JsVal) : bool :=
  match v with JStr _ => true | _ => false end.

(** *** Exceptions and completions *)

(** A thrown error object: its [name] and [message], and the [response]
    an axios error carries when the server answered (an object with
    [status] and [data]), [undefined] otherwise. *)
Record JsError : Type := mkError {
  name : jstring;
  message : jstring;
  response : JsVal
}.

(** [new Error(msg)] *)
Definition new_Error (msg : string) : JsError :=
  {| name := js "Error"; message := js msg; response := JUndefined |}.

Definition TypeError (msg : string) : JsError :=
  {| name := js "TypeError"; message := js msg; response := JUndefined |}.

Definition URIError (msg : string) : JsError :=
  {| name := js "URIError"; message := js msg; response := JUndefined |}.

(** The TypeError of reading property [key] of [v], which is [null] or
    [undefined]. *)
Definition cannot_read (v : JsVal) (key : string) : JsError :=
  match v with
  | JUndefined =>
      TypeError (String.append "Cannot read properties of undefined (reading '"
                   (String.append key "')"))
  | _ =>
      TypeError (String.append "Cannot read properties of null (reading '"
                   (String.append key "')"))
  end.

(** [String(err.message || err)] *)
Definition error_text (err : JsError) : jstring :=
  match message err with
  | [] => name err
  | m => m
  end.

Inductive Completion (A : Type) : Type :=
| Normal (a : A)
| Throw (e : JsError).
Arguments Normal {A} a.
Arguments Throw {A} e.

Definition cbind {A B} (c : Completion A) (f : A -> Completion B) : Completion B :=
  match c with
  | Normal a => f a
  | Throw e => Throw e
  end.

(** *** Host built-ins

    The functions of the JavaScript runtime and of the libraries that the
    program calls and that are not part of the repository. *)
Class Host : Type := {
  (** [Number(s)] on a string *)
  StringToNumber : jstring -> Number;
  (** [Number(o)] on an array or an object, through ToPrimitive; it can
      throw a TypeError *)
  ObjectToNumber : JsVal -> Completion Number;
  (** [String(n)] on a number *)
  NumberToString : Number -> jstring;
  (** [new Date(v).toISOString()]; a RangeError on an invalid date *)
  DateToISOString : JsVal -> Completion jstring;
  (** [String(v).toLowerCase()] *)
  ToLowerString : JsVal -> jstring;
  (** [encodeURIComponent(v)]; a URIError on a string that holds a lone
      surrogate *)
  encodeURIComponent : JsVal -> Completion jstring;
  (** [crypto.createHmac("sha256", key).update(data).digest("hex")] *)
  hmacSha256Hex : jstring -> jstring -> jstring
}.

(** [Number(v)] *)
Definition ToNumber `{Host} (v : JsVal) : Completion Number :=
  match v with
  | JUndefined => Normal NaN
  | JNull => Normal (S754_zero false)
  | JBool b => Normal (if b then num 1 else S754_zero false)
  | JNum n => Normal n
  | JStr s => Normal (StringToNumber s)
  | JArr _ | JObj _ => ObjectToNumber v
  end.

End Js.

Notation "'let!' x ':=' c 'in' k" := (Js.cbind c (fun x => k))
  (at level 10, x pattern, c at level 100, k at level 200).

(** ** The SQLite store ([./db]) *)

Module Db.
Import Js.

(** A row of [processed_transactions]: the [id] and [createdAt] that
    SQLite assigns and the values that the INSERT bound to the other
    columns. *)
Record Row : Type := mkRow {
  id : Z;
  txId : jstring;
  asset : jstring;
  amount : Number;
  rewardKes : Number;
  confirmedAt : jstring;
  createdAt : jstring
}.

(** The database file: the two tables, the AUTOINCREMENT counter of
    [processed_transactions], what [datetime('now')] currently yields, and
    whether a writing statement completes ([writable = false] stands for
    every condition under which SQLite refuses a write: a read-only file, a
    full disk, a lock held by another process). *)
Record Database : Type := mkDb {
  processed_transactions : list Row;
  last_id : Z;
  settings : gmap jstring jstring;
  datetime_now : jstring;
  writable : bool
}.

(** The argument of [insert]. *)
Record TxRecord : Type := mkRecord {
  rec_txId : jstring;
  rec_asset : jstring;
  rec_amount : Number;
  rec_rewardKes : Number;
  rec_confirmedAt : jstring
}.

Definition SqliteError (msg : string) : JsError :=
  {| name := js "SqliteError"; message := js msg; response := JUndefined |}.

(** What SQLite keeps of a bound value.  A string is kept as UTF-8 text,
    in which a lone surrogate has become U+FFFD.  A number bound to a REAL
    column is kept as a double, except that a value without a fractional
    part is kept as an integer: [-0] is read back as [0]. *)
Definition stored_text (s : jstring) : jstring := toWellFormed s.

Definition stored_real (x : Number) : Number :=
  match x with
  | S754_zero _ => S754_zero false
  | _ => x
  end.

(** What a SELECT yields for a row. *)
Definition read_back (r : Row) : Row :=
  {| id := id r;
     txId := stored_text (txId r);
     asset := stored_text (asset r);
     amount := stored_real (amount r);
     rewardKes := stored_real (rewardKes r);
     confirmedAt := stored_text (confirmedAt r);
     createdAt := createdAt r |}.

(** [WHERE txId = ?]: the comparison of the stored text with the bound
    one. *)
Definition same_txId (t : jstring) (r : Row) : bool :=
  streq (stored_text (txId r)) (stored_text t).

(** [getByTxId(txId)]: the row whose [txId] column equals the argument, or
    [null]. *)
Definition getByTxId (db : Database) (t : jstring) : option Row :=
  option_map read_back (List.find (same_txId t) (processed_transactions db)).

(** [insert(record)]: the INSERT statement.  It throws when the database
    refuses the write, when a REAL NOT NULL column would receive NaN (which
    SQLite binds as NULL), and when the UNIQUE constraint on [txId] is
    violated; the database is then unchanged. *)
Definition insert (db : Database) (r : TxRecord) : Completion Database :=
  if negb (writable db) then
    Throw (SqliteError "attempt to write a readonly database")
  else if isNaN (rec_amount r) then
    Throw (SqliteError "NOT NULL constraint failed: processed_transactions.amount")
  else if isNaN (rec_rewardKes r) then
    Throw (SqliteError "NOT NULL constraint failed: processed_transactions.rewardKes")
  else if existsb (same_txId (rec_txId r)) (processed_transactions db) then
    Throw (SqliteError "UNIQUE constraint failed: processed_transactions.txId")
  else
    Normal {| processed_transactions :=
                processed_transactions db ++
                [ {| id := last_id db + 1;
                     txId := rec_txId r;
                     asset := rec_asset r;
                     amount := rec_amount r;
                     rewardKes := rec_rewardKes r;
                     confirmedAt := rec_confirmedAt r;
                     createdAt := datetime_now db |} ];
              last_id := last_id db + 1;
              settings := settings db;
              datetime_now := datetime_now db;
              writable := writable db |}.

(** [getSetting(key)]: the stored value, or [null]. *)
Definition getSetting (db : Database) (key : jstring) : option jstring :=
  settings db !! key.

(** [setSetting(key, value)]: the upsert of [String(value)].  The keys
    and the values that the program writes are texts of ASCII characters
    (the names of the three variables, and [String] of a number), which
    the store keeps as they are. *)
Definition setSetting `{Host} (db : Database) (key : jstring) (value : Number)
  : Completion Database :=
  if negb (writable db) then
    Throw (SqliteError "attempt to write a readonly database")
  else
    Normal {| processed_transactions := processed_transactions db;
              last_id := last_id db;
              settings := <[ key := NumberToString value ]> (settings db);
              datetime_now := datetime_now db;
              writable := writable db |}.

End Db.

(** ** The signed Binance client ([./binanceClient]) *)

Module BinanceClient.
Import Js.

(** The credentials read from [process.env] when the module loads: a
    variable is [undefined] or a string. *)
Record Credentials : Type := mkCreds {
  BINANCE_API_KEY : option jstring;
  BINANCE_API_SECRET : option jstring
}.

(** [!v] on an environment variable *)
Definition absent (v : option jstring) : bool :=
  match v with
  | None | Some [] => true
  | Some (_ :: _) => false
  end.

(** [v || d] on an environment variable *)
Definition env_or (v : option jstring) (d : jstring) : jstring :=
  match v with
  | Some (c :: s) => c :: s
  | _ => d
  end.

Definition BINANCE_BASE_URL : jstring := js "https://api.binance.com".

(** *** Network I/O

    An HTTP request that axios sends, and the world that answers it: with
    the [data] of the response, or with the error axios throws (a non-2xx
    status, a timeout after 10 s, no connection). *)
Inductive Method : Type := GET | POST.

Record HttpCall : Type := mkCall {
  call_method : Method;
  call_url : jstring;
  call_api_key : jstring
}.

Record World : Type := mkWorld {
  Date_now : Number;
  axios : HttpCall -> Completion JsVal
}.

(** A computation of the client: its completion and the requests it sent,
    in order. *)
Definition Net (A : Type) : Type := (Completion A * list HttpCall)%type.

Definition net_ret {A} (a : A) : Net A := (Normal a, []).
Definition net_throw {A} (e : JsError) : Net A := (Throw e, []).
Definition net_send (w : World) (c : HttpCall) : Net JsVal := (axios w c, [c]).

Definition net_bind {A B} (m : Net A) (f : A -> Net B) : Net B :=
  match m with
  | (Normal a, t) => let '(r, t') := f a in (r, t ++ t')
  | (Throw e, t) => (Throw e, t)
  end.

(** *** Request signing *)

(** [a < b] on strings: the order of the code units. *)
Fixpoint str_lt (a b : jstring) : bool :=
  match a, b with
  | _, [] => false
  | [], _ :: _ => true
  | x :: a', y :: b' => N.ltb x y || (N.eqb x y && str_lt a' b')
  end.

(** An object literal as the list of its entries, in insertion order;
    assigning an existing key keeps its place. *)
Fixpoint obj_set (k : jstring) (v : JsVal) (o : list (jstring * JsVal))
  : list (jstring * JsVal) :=
  match o with
  | [] => [(k, v)]
  | (k', v') :: o' => if streq k k' then (k, v) :: o' else (k', v') :: obj_set k v o'
  end.

(** [{ ...a, ...b }] *)
Definition spread (a b : list (jstring * JsVal)) : list (jstring * JsVal) :=
  fold_left (fun o kv => obj_set (fst kv) (snd kv) o) b a.

Fixpoint sort_insert (e : jstring * JsVal) (l : list (jstring * JsVal))
  : list (jstring * JsVal) :=
  match l with
  | [] => [e]
  | e' :: l' => if str_lt (fst e') (fst e) then e' :: sort_insert e l' else e :: l
  end.

(** [entries.sort(([a], [b]) => (a < b ? -1 : a > b ? 1 : 0))]; the keys of
    an object are pairwise distinct, so the result does not depend on the
    sorting algorithm. *)
Definition sort_entries (l : list (jstring * JsVal)) : list (jstring * JsVal) :=
  fold_right sort_insert [] l.

Fixpoint join (sep : jstring) (parts : list jstring) : jstring :=
  match parts with
  | [] => []
  | [p] => p
  | p :: ps => p ++ sep ++ join sep ps
  end.

(** [entries.map(([k, v]) => `${encodeURIComponent(k)}=${encodeURIComponent(v)}`)]:
    the entries are encoded in order, the key before the value, and the
    first URIError ends the map. *)
Fixpoint encode_entries `{Host} (entries : list (jstring * JsVal))
  : Completion (list jstring) :=
  match entries with
  | [] => Normal []
  | kv :: rest =>
      let! k := encodeURIComponent (JStr (fst kv)) in
      let! v := encodeURIComponent (snd kv) in
      let! parts := encode_entries rest in
      Normal ((k ++ js "=" ++ v) :: parts)
  end.

Definition signParams `{Host} (c : Credentials) (params : list (jstring * JsVal))
  : Completion jstring :=
  let! parts := encode_entries (sort_entries params) in
  let query := join (js "&") parts in
  let signature := hmacSha256Hex (env_or (BINANCE_API_SECRET c) []) query in
  Normal (query ++ js "&signature=" ++ signature).

Definition not_configured : JsError :=
  new_Error "Binance API credentials are not configured".

(** The [url] that [binanceGet] and [binancePost] build; signing throws
    when a parameter cannot be encoded. *)
Definition signed_url `{Host} (c : Credentials) (w : World) (path : jstring)
    (params : list (jstring * JsVal)) : Completion jstring :=
  let timestamp := Date_now w in
  let! signedQuery :=
    signParams c
      (obj_set (js "timestamp") (JNum timestamp)
         (spread [(js "recvWindow", JNum (num 60000))] params)) in
  Normal (BINANCE_BASE_URL ++ path ++ js "?" ++ signedQuery).

Definition binanceGet `{Host} (c : Credentials) (w : World) (path : jstring)
    (params : list (jstring * JsVal)) : Net JsVal :=
  if absent (BINANCE_API_KEY c) || absent (BINANCE_API_SECRET c) then
    net_throw not_configured
  else
    match signed_url c w path params with
    | Throw err => net_throw err
    | Normal url =>
        net_send w {| call_method := GET;
                      call_url := url;
                      call_api_key := env_or (BINANCE_API_KEY c) [] |}
    end.

Definition binancePost `{Host} (c : Credentials) (w : World) (path : jstring)
    (params : list (jstring * JsVal)) : Net JsVal :=
  if absent (BINANCE_API_KEY c) || absent (BINANCE_API_SECRET c) then
    net_throw not_configured
  else
    match signed_url c w path params with
    | Throw err => net_throw err
    | Normal url =>
        net_send w {| call_method := POST;
                      call_url := url;
                      call_api_key := env_or (BINANCE_API_KEY c) [] |}
    end.

(** *** The three calls *)

(** [getDepositHistory({ coin, startTime, endTime, limit = 1000 })] *)
Definition getDepositHistory `{Host} (c : Credentials) (w : World)
    (coin startTime endTime limit : JsVal) : Net (list JsVal) :=
  let limit := match limit with JUndefined => JNum (num 1000) | _ => limit end in
  let params := [(js "coin", coin); (js "limit", limit)] in
  let params := if truthy startTime then obj_set (js "startTime") startTime params else params in
  let params := if truthy endTime then obj_set (js "endTime") endTime params else params in
  net_bind (binanceGet c w (js "/sapi/v1/capital/deposit/hisrec") params)
    (fun data =>
       match data with
       | JArr records => net_ret records
       | _ => net_throw (new_Error "Unexpected Binance deposit history response format")
       end).

(** [balances.find((b) => b.asset === "USDT")]; reading [asset] of [null]
    or [undefined] throws a TypeError. *)
Fixpoint find_usdt (balances : list JsVal) : Completion (option JsVal) :=
  match balances with
  | [] => Normal None
  | b :: rest =>
      if nullish b then Throw (cannot_read b "asset")
      else
        match prop b (js "asset") with
        | JStr a => if streq a (js "USDT") then Normal (Some b) else find_usdt rest
        | _ => find_usdt rest
        end
  end.

(** [getUSDTBalance()] *)
Definition getUSDTBalance `{Host} (c : Credentials) (w : World) : Net Number :=
  net_bind (binanceGet c w (js "/api/v3/account") [])
    (fun account =>
       match (if truthy account then prop account (js "balances") else JUndefined) with
       | JArr balances =>
           (let! usdtBalance := find_usdt balances in
            match usdtBalance with
            | None => Normal (S754_zero false)
            | Some b => ToNumber (logical_or (prop b (js "free")) (JNum (S754_zero false)))
            end, [])
       | _ => net_throw (new_Error "Unexpected Binance account response format")
       end).

(** *** Network detection from the shape of an address *)

Definition in_range (lo hi c : N) : bool := N.leb lo c && N.leb c hi.

(** The class [[A-Za-z1-9]] *)
Definition trx_char (c : N) : bool :=
  in_range 65 90 c || in_range 97 122 c || in_range 49 57 c.

(** The class [[1-9A-HJ-NP-Za-km-z]] *)
Definition base58_char (c : N) : bool :=
  in_range 49 57 c || in_range 65 72 c || in_range 74 78 c || in_range 80 90 c
  || in_range 97 107 c || in_range 109 122 c.

(** [/^T[A-Za-z1-9]{33}$/.test(a)] *)
Definition trx_shape (a : jstring) : bool :=
  match a with
  | t :: rest => N.eqb t 84 && Nat.eqb (length rest) 33 && forallb trx_char rest
  | [] => false
  end.

(** [/^[1-9A-HJ-NP-Za-km-z]{32,44}$/.test(a)] *)
Definition sol_shape (a : jstring) : bool :=
  Nat.leb 32 (length a) && Nat.leb (length a) 44 && forallb base58_char a.

(** The [if] / [else if] / [else] chain that both the client and the
    server run on an address when no network is given. *)
Definition detect_network (a : jstring) : option jstring :=
  if trx_shape a then Some (js "TRX")
  else if sol_shape a then Some (js "SOL")
  else None.

(** [withdrawUSDT({ address, amount, network })] *)
Definition withdrawUSDT `{Host} (c : Credentials) (w : World)
    (address : jstring) (amount : Number) (network : JsVal) : Net JsVal :=
  let detected : Completion JsVal :=
    if truthy network then Normal network
    else match detect_network address with
         | Some n => Normal (JStr n)
         | None => Throw (new_Error
             "Unable to detect network from address format. Please specify network.")
         end in
  match detected with
  | Throw e => net_throw e
  | Normal detectedNetwork =>
      binancePost c w (js "/sapi/v1/capital/withdraw/apply")
        [(js "coin", JStr (js "USDT")); (js "network", detectedNetwork);
         (js "address", JStr address); (js "amount", JNum amount)]
  end.

End BinanceClient.

(** ** The HTTP server *)

Module Server.
Import Js Db BinanceClient.

(** The environment variables the server reads. *)
Record Env : Type := mkEnv {
  env_KES_PER_USDT : option jstring;
  env_MIN_DEPOSIT_AMOUNT : option jstring;
  env_MIN_WITHDRAWAL_AMOUNT : option jstring;
  NODE_ENV : option jstring;
  credentials : Credentials
}.

(** The mutable state of the process: the three module-level variables and
    the database. *)
Record State : Type := mkState {
  KES_PER_USDT : Number;
  MIN_DEPOSIT_AMOUNT : Number;
  MIN_WITHDRAWAL_AMOUNT : Number;
  db : Database
}.

Definition set_db (st : State) (d : Database) : State :=
  {| KES_PER_USDT := KES_PER_USDT st;
     MIN_DEPOSIT_AMOUNT := MIN_DEPOSIT_AMOUNT st;
     MIN_WITHDRAWAL_AMOUNT := MIN_WITHDRAWAL_AMOUNT st;
     db := d |}.

(** What a handler sends: the HTTP status and the JSON body. *)
Record Reply : Type := mkReply {
  status : Z;
  body : JsVal
}.

(** [res.json(o)] and [res.status(c).json(o)] *)
Definition json (o : list (jstring * JsVal)) : Reply :=
  {| status := 200; body := JObj o |}.
Definition status_json (c : Z) (o : list (jstring * JsVal)) : Reply :=
  {| status := c; body := JObj o |}.

Definition str (s : string) : JsVal := JStr (js s).
Definition zero : Number := S754_zero false.

(** [const { k } = req.body || {}] *)
Definition field (req_body : JsVal) (k : string) : JsVal :=
  prop (logical_or req_body (JObj [])) (js k).

(** *** Start-up: the three settings *)

(** The initialiser shared by the three variables: the stored value when
    it passes [ok], otherwise the environment's (or the default) persisted
    back. *)
Definition load_setting `{Host} (key : string) (ok : Number -> bool)
    (from_env : option jstring) (default_text : string) (default : Number)
    (d : Database) : Completion (Number * Database) :=
  let fallback :=
    let fromEnv := StringToNumber (env_or from_env (js default_text)) in
    let initial := if negb (isNaN fromEnv) && ok fromEnv then fromEnv else default in
    let! d' := setSetting d (js key) initial in
    Normal (initial, d') in
  match getSetting d (js key) with
  | Some fromDb =>
      let n := StringToNumber fromDb in
      if negb (isNaN n) && ok n then Normal (n, d) else fallback
  | None => fallback
  end.

Definition positive (n : Number) : bool := num_gt n zero.      (* n > 0 *)
Definition non_negative (n : Number) : bool := num_ge n zero.  (* n >= 0 *)

Definition load_KES_PER_USDT `{Host} (e : Env) :=
  load_setting "KES_PER_USDT" positive (env_KES_PER_USDT e) "150" (num 150).
Definition load_MIN_DEPOSIT_AMOUNT `{Host} (e : Env) :=
  load_setting "MIN_DEPOSIT_AMOUNT" non_negative (env_MIN_DEPOSIT_AMOUNT e) "0" zero.
Definition load_MIN_WITHDRAWAL_AMOUNT `{Host} (e : Env) :=
  load_setting "MIN_WITHDRAWAL_AMOUNT" positive (env_MIN_WITHDRAWAL_AMOUNT e) "10" (num 10).

(** The module's top level: the state after the three initialisers, or the
    error that stops the process. *)
Definition startup `{Host} (e : Env) (d : Database) : Completion State :=
  let! (rate, d1) := load_KES_PER_USDT e d in
  let! (minDeposit, d2) := load_MIN_DEPOSIT_AMOUNT e d1 in
  let! (minWithdrawal, d3) := load_MIN_WITHDRAWAL_AMOUNT e d2 in
  Normal {| KES_PER_USDT := rate;
            MIN_DEPOSIT_AMOUNT := minDeposit;
            MIN_WITHDRAWAL_AMOUNT := minWithdrawal;
            db := d3 |}.

(** *** The configuration endpoints

    A handler returns its completion (the reply, or the error that leaves
    the handler and that Express answers with a 500) and the state it
    leaves. *)

Definition get_rate (st : State) : Reply :=
  json [(js "rate", JNum (KES_PER_USDT st))].

Definition post_rate `{Host} (st : State) (req_body : JsVal) : Completion Reply * State :=
  let rate := field req_body "rate" in
  match ToNumber rate with
  | Throw e => (Throw e, st)
  | Normal n =>
      if negb (truthy rate) || isNaN n || num_le n zero then
        (Normal (status_json 400 [(js "error", str "rate must be a positive number")]), st)
      else
        let st1 := {| KES_PER_USDT := n;
                      MIN_DEPOSIT_AMOUNT := MIN_DEPOSIT_AMOUNT st;
                      MIN_WITHDRAWAL_AMOUNT := MIN_WITHDRAWAL_AMOUNT st;
                      db := db st |} in
        match setSetting (db st1) (js "KES_PER_USDT") n with
        | Throw e => (Throw e, st1)
        | Normal d =>
            let st2 := set_db st1 d in
            (Normal (json [(js "rate", JNum (KES_PER_USDT st2))]), st2)
        end
  end.

Definition get_min_deposit (st : State) : Reply :=
  json [(js "minDepositAmount", JNum (MIN_DEPOSIT_AMOUNT st))].

Definition post_min_deposit `{Host} (st : State) (req_body : JsVal)
  : Completion Reply * State :=
  let minDepositAmount := field req_body "minDepositAmount" in
  match ToNumber minDepositAmount with
  | Throw e => (Throw e, st)
  | Normal n =>
      if nullish minDepositAmount || isNaN n || num_lt n zero then
        (Normal (status_json 400
           [(js "error", str "minDepositAmount must be a non-negative number")]), st)
      else
        let st1 := {| KES_PER_USDT := KES_PER_USDT st;
                      MIN_DEPOSIT_AMOUNT := n;
                      MIN_WITHDRAWAL_AMOUNT := MIN_WITHDRAWAL_AMOUNT st;
                      db := db st |} in
        match setSetting (db st1) (js "MIN_DEPOSIT_AMOUNT") n with
        | Throw e => (Throw e, st1)
        | Normal d =>
            let st2 := set_db st1 d in
            (Normal (json [(js "minDepositAmount", JNum (MIN_DEPOSIT_AMOUNT st2))]), st2)
        end
  end.

Definition get_min_withdrawal (st : State) : Reply :=
  json [(js "minWithdrawalAmount", JNum (MIN_WITHDRAWAL_AMOUNT st))].

Definition post_min_withdrawal `{Host} (st : State) (req_body : JsVal)
  : Completion Reply * State :=
  let minWithdrawalAmount := field req_body "minWithdrawalAmount" in
  match ToNumber minWithdrawalAmount with
  | Throw e => (Throw e, st)
  | Normal n =>
      if nullish minWithdrawalAmount || isNaN n || num_le n zero then
        (Normal (status_json 400
           [(js "error", str "minWithdrawalAmount must be a positive number")]), st)
      else
        let st1 := {| KES_PER_USDT := KES_PER_USDT st;
                      MIN_DEPOSIT_AMOUNT := MIN_DEPOSIT_AMOUNT st;
                      MIN_WITHDRAWAL_AMOUNT := n;
                      db := db st |} in
        match setSetting (db st1) (js "MIN_WITHDRAWAL_AMOUNT") n with
        | Throw e => (Throw e, st1)
        | Normal d =>
            let st2 := set_db st1 d in
            (Normal (json [(js "minWithdrawalAmount", JNum (MIN_WITHDRAWAL_AMOUNT st2))]), st2)
        end
  end.

(** *** POST /api/deposit/txid

    The handler runs in two uninterrupted stretches: from the request to
    [await getDepositHistory(...)], and from the answer of that call to the
    reply.  Other requests run in between, so the second stretch starts in
    whatever state they left. *)

Definition OFF_CHAIN_PREFIX : jstring := js "Off-chain transfer ".

(** [txIdTrimmed.startsWith(OFF_CHAIN_PREFIX) ? txIdTrimmed : `${OFF_CHAIN_PREFIX}${txIdTrimmed}`] *)
Definition normalize (txIdTrimmed : jstring) : jstring :=
  if startsWith txIdTrimmed OFF_CHAIN_PREFIX then txIdTrimmed
  else OFF_CHAIN_PREFIX ++ txIdTrimmed.

(** [getByTxId(normalizedTxId) || getByTxId(txIdTrimmed)] *)
Definition lookup_existing (d : Database) (txIdTrimmed normalizedTxId : jstring)
  : option Row :=
  match getByTxId d normalizedTxId with
  | Some row => Some row
  | None => getByTxId d txIdTrimmed
  end.

Definition txId_required : Reply :=
  status_json 400 [(js "error", str "txId is required")].

Definition already_used (existing : Row) : Reply :=
  json [(js "status", str "failed");
        (js "reason", str "already_used");
        (js "message", str "Transaction ID already used");
        (js "confirmedAmount", JNum (amount existing));
        (js "rewardKes", JNum (rewardKes existing));
        (js "confirmedAt", JStr (confirmedAt existing))].

Inductive DepositStart : Type :=
| Answered (r : Reply)
| AwaitingHistory (txIdTrimmed normalizedTxId : jstring).

(** The first stretch: validation, normalisation and the lookup in the
    store. *)
Definition deposit_txid_begin (st : State) (req_body : JsVal) : DepositStart :=
  let txId := field req_body "txId" in
  if negb (truthy txId) || negb (isString txId) then Answered txId_required
  else
    match txId with
    | JStr raw =>
        let txIdTrimmed := trim raw in
        match txIdTrimmed with
        | [] => Answered txId_required
        | _ =>
            let normalizedTxId := normalize txIdTrimmed in
            match lookup_existing (db st) txIdTrimmed normalizedTxId with
            | Some existing => Answered (already_used existing)
            | None => AwaitingHistory txIdTrimmed normalizedTxId
            end
        end
    | _ => Answered txId_required
    end.

(** The predicate given to [deposits.find]. *)
Definition deposit_matches `{Host} (txIdTrimmed normalizedTxId : jstring) (d : JsVal)
  : Completion bool :=
  if truthy d then
    match prop d (js "txId") with
    | JStr t =>
        if streq t normalizedTxId || streq (trim t) normalizedTxId
           || streq t txIdTrimmed || streq (trim t) txIdTrimmed
        then
          let! s := ToNumber (prop d (js "status")) in
          Normal (num_eq s (num 1))
        else Normal false
    | _ => Normal false
    end
  else Normal false.

(** [deposits.find(...)]: the first record the predicate accepts. *)
Fixpoint find_match `{Host} (txIdTrimmed normalizedTxId : jstring)
    (deposits : list JsVal) : Completion (option JsVal) :=
  match deposits with
  | [] => Normal None
  | d :: rest =>
      let! hit := deposit_matches txIdTrimmed normalizedTxId d in
      if hit then Normal (Some d) else find_match txIdTrimmed normalizedTxId rest
  end.

Definition not_found : Reply :=
  json [(js "status", str "failed");
        (js "reason", str "not_found");
        (js "message", str "Transaction not found or does not exist")].

Definition amount_too_low `{Host} (confirmedAmount minDeposit : Number) : Reply :=
  json [(js "status", str "failed");
        (js "reason", str "amount_too_low");
        (js "message",
           JStr (js "Deposit amount " ++ NumberToString confirmedAmount
                 ++ js " USDT is below minimum " ++ NumberToString minDeposit
                 ++ js " USDT"));
        (js "minDepositAmount", JNum minDeposit);
        (js "confirmedAmount", JNum confirmedAmount)].

Definition complete (confirmedAmount : Number) (confirmedAt : jstring)
    (rewardKes : Number) : Reply :=
  json [(js "status", str "complete");
        (js "confirmedAmount", JNum confirmedAmount);
        (js "confirmedAt", JStr confirmedAt);
        (js "rewardKes", JNum rewardKes)].

(** The body of the [try] block after the history has arrived: the reply
    and the database it leaves, or the error thrown. *)
Definition deposit_txid_try `{Host} (w : World) (st : State)
    (txIdTrimmed normalizedTxId : jstring) (fetched : Completion (list JsVal))
  : Completion (Reply * Database) :=
  let! deposits := fetched in
  let! found := find_match txIdTrimmed normalizedTxId deposits in
  match found with
  | None => Normal (not_found, db st)
  | Some m =>
      let! confirmedAmount := ToNumber (logical_or (prop m (js "amount")) (JNum zero)) in
      if num_gt (MIN_DEPOSIT_AMOUNT st) zero
         && num_lt confirmedAmount (MIN_DEPOSIT_AMOUNT st)
      then Normal (amount_too_low confirmedAmount (MIN_DEPOSIT_AMOUNT st), db st)
      else
        let rewardKes := num_mul confirmedAmount (KES_PER_USDT st) in
        let! confirmedAt :=
          DateToISOString (logical_or (prop m (js "insertTime")) (JNum (Date_now w))) in
        let! d := insert (db st)
                    {| rec_txId := normalizedTxId;
                       rec_asset := js "USDT";
                       rec_amount := confirmedAmount;
                       rec_rewardKes := rewardKes;
                       rec_confirmedAt := confirmedAt |} in
        Normal (complete confirmedAmount confirmedAt rewardKes, d)
  end.

(** [process.env.NODE_ENV === "development" ? String(err.message || err) : undefined] *)
Definition details (e : Env) (err : JsError) : JsVal :=
  match NODE_ENV e with
  | Some v => if streq v (js "development") then JStr (error_text err) else JUndefined
  | None => JUndefined
  end.

(** [v === 451] *)
Definition is_451 (v : JsVal) : bool :=
  match v with
  | JNum n => num_eq n (num 451)
  | _ => false
  end.

(** The [catch] block. *)
Definition deposit_txid_catch (e : Env) (err : JsError) : Reply :=
  let statusCode := logical_and (response err) (prop (response err) (js "status")) in
  let binanceData := logical_and (response err) (prop (response err) (js "data")) in
  let binanceMsg :=
    logical_and binanceData
      (logical_or (prop binanceData (js "msg")) (prop binanceData (js "message"))) in
  if is_451 statusCode then
    json [(js "status", str "failed");
          (js "reason", str "region_restricted");
          (js "message", str "Binance API is not available in this region. Access may be restricted by jurisdiction.");
          (js "binanceMessage", binanceMsg)]
  else
    json [(js "status", str "failed");
          (js "reason", str "verification_error");
          (js "message",
             logical_or binanceMsg (str "Failed to verify transaction with Binance"));
          (js "details", details e err)].

(** The second stretch, in the state [st] found when the history arrives. *)
Definition deposit_txid_resume `{Host} (e : Env) (w : World) (st : State)
    (txIdTrimmed normalizedTxId : jstring) (fetched : Completion (list JsVal))
  : Reply * State :=
  match deposit_txid_try w st txIdTrimmed normalizedTxId fetched with
  | Normal (r, d) => (r, set_db st d)
  | Throw err => (deposit_txid_catch e err, st)
  end.

(** [getDepositHistory({ coin: "USDT", limit: 1000 })] *)
Definition fetch_history `{Host} (e : Env) (w : World) : Net (list JsVal) :=
  getDepositHistory (credentials e) w (str "USDT") JUndefined JUndefined (JNum (num 1000)).

(** The handler when requests interleave: it starts in [st0], and
    [st1] is the state when the history arrives.  The result is the
    reply, the state left and the requests sent. *)
Definition deposit_txid_interleaved `{Host} (e : Env) (w : World) (st0 st1 : State)
    (req_body : JsVal) : Reply * State * list HttpCall :=
  match deposit_txid_begin st0 req_body with
  | Answered r => (r, st0, [])
  | AwaitingHistory txIdTrimmed normalizedTxId =>
      let '(fetched, calls) := fetch_history e w in
      let '(r, st') := deposit_txid_resume e w st1 txIdTrimmed normalizedTxId fetched in
      (r, st', calls)
  end.

(** The handler when nothing else runs during the call. *)
Definition deposit_txid `{Host} (e : Env) (w : World) (st : State) (req_body : JsVal)
  : Reply * State * list HttpCall :=
  deposit_txid_interleaved e w st st req_body.

(** *** POST /api/withdraw *)

(** [v !== s] negated: [v === s] for a string literal [s] *)
Definition is_str (v : JsVal) (s : string) : bool :=
  match v with
  | JStr t => streq t (js s)
  | _ => false
  end.

(** [s.includes(sub)] *)
Fixpoint includes (s sub : jstring) : bool :=
  startsWith s sub ||
  match s with
  | [] => false
  | _ :: s' => includes s' sub
  end.

(** A request that passed validation. *)
Record Withdrawal : Type := mkWithdrawal {
  addressTrimmed : jstring;
  detectedNetwork : JsVal;
  withdrawalAmount : option Number
}.

Definition bad_request (msg : string) : Reply :=
  status_json 400 [(js "error", str msg)].

(** Validation: a 400 reply or the validated request.  [Number(amount)]
    can throw. *)
Definition withdraw_validate `{Host} (req_body : JsVal)
  : Completion (Reply + Withdrawal) :=
  let address := field req_body "address" in
  let amount := field req_body "amount" in
  let network := field req_body "network" in
  if negb (truthy address) || negb (isString address) then
    Normal (inl (bad_request "address is required"))
  else
    match address with
    | JStr a =>
        let addressTrimmed := trim a in
        match addressTrimmed with
        | [] => Normal (inl (bad_request "address is required"))
        | _ =>
            let detected : Reply + JsVal :=
              if negb (truthy network) then
                match detect_network addressTrimmed with
                | Some n => inr (JStr n)
                | None => inl (bad_request
                    "Invalid address format. Supported networks: TRC20 (starts with T, 34 chars) or Solana (32-44 base58 chars)")
                end
              else inr network in
            match detected with
            | inl r => Normal (inl r)
            | inr detectedNetwork =>
                if truthy network && negb (is_str network "TRX")
                   && negb (is_str network "SOL")
                then Normal (inl (bad_request
                       "network must be 'TRX' (TRC20) or 'SOL' (Solana)"))
                else if nullish amount then
                  Normal (inr {| addressTrimmed := addressTrimmed;
                                 detectedNetwork := detectedNetwork;
                                 withdrawalAmount := None |})
                else
                  let! n := ToNumber amount in
                  if isNaN n || num_le n zero then
                    Normal (inl (bad_request
                      "amount must be a positive number (in USDT)"))
                  else
                    Normal (inr {| addressTrimmed := addressTrimmed;
                                   detectedNetwork := detectedNetwork;
                                   withdrawalAmount := Some n |})
            end
        end
    | _ => Normal (inl (bad_request "address is required"))
    end.

Definition no_balance : Reply :=
  json [(js "status", str "failed");
        (js "reason", str "insufficient_funds");
        (js "message", str "Insufficient USDT balance");
        (js "availableAmount", JNum zero);
        (js "availableAmountUnit", str "USDT")].

Definition amount_below_minimum `{Host} (finalAmount minWithdrawal : Number) : Reply :=
  json [(js "status", str "failed");
        (js "reason", str "amount_below_minimum");
        (js "message",
           JStr (js "Withdrawal amount " ++ NumberToString finalAmount
                 ++ js " USDT is below minimum " ++ NumberToString minWithdrawal
                 ++ js " USDT"));
        (js "requestedAmount", JNum finalAmount);
        (js "minWithdrawalAmount", JNum minWithdrawal);
        (js "amountUnit", str "USDT")].

Definition exceeds_balance `{Host} (finalAmount availableAmount : Number) : Reply :=
  json [(js "status", str "failed");
        (js "reason", str "insufficient_funds");
        (js "message",
           JStr (js "Requested amount " ++ NumberToString finalAmount
                 ++ js " USDT exceeds available balance "
                 ++ NumberToString availableAmount ++ js " USDT"));
        (js "requestedAmount", JNum finalAmount);
        (js "requestedAmountUnit", str "USDT");
        (js "availableAmount", JNum availableAmount);
        (js "availableAmountUnit", str "USDT")].

Inductive Gate : Type :=
| Refused (r : Reply)
| Cleared (finalAmount : Number).

(** The three checks between the balance query and the submission, in the
    state [st] found when the balance arrives. *)
Definition withdraw_gates `{Host} (st : State) (withdrawalAmount : option Number)
    (availableAmount : Number) : Gate :=
  if num_le availableAmount zero then Refused no_balance
  else
    let finalAmount :=
      match withdrawalAmount with
      | Some a => a
      | None => availableAmount
      end in
    if num_lt finalAmount (MIN_WITHDRAWAL_AMOUNT st) then
      Refused (amount_below_minimum finalAmount (MIN_WITHDRAWAL_AMOUNT st))
    else if num_gt finalAmount availableAmount then
      Refused (exceeds_balance finalAmount availableAmount)
    else Cleared finalAmount.

Definition withdrawal_complete (result : JsVal) (finalAmount : Number)
    (wd : Withdrawal) : Reply :=
  json [(js "status", str "complete");
        (js "withdrawalId", prop result (js "id"));
        (js "amount", JNum finalAmount);
        (js "amountUnit", str "USDT");
        (js "address", JStr (addressTrimmed wd));
        (js "network", detectedNetwork wd);
        (js "message", str "Withdrawal initiated successfully")].

(** The body of the [try] block. *)
Definition withdraw_try `{Host} (e : Env) (w : World) (st : State) (wd : Withdrawal)
  : Net Reply :=
  net_bind (getUSDTBalance (credentials e) w)
    (fun availableAmount =>
       match withdraw_gates st (withdrawalAmount wd) availableAmount with
       | Refused r => net_ret r
       | Cleared finalAmount =>
           net_bind
             (withdrawUSDT (credentials e) w (addressTrimmed wd) finalAmount
                (detectedNetwork wd))
             (fun result =>
                if nullish result then
                  net_throw (cannot_read result "id")
                else net_ret (withdrawal_complete result finalAmount wd))
       end).

(** The [catch] block. *)
Definition withdraw_catch `{Host} (e : Env) (err : JsError) : Reply :=
  if truthy (logical_and (response err) (prop (response err) (js "data"))) then
    let binanceError := prop (response err) (js "data") in
    let errorMsg :=
      ToLowerString
        (logical_or
           (logical_or
              (logical_or (prop binanceError (js "msg")) (prop binanceError (js "message")))
              (JStr (message err)))
           (str "")) in
    if includes errorMsg (js "insufficient") || includes errorMsg (js "balance")
       || includes errorMsg (js "fund")
    then
      json [(js "status", str "failed");
            (js "reason", str "insufficient_funds");
            (js "message", logical_or (prop binanceError (js "msg")) (str "Insufficient funds"))]
    else
      json [(js "status", str "failed");
            (js "reason", str "withdrawal_error");
            (js "message", logical_or (prop binanceError (js "msg")) (str "Withdrawal failed"));
            (js "details", details e err)]
  else
    json [(js "status", str "failed");
          (js "reason", str "withdrawal_error");
          (js "message", str "Failed to process withdrawal");
          (js "details", details e err)].

(** The handler: the reply (or the error thrown by the validation) and
    the requests sent.  It reads the state but does not change it. *)
Definition withdraw `{Host} (e : Env) (w : World) (st : State) (req_body : JsVal)
  : Completion Reply * list HttpCall :=
  match withdraw_validate req_body with
  | Throw err => (Throw err, [])
  | Normal (inl r) => (Normal r, [])
  | Normal (inr wd) =>
      match withdraw_try e w st wd with
      | (Normal r, calls) => (Normal r, calls)
      | (Throw err, calls) => (Normal (withdraw_catch e err), calls)
      end
  end.

(** *** GET /api/health *)

Definition health : Reply := json [(js "ok", JBool true)].

(** *** GET /api/debug/deposits *)

(** [process.env.NODE_ENV === "development"] *)
Definition is_development (e : Env) : bool :=
  match NODE_ENV e with
  | Some v => streq v (js "development")
  | None => false
  end.

(** The record the debug listing shows for [d]. *)
Definition safe_record (d : JsVal) : JsVal :=
  JObj [(js "txId", prop d (js "txId"));
        (js "amount", prop d (js "amount"));
        (js "status", prop d (js "status"));
        (js "insertTime", prop d (js "insertTime"));
        (js "network", prop d (js "network"))].

(** [deposits.map((d) => ({ txId: d.txId, ... }))]; reading a property of
    [null] or [undefined] throws a TypeError. *)
Fixpoint safe_records (deposits : list JsVal) : Completion (list JsVal) :=
  match deposits with
  | [] => Normal []
  | d :: rest =>
      if nullish d then Throw (cannot_read d "txId")
      else
        let! rest' := safe_records rest in
        Normal (safe_record d :: rest')
  end.

(** The handler: the reply and the requests sent. *)
Definition debug_deposits `{Host} (e : Env) (w : World) : Reply * list HttpCall :=
  if negb (is_development e) then
    (status_json 404 [(js "error", str "Not found")], [])
  else
    let '(fetched, calls) :=
      getDepositHistory (credentials e) w (str "USDT") JUndefined JUndefined
        (JNum (num 50)) in
    match (let! deposits := fetched in safe_records deposits) with
    | Normal safe =>
        (json [(js "count", JNum (num (Z.of_nat (length safe))));
               (js "deposits", JArr safe)], calls)
    | Throw err =>
        (status_json 500 [(js "error", JStr (error_text err))], calls)
    end.

End Server.

(** ** The maintenance script ([scripts/clear-db.js]) *)

Module ClearDb.
Import Js Db.

(** What the script prints: the numbers of rows it found in the two
    tables. *)
Record Report : Type := mkReport {
  txCount : nat;
  settingsCount : nat;
  cleared_db : Database
}.

(** The script on a database file: [None] when the file does not exist
    (the script exits with status 1), otherwise the two DELETE statements,
    which throw when the database refuses the write.  The AUTOINCREMENT
    counter survives a DELETE. *)
Definition clear_db (file : option Database) : option (Completion Report) :=
  match file with
  | None => None
  | Some d =>
      Some (if negb (writable d) then
              Throw (SqliteError "attempt to write a readonly database")
            else
              Normal {| txCount := length (processed_transactions d);
                        settingsCount := size (settings d);
                        cleared_db :=
                          {| processed_transactions := [];
                             last_id := last_id d;
                             settings := ∅;
                             datetime_now := datetime_now d;
                             writable := writable d |} |})
  end.

End ClearDb.
(** ** Specifications and worked examples *)

Import Js Db BinanceClient Server ClearDb.

(** *** The address classifier *)

(** Family A: the letter T followed by 33 characters among the letters and
    the digits 1 to 9.  Family B: 32 to 44 characters of the base-58
    alphabet (digits and letters without 0, I, O and l). *)
Definition alnum_no_zero (c : N) : Prop :=
  (65 <= c <= 90 \/ 97 <= c <= 122 \/ 49 <= c <= 57)%N.

Definition base58 (c : N) : Prop :=
  (49 <= c <= 57 \/ 65 <= c <= 72 \/ 74 <= c <= 78 \/ 80 <= c <= 90
   \/ 97 <= c <= 107 \/ 109 <= c <= 122)%N.

Definition FamilyA (a : jstring) : Prop :=
  exists rest, a = 84%N :: rest /\ length rest = 33%nat /\ Forall alnum_no_zero rest.

Definition FamilyB (a : jstring) : Prop :=
  (32 <= length a <= 44)%nat /\ Forall base58 a.

(** [T] followed by 33 times the digit 1: it has both shapes. *)
Definition address_T1 : jstring := js "T111111111111111111111111111111111".

(** A Solana address: 44 base-58 characters, not starting with T. *)
Definition address_sol : jstring := js "7xKXtg2CW87d97TXJSDpbD5jBkheTqA83TZRuJosgAsU".

(** An address with neither shape: it contains the digit 0. *)
Definition address_bad : jstring := js "0x52908400098527886E0F7030069857D2E4169EE7".


(** *** A host for the worked examples

    The examples below run the handlers on concrete requests.  They use
    this host, which agrees with Node on the values the examples pass to
    it: [Number] on strings of decimal digits, on the empty string and on
    "Infinity", [String] on integers below 10^21, and the ISO text of one
    instant.  General statements never mention it: they hold for every
    host. *)

Fixpoint digits_value (acc : Z) (s : jstring) : option Z :=
  match s with
  | [] => Some acc
  | c :: s' =>
      if in_range 48 57 c then digits_value (10 * acc + Z.of_N (c - 48)) s'
      else None
  end.

Definition example_StringToNumber (s : jstring) : Number :=
  match trim s with
  | [] => zero
  | t =>
      if streq t (js "Infinity") then Infinity
      else match digits_value 0 t with
           | Some z => num z
           | None => NaN
           end
  end.

Definition example_NumberToString (n : Number) : jstring :=
  match n with
  | S754_nan => js "NaN"
  | S754_infinity s => js (if s then "-Infinity" else "Infinity")
  | S754_zero _ => js "0"
  | S754_finite s m e =>
      js (NilZero.string_of_int
            (Z.to_int ((if s then -1 else 1) * Z.shiftl (Zpos m) e)))
  end.

(** 2026-01-22T08:11:24.000Z in milliseconds since the epoch *)
Definition example_instant : Number := num 1769069484000.
Definition example_instant_text : jstring := js "2026-01-22T08:11:24.000Z".

Definition example_DateToISOString (v : JsVal) : Completion jstring :=
  match v with
  | JNum n =>
      if num_eq n example_instant then Normal example_instant_text
      else Throw {| name := js "RangeError"; message := js "Invalid time value";
                    response := JUndefined |}
  | _ => Throw {| name := js "RangeError"; message := js "Invalid time value";
                  response := JUndefined |}
  end.

Definition example_host : Host :=
  {| StringToNumber := example_StringToNumber;
     ObjectToNumber := fun _ => Normal NaN;
     NumberToString := example_NumberToString;
     DateToISOString := example_DateToISOString;
     ToLowerString := fun v => match v with JStr s => s | _ => [] end;
     encodeURIComponent := fun v =>
       match v with
       | JStr s => if isWellFormed s then Normal s else Throw (URIError "URI malformed")
       | JNum n => Normal (example_NumberToString n)
       | _ => Normal []
       end;
     hmacSha256Hex := fun _ _ => js "00" |}.

Definition empty_db : Database :=
  {| processed_transactions := [];
     last_id := 0;
     settings := ∅;
     datetime_now := js "2026-01-22 08:12:00";
     writable := true |}.

Definition example_env : Env :=
  {| env_KES_PER_USDT := Some (js "150");
     env_MIN_DEPOSIT_AMOUNT := None;
     env_MIN_WITHDRAWAL_AMOUNT := None;
     NODE_ENV := Some (js "production");
     credentials := {| BINANCE_API_KEY := Some (js "key");
                       BINANCE_API_SECRET := Some (js "secret") |} |}.

Definition example_state : State :=
  {| KES_PER_USDT := num 150;
     MIN_DEPOSIT_AMOUNT := num 10;
     MIN_WITHDRAWAL_AMOUNT := num 10;
     db := empty_db |}.

(** *** Worlds and credentials for the examples *)

(** Credentials with the API key unset. *)
Definition no_key : Credentials :=
  {| BINANCE_API_KEY := None; BINANCE_API_SECRET := Some (js "secret") |}.

(** A world in which every request is answered with an empty array. *)
Definition quiet_world : World :=
  {| Date_now := example_instant; axios := fun _ => Normal (JArr []) |}.

(** A world whose account holds [free] USDT and that accepts every
    withdrawal. *)
Definition world_with_balance (free : string) : World :=
  {| Date_now := example_instant;
     axios := fun c =>
       match call_method c with
       | GET =>
           Normal (JObj [(js "balances",
                          JArr [JObj [(js "asset", str "BTC"); (js "free", str "1")];
                                JObj [(js "asset", str "USDT"); (js "free", str free)]])])
       | POST => Normal (JObj [(js "id", str "w-1")])
       end |}.

(** [{ "address": "7xKX..." }]: no amount, no network. *)
Definition withdraw_all_request : JsVal :=
  JObj [(js "address", JStr address_sol)].

(** What validation makes of it. *)
Definition withdraw_all_validated : Withdrawal :=
  {| addressTrimmed := address_sol;
     detectedNetwork := str "SOL";
     withdrawalAmount := None |}.

(** The requests the balance query sends in that world. *)
Definition balance_calls (free : string) : list HttpCall :=
  snd (@getUSDTBalance example_host (credentials example_env) (world_with_balance free)).

(** *** Reading a reply *)

Definition reason (r : Reply) : JsVal := prop (body r) (js "reason").
Definition reply_field (r : Reply) (k : string) : JsVal := prop (body r) (js k).

(** The amount the withdrawal handler resolves: the one supplied, or the
    whole available balance. *)
Definition resolved_amount (wd : Withdrawal) (availableAmount : Number) : Number :=
  match withdrawalAmount wd with
  | Some a => a
  | None => availableAmount
  end.

(** *** The configuration *)

(** What the three variables satisfy: each is a number (not NaN) with the
    sign its endpoint checks. *)
Definition config_ok (st : State) : Prop :=
  positive (KES_PER_USDT st) = true /\
  non_negative (MIN_DEPOSIT_AMOUNT st) = true /\
  positive (MIN_WITHDRAWAL_AMOUNT st) = true.

(** The same, with finiteness: the invariant as the specification words
    it. *)
Definition config_finite (st : State) : Prop :=
  config_ok st /\
  isFinite (KES_PER_USDT st) = true /\
  isFinite (MIN_DEPOSIT_AMOUNT st) = true /\
  isFinite (MIN_WITHDRAWAL_AMOUNT st) = true.

Definition same_config (st st' : State) : Prop :=
  KES_PER_USDT st' = KES_PER_USDT st /\
  MIN_DEPOSIT_AMOUNT st' = MIN_DEPOSIT_AMOUNT st /\
  MIN_WITHDRAWAL_AMOUNT st' = MIN_WITHDRAWAL_AMOUNT st.

(** The requests to the configuration endpoints. *)
Inductive ConfigRequest : Type :=
| GetRate
| PostRate (req_body : JsVal)
| GetMinDeposit
| PostMinDeposit (req_body : JsVal)
| GetMinWithdrawal
| PostMinWithdrawal (req_body : JsVal).

Definition config_handle `{Host} (st : State) (r : ConfigRequest)
  : Completion Reply * State :=
  match r with
  | GetRate => (Normal (get_rate st), st)
  | PostRate b => post_rate st b
  | GetMinDeposit => (Normal (get_min_deposit st), st)
  | PostMinDeposit b => post_min_deposit st b
  | GetMinWithdrawal => (Normal (get_min_withdrawal st), st)
  | PostMinWithdrawal b => post_min_withdrawal st b
  end.

(** The state after a sequence of requests, handled one after the other
    (these handlers never wait, so they do not interleave). *)
Fixpoint config_run `{Host} (st : State) (rs : list ConfigRequest) : State :=
  match rs with
  | [] => st
  | r :: rs' => config_run (snd (config_handle st r)) rs'
  end.

(** The values the three POST handlers accept, read off their guards. *)
Definition valid_rate `{Host} (v : JsVal) (n : Number) : Prop :=
  ToNumber v = Normal n /\ truthy v = true /\ isNaN n = false /\ num_le n zero = false.

Definition valid_min_deposit `{Host} (v : JsVal) (n : Number) : Prop :=
  ToNumber v = Normal n /\ nullish v = false /\ isNaN n = false /\ num_lt n zero = false.

Definition valid_min_withdrawal `{Host} (v : JsVal) (n : Number) : Prop :=
  ToNumber v = Normal n /\ nullish v = false /\ isNaN n = false /\ num_le n zero = false.

(** A database that holds the rate 150 and refuses writes, and the state
    of a server running on it. *)
Definition readonly_db : Database :=
  {| processed_transactions := [];
     last_id := 0;
     settings := {[ js "KES_PER_USDT" := js "150" ]};
     datetime_now := js "2026-01-22 08:12:00";
     writable := false |}.

Definition readonly_state : State := set_db example_state readonly_db.

(** [{ "rate": 200 }] and [{ "rate": 1e999 }]; [JSON.parse] reads the
    literal [1e999] as [Infinity]. *)
Definition rate_200 : JsVal := JObj [(js "rate", JNum (num 200))].
Definition rate_overflow : JsVal := JObj [(js "rate", JNum Infinity)].

(** *** Deposit claims *)

(** The two spellings of one claim. *)
Definition bare_id : jstring := js "344178838453".
Definition prefixed_id : jstring := js "Off-chain transfer 344178838453".

(** Every stored identifier carries the prefix: what holds of a store that
    only the deposit handler has written to. *)
Definition prefixed_store (d : Database) : Prop :=
  Forall (fun r => startsWith (txId r) OFF_CHAIN_PREFIX = true)
         (processed_transactions d).

(** What [deposit_matches] accepts: a record whose [txId] is a string
    equal, as it is or trimmed, to one of the two candidate keys, and whose
    [status] converts to the number 1. *)
Definition is_match `{Host} (txIdTrimmed normalizedTxId : jstring) (d : JsVal) : Prop :=
  exists s x,
    prop d (js "txId") = JStr s /\
    (s = normalizedTxId \/ trim s = normalizedTxId \/ s = txIdTrimmed \/ trim s = txIdTrimmed) /\
    ToNumber (prop d (js "status")) = Normal x /\
    num_eq x (num 1) = true.

(** An upstream record: confirmed when [status] is 1. *)
Definition deposit_record (id : jstring) (amount : JsVal) (status : Z) : JsVal :=
  JObj [(js "txId", JStr id);
        (js "amount", amount);
        (js "status", JNum (num status));
        (js "insertTime", JNum example_instant);
        (js "network", str "BSC")].

(** A world whose deposit history is [records]. *)
Definition world_with_history (records : list JsVal) : World :=
  {| Date_now := example_instant; axios := fun _ => Normal (JArr records) |}.

(** [{ "txId": raw }] *)
Definition claim (raw : jstring) : JsVal := JObj [(js "txId", JStr raw)].

(** The row a settlement appends to [processed_transactions]. *)
Definition settled_row (d : Database) (normalizedTxId : jstring)
    (confirmedAmount rewardKes : Number) (confirmedAt : jstring) : Row :=
  {| id := last_id d + 1;
     txId := normalizedTxId;
     asset := js "USDT";
     amount := confirmedAmount;
     rewardKes := rewardKes;
     confirmedAt := confirmedAt;
     createdAt := datetime_now d |}.

(** [Number(match.amount || 0)] *)
Definition confirmed_amount `{Host} (m : JsVal) : Completion Number :=
  ToNumber (logical_or (prop m (js "amount")) (JNum zero)).

(** [new Date(match.insertTime || Date.now()).toISOString()] *)
Definition confirmed_at `{Host} (w : World) (m : JsVal) : Completion jstring :=
  DateToISOString (logical_or (prop m (js "insertTime")) (JNum (Date_now w))).

(** The minimum-deposit test of the handler. *)
Definition below_minimum (st : State) (confirmedAmount : Number) : bool :=
  num_gt (MIN_DEPOSIT_AMOUNT st) zero && num_lt confirmedAmount (MIN_DEPOSIT_AMOUNT st).


(** The upstream record of the claim with a given amount field. *)
Definition record_of (amount : JsVal) : JsVal := deposit_record prefixed_id amount 1.

(** The example state with another minimum deposit. *)
Definition state_with_minimum (minimum : Number) : State :=
  {| KES_PER_USDT := num 150;
     MIN_DEPOSIT_AMOUNT := minimum;
     MIN_WITHDRAWAL_AMOUNT := num 10;
     db := empty_db |}.

(** The store after another request has settled the claim for 10 USDT. *)
Definition settled_db : Database :=
  {| processed_transactions :=
       [settled_row empty_db prefixed_id (num 10) (num 1500) example_instant_text];
     last_id := 1;
     settings := ∅;
     datetime_now := js "2026-01-22 08:12:01";
     writable := true |}.

(** Doubles for the rounding examples: 2^53 - 1, the double nearest to
    0.1 and the double nearest to 0.3. *)
Definition max_safe_integer : Number := num 9007199254740991.
Definition one_tenth : Number := S754_finite false 7205759403792794 (-56).
Definition three_tenths : Number := S754_finite false 5404319552844595 (-54).

(** The state in which the claim is submitted (rate 150, no minimum), and
    the state after a [POST /api/rate] has set the rate to 200. *)
Definition submitted_state : State := state_with_minimum zero.

Definition repriced_state : State :=
  {| KES_PER_USDT := num 200;
     MIN_DEPOSIT_AMOUNT := zero;
     MIN_WITHDRAWAL_AMOUNT := num 10;
     db := empty_db |}.

(** A state whose rate is 3. *)
Definition rate_3_state : State :=
  {| KES_PER_USDT := num 3;
     MIN_DEPOSIT_AMOUNT := zero;
     MIN_WITHDRAWAL_AMOUNT := num 10;
     db := empty_db |}.

(** The state in which the verification resumes after another request has
    settled the same claim. *)
Definition overtaken_state : State := set_db submitted_state settled_db.

(** The row that request wrote. *)
Definition winning_row : Row :=
  settled_row empty_db prefixed_id (num 10) (num 1500) example_instant_text.

(** The history both requests see. *)
Definition confirmed_10 : list JsVal := [record_of (JNum (num 10))].

(** *** The store *)

(** No two rows of [processed_transactions] have the same identifier, as
    the store keeps it: the UNIQUE constraint. *)
Definition unique_ids (d : Database) : Prop :=
  NoDup (map (fun r => stored_text (txId r)) (processed_transactions d)).

(** The row [insert] appends for a record to the database [d]. *)
Definition row_of (d : Database) (r : TxRecord) : Row :=
  {| id := last_id d + 1;
     txId := rec_txId r;
     asset := rec_asset r;
     amount := rec_amount r;
     rewardKes := rec_rewardKes r;
     confirmedAt := rec_confirmedAt r;
     createdAt := datetime_now d |}.



(** *** Runs of the server

    The stretches of handler code that change the state: a request to a
    configuration endpoint, and the second stretch of a deposit
    verification (for a claim that passed validation, so that its
    canonical identifier is the normal form of its trimmed text).  The
    withdrawal handler and the first stretch of the deposit handler only
    read the state. *)
Inductive server_step `{Host} : State -> State -> Prop :=
| step_config (st : State) (r : ConfigRequest) :
    server_step st (snd (config_handle st r))
| step_deposit (e : Env) (w : World) (st : State) (t : jstring)
    (fetched : Completion (list JsVal)) :
    server_step st (snd (deposit_txid_resume e w st t (normalize t) fetched)).

Inductive server_run `{Host} : State -> State -> Prop :=
| run_done (st : State) : server_run st st
| run_more (st st' st'' : State) :
    server_step st st' -> server_run st' st'' -> server_run st st''.






(** *** Identifiers *)

Definition whitespace (l : jstring) : Prop := Forall (fun c => isWhiteSpace c = true) l.

(** The canonical identifier of a submitted text. *)
Definition canonical (raw : jstring) : jstring := normalize (trim raw).

(** *** Settings in memory and in the store *)

(** The store agrees with the value in memory under [key]: it holds a text
    that [Number] reads as that value, or the text [String] makes of it. *)
Definition agrees `{Host} (d : Database) (key : string) (value : Number) : Prop :=
  exists s, getSetting d (js key) = Some s /\
            (StringToNumber s = value \/ s = NumberToString value).

(** The text of [n] reads back as [n]: [Number(String(n)) === n], which
    JavaScript guarantees for every number but NaN. *)
Definition reads_back `{Host} (n : Number) : Prop :=
  num_eq (StringToNumber (NumberToString n)) n = true.

(** *** Withdrawals *)

(** The request [getUSDTBalance] sends when the credentials are set and
    the signed address is [url]. *)
Definition account_call (c : Credentials) (url : jstring) : HttpCall :=
  {| call_method := GET;
     call_url := url;
     call_api_key := env_or (BINANCE_API_KEY c) [] |}.

(** The signed address of the account query in the examples. *)
Definition account_url : jstring :=
  js "https://api.binance.com/api/v3/account?recvWindow=60000&timestamp=1769069484000&signature=00".

(** An entry of [balances] that is not the USDT one. *)
Definition other_asset (b : JsVal) : Prop :=
  nullish b = false /\ prop b (js "asset") <> str "USDT".

(** [{ "address": "7xKX...", "amount": 20 }] *)
Definition withdraw_20_request : JsVal :=
  JObj [(js "address", JStr address_sol); (js "amount", JNum (num 20))].



(** *** The debug listing *)

(** The five fields the listing shows. *)
Definition listed_keys : list jstring :=
  [js "txId"; js "amount"; js "status"; js "insertTime"; js "network"].

(** The environment of a development server. *)
Definition development_env : Env :=
  {| env_KES_PER_USDT := None;
     env_MIN_DEPOSIT_AMOUNT := None;
     env_MIN_WITHDRAWAL_AMOUNT := None;
     NODE_ENV := Some (js "development");
     credentials := credentials example_env |}.

(** [getDepositHistory({ coin: "USDT", limit: 50 })] *)
Definition fetch_recent `{Host} (e : Env) (w : World) : Net (list JsVal) :=
  getDepositHistory (credentials e) w (str "USDT") JUndefined JUndefined (JNum (num 50)).

(** *** Request signing *)

(** The order of two entries by their keys. *)
Definition key_lt (x y : jstring * JsVal) : Prop := str_lt (fst x) (fst y) = true.

(** [{ recvWindow: 60000, ...params, timestamp }]: the parameters that
    [binanceGet] and [binancePost] sign. *)
Definition signed_params (w : World) (params : list (jstring * JsVal))
  : list (jstring * JsVal) :=
  obj_set (js "timestamp") (JNum (Date_now w))
    (spread [(js "recvWindow", JNum (num 60000))] params).

(** Two listings of the same parameters. *)
Definition params_ab : list (jstring * JsVal) :=
  [(js "coin", str "USDT"); (js "limit", JNum (num 1000))].
Definition params_ba : list (jstring * JsVal) :=
  [(js "limit", JNum (num 1000)); (js "coin", str "USDT")].

(** *** Data of the worked examples for the further properties *)

(** The state after the claim of [confirmed_10] is settled from
    [submitted_state]. *)
Definition settled_state : State :=
  snd (@deposit_txid_resume example_host example_env
         (world_with_history confirmed_10) submitted_state
         bare_id (normalize bare_id) (Normal confirmed_10)).

(** The prefixed spelling between a space and a line feed. *)
Definition padded_id : jstring := 32%N :: prefixed_id ++ [10%N].

(** The requests of a withdrawal of 20 USDT from a balance of 50, and the
    second of them. *)
Definition withdraw_20_calls : list HttpCall :=
  snd (@withdraw example_host example_env (world_with_balance "50") example_state
         withdraw_20_request).

Definition withdraw_20_post : HttpCall :=
  nth 1 withdraw_20_calls
    {| call_method := GET; call_url := []; call_api_key := [] |}.

(** The two entries of [balances] in [world_with_balance]. *)
Definition btc_entry : JsVal := JObj [(js "asset", str "BTC"); (js "free", str "1")].
Definition usdt_entry (free : string) : JsVal :=
  JObj [(js "asset", str "USDT"); (js "free", str free)].

(** *** Errors of the exchange *)





(** ** Properties *)

(** *** The address classifier *)

Lemma in_range_spec lo hi c :
  in_range lo hi c = true <-> (lo <= c <= hi)%N.
Proof.
  unfold in_range. rewrite andb_true_iff, !N.leb_le. tauto.
Qed.

Lemma trx_char_spec c : trx_char c = true <-> alnum_no_zero c.
Proof.
  unfold trx_char, alnum_no_zero.
  rewrite !orb_true_iff, !in_range_spec. tauto.
Qed.

Lemma base58_char_spec c : base58_char c = true <-> base58 c.
Proof.
  unfold base58_char, base58.
  rewrite !orb_true_iff, !in_range_spec. tauto.
Qed.

Lemma forallb_Forall_iff {A} (f : A -> bool) (P : A -> Prop) (l : list A) :
  (forall x, f x = true <-> P x) ->
  forallb f l = true <-> Forall P l.
Proof.
  intros Hf. induction l as [|x l IH]; simpl.
  - split; [constructor | reflexivity].
  - rewrite andb_true_iff, IH, Hf. split.
    + intros [? ?]. now constructor.
    + intros HF. inversion HF; subst. tauto.
Qed.

Lemma trx_shape_spec a : trx_shape a = true <-> FamilyA a.
Proof.
  unfold trx_shape, FamilyA. destruct a as [|t rest].
  - split; [discriminate | intros (r & Hr & _); discriminate].
  - rewrite !andb_true_iff, N.eqb_eq, Nat.eqb_eq,
      (forallb_Forall_iff _ _ _ trx_char_spec).
    split.
    + intros [[-> Hl] HF]. exists rest. auto.
    + intros (r & Hr & Hl & HF). injection Hr as -> ->. auto.
Qed.

Lemma sol_shape_spec a : sol_shape a = true <-> FamilyB a.
Proof.
  unfold sol_shape, FamilyB.
  rewrite !andb_true_iff, !Nat.leb_le, (forallb_Forall_iff _ _ _ base58_char_spec).
  tauto.
Qed.

Lemma detect_network_cases a :
  (FamilyA a -> detect_network a = Some (js "TRX")) /\
  (FamilyB a -> ~ FamilyA a -> detect_network a = Some (js "SOL")) /\
  (~ FamilyA a -> ~ FamilyB a -> detect_network a = None).
Proof.
  unfold detect_network.
  destruct (trx_shape a) eqn:HA; destruct (sol_shape a) eqn:HB;
    repeat split; intros; try reflexivity; exfalso;
    repeat match goal with
    | H : FamilyA _ |- _ => apply trx_shape_spec in H
    | H : FamilyB _ |- _ => apply sol_shape_spec in H
    | H : ~ FamilyA _ |- _ => rewrite <- trx_shape_spec in H
    | H : ~ FamilyB _ |- _ => rewrite <- sol_shape_spec in H
    end; congruence.
Qed.

(** What the server does with a request that names no network and no
    amount: it classifies the trimmed address. *)
Lemma withdraw_validate_detects `{Host} req_body raw :
  field req_body "address" = JStr raw ->
  trim raw <> [] ->
  truthy (field req_body "network") = false ->
  nullish (field req_body "amount") = true ->
  withdraw_validate req_body =
  match detect_network (trim raw) with
  | Some net =>
      Normal (inr {| addressTrimmed := trim raw;
                     detectedNetwork := JStr net;
                     withdrawalAmount := None |})
  | None =>
      Normal (inl (bad_request
        "Invalid address format. Supported networks: TRC20 (starts with T, 34 chars) or Solana (32-44 base58 chars)"))
  end.
Proof.
  intros Ha Ht Hn Hm. unfold withdraw_validate. rewrite Ha, Hn, Hm.
  assert (Hr : truthy (JStr raw) = true).
  { destruct raw; [|reflexivity]. now elim Ht. }
  rewrite Hr. simpl negb. simpl orb. cbv iota.
  destruct (trim raw) as [|c t']; [now elim Ht|].
  destruct (detect_network (c :: t')); reflexivity.
Qed.

(** What the client does with a call that names no network. *)
Lemma withdrawUSDT_detects `{Host} c w address amount network :
  truthy network = false ->
  withdrawUSDT c w address amount network =
  match detect_network address with
  | Some net =>
      binancePost c w (js "/sapi/v1/capital/withdraw/apply")
        [(js "coin", str "USDT"); (js "network", JStr net);
         (js "address", JStr address); (js "amount", JNum amount)]
  | None =>
      net_throw (new_Error
        "Unable to detect network from address format. Please specify network.")
  end.
Proof.
  intros Hn. unfold withdrawUSDT. rewrite Hn.
  destruct (detect_network address); reflexivity.
Qed.

(** C7 (as amended): when no network is supplied, the server classifies
    the trimmed address and the client the address it is given, with the
    same classifier: an address of Family A is classified TRX, whether or
    not it is also of Family B; an address of Family B that is not of
    Family A is classified SOL; an address of neither family is not
    classified (the server answers 400, the client throws). *)
Theorem detect_network_families `{Host} (a : jstring) :
  (FamilyA a -> detect_network a = Some (js "TRX")) /\
  (FamilyB a -> ~ FamilyA a -> detect_network a = Some (js "SOL")) /\
  (~ FamilyA a -> ~ FamilyB a -> detect_network a = None) /\
  (forall req_body raw,
     field req_body "address" = JStr raw ->
     trim raw = a ->
     a <> [] ->
     truthy (field req_body "network") = false ->
     nullish (field req_body "amount") = true ->
     withdraw_validate req_body =
     match detect_network a with
     | Some net =>
         Normal (inr {| addressTrimmed := a;
                        detectedNetwork := JStr net;
                        withdrawalAmount := None |})
     | None =>
         Normal (inl (bad_request
           "Invalid address format. Supported networks: TRC20 (starts with T, 34 chars) or Solana (32-44 base58 chars)"))
     end) /\
  (forall c w amount network,
     truthy network = false ->
     withdrawUSDT c w a amount network =
     match detect_network a with
     | Some net =>
         binancePost c w (js "/sapi/v1/capital/withdraw/apply")
           [(js "coin", str "USDT"); (js "network", JStr net);
            (js "address", JStr a); (js "amount", JNum amount)]
     | None =>
         net_throw (new_Error
           "Unable to detect network from address format. Please specify network.")
     end).
Proof.
  destruct (detect_network_cases a) as (HA & HB & HN).
  split; [exact HA|]. split; [exact HB|]. split; [exact HN|]. split.
  - intros req_body raw Hf <- Hne Hn Hm. now apply withdraw_validate_detects.
  - intros c w amount network. apply withdrawUSDT_detects.
Qed.

Lemma detect_network_families_witness :
  detect_network address_T1 = Some (js "TRX") /\
  detect_network address_sol = Some (js "SOL") /\
  detect_network address_bad = None /\
  @withdraw_validate example_host withdraw_all_request
  = Normal (inr withdraw_all_validated).
Proof.
  split; [|split; [|split]].
  - apply (proj1 (@detect_network_families example_host address_T1)).
    apply trx_shape_spec. vm_compute. reflexivity.
  - apply (proj1 (proj2 (@detect_network_families example_host address_sol))).
    + apply sol_shape_spec. vm_compute. reflexivity.
    + intros HA. apply trx_shape_spec in HA. vm_compute in HA. discriminate.
  - apply (proj1 (proj2 (proj2 (@detect_network_families example_host address_bad)))).
    + intros HA. apply trx_shape_spec in HA. vm_compute in HA. discriminate.
    + intros HB. apply sol_shape_spec in HB. vm_compute in HB. discriminate.
  - rewrite (proj1 (proj2 (proj2 (proj2 (@detect_network_families example_host
               address_sol)))) withdraw_all_request address_sol);
      try (vm_compute; reflexivity).
    vm_compute. discriminate.
Defined.

(** C7 (as stated) fails: [address_T1] has the shape of both families and
    is classified TRX, where the claim has classification fail. *)
Lemma detect_network_both_shapes :
  trx_shape address_T1 = true /\ sol_shape address_T1 = true /\
  detect_network address_T1 = Some (js "TRX").
Proof. vm_compute. repeat split. Qed.

(** *** The signed request client *)

Lemma net_bind_throw {A B} (e : JsError) (f : A -> Net B) :
  net_bind (net_throw e) f = net_throw e.
Proof. reflexivity. Qed.

Lemma binanceGet_not_configured `{Host} c w path params :
  absent (BINANCE_API_KEY c) = true \/ absent (BINANCE_API_SECRET c) = true ->
  binanceGet c w path params = (Throw not_configured, []).
Proof.
  intros Hc. unfold binanceGet.
  destruct Hc as [-> | ->]; [|rewrite orb_true_r]; reflexivity.
Qed.

Lemma binancePost_not_configured `{Host} c w path params :
  absent (BINANCE_API_KEY c) = true \/ absent (BINANCE_API_SECRET c) = true ->
  binancePost c w path params = (Throw not_configured, []).
Proof.
  intros Hc. unfold binancePost.
  destruct Hc as [-> | ->]; [|rewrite orb_true_r]; reflexivity.
Qed.

(** A request that passed validation has a network. *)
Lemma validated_network_truthy `{Host} req_body wd :
  withdraw_validate req_body = Normal (inr wd) ->
  truthy (detectedNetwork wd) = true.
Proof.
  unfold withdraw_validate.
  destruct (negb (truthy (field req_body "address")) || _); [discriminate|].
  destruct (field req_body "address") as [| | | |a| |]; try discriminate.
  destruct (trim a) as [|c0 t0]; [discriminate|].
  destruct (truthy (field req_body "network")) eqn:Hn; simpl negb; cbv iota.
  - destruct (true && _ && _); [discriminate|].
    destruct (nullish _); [now intros [= <-]|].
    destruct (ToNumber _) as [x|]; simpl; [|discriminate].
    destruct (isNaN x || num_le x zero); [discriminate|]. now intros [= <-].
  - unfold detect_network.
    destruct (trx_shape (c0 :: t0)); [|destruct (sol_shape (c0 :: t0)); [|discriminate]];
      simpl andb; cbv iota;
      (destruct (nullish _); [now intros [= <-]|]);
      (destruct (ToNumber _) as [x|]; simpl; [|discriminate]);
      (destruct (isNaN x || num_le x zero); [discriminate|]); now intros [= <-].
Qed.

(** C8: while the API key or the API secret is absent, a signed GET and a
    signed POST throw the not-configured error and send no request; so do
    the deposit-history and the balance calls, and the withdrawal call
    once its network is known (given, or detected from the address), as
    it always is when the server calls it.  The withdrawal call sends no
    request in any case. *)
Theorem not_configured_before_any_request `{Host} (c : Credentials) (w : World) :
  absent (BINANCE_API_KEY c) = true \/ absent (BINANCE_API_SECRET c) = true ->
  (forall path params, binanceGet c w path params = (Throw not_configured, [])) /\
  (forall path params, binancePost c w path params = (Throw not_configured, [])) /\
  (forall coin startTime endTime limit,
      getDepositHistory c w coin startTime endTime limit = (Throw not_configured, [])) /\
  getUSDTBalance c w = (Throw not_configured, []) /\
  (forall address amount network,
      snd (withdrawUSDT c w address amount network) = [] /\
      (truthy network = true \/ detect_network address <> None ->
       withdrawUSDT c w address amount network = (Throw not_configured, []))) /\
  (forall req_body wd amount,
      withdraw_validate req_body = Normal (inr wd) ->
      withdrawUSDT c w (addressTrimmed wd) amount (detectedNetwork wd)
      = (Throw not_configured, [])).
Proof.
  intros Hc.
  split; [|split; [|split; [|split; [|split; [intros; split|]]]]]; intros.
  - now apply binanceGet_not_configured.
  - now apply binancePost_not_configured.
  - unfold getDepositHistory. now rewrite binanceGet_not_configured.
  - unfold getUSDTBalance. now rewrite binanceGet_not_configured.
  - unfold withdrawUSDT.
    destruct (truthy network); [now rewrite binancePost_not_configured|].
    destruct (detect_network address); [now rewrite binancePost_not_configured|].
    reflexivity.
  - unfold withdrawUSDT.
    destruct (truthy network); [now rewrite binancePost_not_configured|].
    destruct (detect_network address); [now rewrite binancePost_not_configured|].
    destruct H0 as [? | ?]; [discriminate | congruence].
  - unfold withdrawUSDT. rewrite (validated_network_truthy _ _ H0).
    now rewrite binancePost_not_configured.
Qed.

Lemma not_configured_before_any_request_witness :
  absent (BINANCE_API_KEY no_key) = true /\
  @getUSDTBalance example_host no_key quiet_world = (Throw not_configured, []).
Proof.
  split; [reflexivity|].
  apply (@not_configured_before_any_request example_host no_key quiet_world).
  left. reflexivity.
Defined.

(** *** The withdrawal gates *)

Lemma withdraw_after_balance `{Host} e w st req_body wd availableAmount calls :
  withdraw_validate req_body = Normal (inr wd) ->
  getUSDTBalance (credentials e) w = (Normal availableAmount, calls) ->
  forall r,
    withdraw_gates st (withdrawalAmount wd) availableAmount = Refused r ->
    withdraw e w st req_body = (Normal r, calls).
Proof.
  intros Hv Hb r Hg. unfold withdraw, withdraw_try.
  rewrite Hv, Hb. simpl. rewrite Hg. simpl. now rewrite app_nil_r.
Qed.

(** C6: for a request that passed validation and a balance query that
    returned [availableAmount]: a balance that is [<= 0] is answered with
    insufficient_funds and an available amount of 0; otherwise the resolved
    amount is first compared with the minimum withdrawal (below it:
    amount_below_minimum) and then with the balance (above it:
    insufficient_funds carrying the requested and the available amounts).
    No withdrawal is submitted in any of these cases. *)
Theorem withdraw_gates_in_order `{Host} (e : Env) (w : World) (st : State)
    (req_body : JsVal) (wd : Withdrawal) (availableAmount : Number)
    (calls : list HttpCall) :
  withdraw_validate req_body = Normal (inr wd) ->
  getUSDTBalance (credentials e) w = (Normal availableAmount, calls) ->
  let finalAmount := resolved_amount wd availableAmount in
  let minimum := MIN_WITHDRAWAL_AMOUNT st in
  (num_le availableAmount zero = true ->
     withdraw e w st req_body = (Normal no_balance, calls)) /\
  (num_le availableAmount zero = false ->
   num_lt finalAmount minimum = true ->
     withdraw e w st req_body
     = (Normal (amount_below_minimum finalAmount minimum), calls)) /\
  (num_le availableAmount zero = false ->
   num_lt finalAmount minimum = false ->
   num_gt finalAmount availableAmount = true ->
     withdraw e w st req_body
     = (Normal (exceeds_balance finalAmount availableAmount), calls)) /\
  (reason no_balance = str "insufficient_funds" /\
   reply_field no_balance "availableAmount" = JNum zero) /\
  (reason (amount_below_minimum finalAmount minimum) = str "amount_below_minimum" /\
   reply_field (amount_below_minimum finalAmount minimum) "requestedAmount"
   = JNum finalAmount) /\
  (reason (exceeds_balance finalAmount availableAmount) = str "insufficient_funds" /\
   reply_field (exceeds_balance finalAmount availableAmount) "requestedAmount"
   = JNum finalAmount /\
   reply_field (exceeds_balance finalAmount availableAmount) "availableAmount"
   = JNum availableAmount).
Proof.
  intros Hv Hb finalAmount minimum.
  repeat split; try reflexivity.
  - intros H0. apply (withdraw_after_balance e w st req_body wd availableAmount calls Hv Hb).
    unfold withdraw_gates. now rewrite H0.
  - intros H0 H1.
    apply (withdraw_after_balance e w st req_body wd availableAmount calls Hv Hb).
    unfold withdraw_gates. rewrite H0.
    fold (resolved_amount wd availableAmount). fold finalAmount. fold minimum.
    now rewrite H1.
  - intros H0 H1 H2.
    apply (withdraw_after_balance e w st req_body wd availableAmount calls Hv Hb).
    unfold withdraw_gates. rewrite H0.
    fold (resolved_amount wd availableAmount). fold finalAmount. fold minimum.
    now rewrite H1, H2.
Qed.

Lemma withdraw_gates_in_order_witness :
  @withdraw_validate example_host withdraw_all_request
  = Normal (inr withdraw_all_validated) /\
  @getUSDTBalance example_host (credentials example_env) (world_with_balance "5")
  = (Normal (num 5), balance_calls "5") /\
  @withdraw example_host example_env (world_with_balance "5") example_state
    withdraw_all_request
  = (Normal (@amount_below_minimum example_host (num 5) (num 10)), balance_calls "5").
Proof.
  assert (Hv : @withdraw_validate example_host withdraw_all_request
               = Normal (inr withdraw_all_validated)) by (vm_compute; reflexivity).
  assert (Hb : @getUSDTBalance example_host (credentials example_env)
                 (world_with_balance "5") = (Normal (num 5), balance_calls "5"))
    by (vm_compute; reflexivity).
  split; [exact Hv|]. split; [exact Hb|].
  apply (proj1 (proj2 (@withdraw_gates_in_order example_host example_env
           (world_with_balance "5") example_state withdraw_all_request
           withdraw_all_validated (num 5) (balance_calls "5") Hv Hb)));
    vm_compute; reflexivity.
Defined.

(** *** Comparisons of numbers *)

Lemma positive_not_NaN n : positive n = true -> isNaN n = false.
Proof. destruct n; try reflexivity. discriminate. Qed.

Lemma non_negative_not_NaN n : non_negative n = true -> isNaN n = false.
Proof. destruct n; try reflexivity. discriminate. Qed.

(** [!(n <= 0)] for a number that is not NaN gives [n > 0]. *)
Lemma not_le_zero_positive n :
  isNaN n = false -> num_le n zero = false -> positive n = true.
Proof.
  destruct n as [s|s| |s m e]; try discriminate; intros _;
    destruct s; cbn; intros; congruence.
Qed.

(** [!(n < 0)] for a number that is not NaN gives [n >= 0]. *)
Lemma not_lt_zero_non_negative n :
  isNaN n = false -> num_lt n zero = false -> non_negative n = true.
Proof.
  destruct n as [s|s| |s m e]; try discriminate; intros _;
    destruct s; cbn; intros; congruence.
Qed.

(** *** The configuration *)

Lemma load_setting_ok `{Host} key ok from_env text default d n d' :
  ok default = true ->
  load_setting key ok from_env text default d = Normal (n, d') ->
  ok n = true.
Proof.
  intros Hd. unfold load_setting.
  assert (Hfb : forall x,
    (let! d' := setSetting d (js key)
         (if negb (isNaN (StringToNumber (env_or from_env (js text))))
             && ok (StringToNumber (env_or from_env (js text)))
          then StringToNumber (env_or from_env (js text)) else default) in
     Normal (if negb (isNaN (StringToNumber (env_or from_env (js text))))
                && ok (StringToNumber (env_or from_env (js text)))
             then StringToNumber (env_or from_env (js text)) else default, d'))
    = Normal (n, x) -> ok n = true).
  { intros x. destruct (setSetting d (js key) _); simpl; [|discriminate].
    intros [= <- _].
    destruct (negb _ && ok _) eqn:E; [|exact Hd].
    now apply andb_true_iff in E. }
  destruct (getSetting d (js key)) as [fromDb|]; [|apply Hfb].
  destruct (negb (isNaN (StringToNumber fromDb)) && ok (StringToNumber fromDb)) eqn:E.
  - intros [= <- _]. now apply andb_true_iff in E.
  - apply Hfb.
Qed.

Lemma startup_config_ok `{Host} e d st :
  startup e d = Normal st -> config_ok st.
Proof.
  unfold startup.
  destruct (load_KES_PER_USDT e d) as [[rate d1]|] eqn:H1; simpl; [|discriminate].
  destruct (load_MIN_DEPOSIT_AMOUNT e d1) as [[md d2]|] eqn:H2; simpl; [|discriminate].
  destruct (load_MIN_WITHDRAWAL_AMOUNT e d2) as [[mw d3]|] eqn:H3; simpl; [|discriminate].
  intros [= <-]. unfold config_ok; simpl.
  repeat split.
  - eapply load_setting_ok; [|exact H1]. reflexivity.
  - eapply load_setting_ok; [|exact H2]. reflexivity.
  - eapply load_setting_ok; [|exact H3]. reflexivity.
Qed.

Lemma set_db_config st d : same_config st (set_db st d).
Proof. repeat split. Qed.

Ltac split_guard E :=
  apply orb_false_iff in E; destruct E as [E ?];
  apply orb_false_iff in E; destruct E as [? ?].

Lemma post_rate_preserves `{Host} st b :
  config_ok st -> config_ok (snd (post_rate st b)).
Proof.
  intros (Hr & Hd & Hw). unfold post_rate.
  destruct (ToNumber (field b "rate")) as [n|]; [|now repeat split].
  destruct (negb _ || isNaN n || num_le n zero) eqn:E; [now repeat split|].
  split_guard E.
  destruct (setSetting _ _ n); simpl; repeat split; auto using not_le_zero_positive.
Qed.

Lemma post_min_deposit_preserves `{Host} st b :
  config_ok st -> config_ok (snd (post_min_deposit st b)).
Proof.
  intros (Hr & Hd & Hw). unfold post_min_deposit.
  destruct (ToNumber (field b "minDepositAmount")) as [n|]; [|now repeat split].
  destruct (nullish _ || isNaN n || num_lt n zero) eqn:E; [now repeat split|].
  split_guard E.
  destruct (setSetting _ _ n); simpl; repeat split; auto using not_lt_zero_non_negative.
Qed.

Lemma post_min_withdrawal_preserves `{Host} st b :
  config_ok st -> config_ok (snd (post_min_withdrawal st b)).
Proof.
  intros (Hr & Hd & Hw). unfold post_min_withdrawal.
  destruct (ToNumber (field b "minWithdrawalAmount")) as [n|]; [|now repeat split].
  destruct (nullish _ || isNaN n || num_le n zero) eqn:E; [now repeat split|].
  split_guard E.
  destruct (setSetting _ _ n); simpl; repeat split; auto using not_le_zero_positive.
Qed.

Lemma config_handle_preserves `{Host} st r :
  config_ok st -> config_ok (snd (config_handle st r)).
Proof.
  destruct r; simpl; auto using post_rate_preserves, post_min_deposit_preserves,
    post_min_withdrawal_preserves.
Qed.

Lemma config_run_preserves `{Host} rs : forall st,
  config_ok st -> config_ok (config_run st rs).
Proof.
  induction rs as [|r rs IH]; intros st Hst; simpl; [exact Hst|].
  apply IH. now apply config_handle_preserves.
Qed.

(** A reply with status 400 comes from a guard, before any assignment. *)
Lemma config_rejected_unchanged `{Host} st r reply st' :
  config_handle st r = (Normal reply, st') -> status reply = 400 -> st' = st.
Proof.
  destruct r; simpl; try (intros [= <- <-]; reflexivity).
  - unfold post_rate.
    destruct (ToNumber _) as [n|]; [|discriminate].
    destruct (negb _ || isNaN n || num_le n zero); [now intros [= <- <-]|].
    destruct (setSetting _ _ n); [|discriminate].
    intros [= <- <-]. discriminate.
  - unfold post_min_deposit.
    destruct (ToNumber _) as [n|]; [|discriminate].
    destruct (nullish _ || isNaN n || num_lt n zero); [now intros [= <- <-]|].
    destruct (setSetting _ _ n); [|discriminate].
    intros [= <- <-]. discriminate.
  - unfold post_min_withdrawal.
    destruct (ToNumber _) as [n|]; [|discriminate].
    destruct (nullish _ || isNaN n || num_le n zero); [now intros [= <- <-]|].
    destruct (setSetting _ _ n); [|discriminate].
    intros [= <- <-]. discriminate.
Qed.

(** C9 (as amended): after start-up and across any sequence of
    configuration requests, the exchange rate is a positive number, the
    minimum deposit a non-negative number and the minimum withdrawal a
    positive number (none is NaN; each may be [Infinity]); every update
    keeps this, and an update rejected with a 400 leaves the whole state
    unchanged. *)
Theorem config_invariant `{Host} :
  (forall e d st, startup e d = Normal st -> config_ok st) /\
  (forall st rs, config_ok st -> config_ok (config_run st rs)) /\
  (forall st r, config_ok st -> config_ok (snd (config_handle st r))) /\
  (forall st r reply st',
      config_handle st r = (Normal reply, st') -> status reply = 400 -> st' = st) /\
  (forall st, config_ok st ->
      isNaN (KES_PER_USDT st) = false /\
      isNaN (MIN_DEPOSIT_AMOUNT st) = false /\
      isNaN (MIN_WITHDRAWAL_AMOUNT st) = false).
Proof.
  split; [|split; [|split; [|split]]].
  - intros e d st. apply startup_config_ok.
  - intros st rs. apply config_run_preserves.
  - intros st r. apply config_handle_preserves.
  - intros st r reply st'. apply config_rejected_unchanged.
  - intros st (Hr & Hd & Hw).
    auto using positive_not_NaN, non_negative_not_NaN.
Qed.

Lemma config_invariant_witness :
  exists st,
    @startup example_host example_env empty_db = Normal st /\
    config_ok st /\
    config_ok (@config_run example_host st [PostRate rate_200; PostRate (JObj []); GetRate]).
Proof.
  destruct (@startup example_host example_env empty_db) as [st|] eqn:E;
    [|vm_compute in E; discriminate].
  exists st. split; [reflexivity|].
  pose proof (proj1 (@config_invariant example_host) example_env empty_db st E) as Hok.
  split; [exact Hok|].
  now apply (proj1 (proj2 (@config_invariant example_host))).
Defined.

(** C9 (as stated) fails: from a state that satisfies the invariant, the
    body [{ "rate": 1e999 }] is accepted with a 200 and leaves the rate
    [Infinity], which is not finite. *)
Lemma rate_not_kept_finite :
  config_finite example_state /\
  (forall H : Host,
      exists st',
        @post_rate H example_state rate_overflow
        = (Normal (json [(js "rate", JNum Infinity)]), st') /\
        KES_PER_USDT st' = Infinity) /\
  isFinite Infinity = false.
Proof.
  split; [vm_compute; repeat split|].
  split; [|reflexivity].
  intros H. eexists. split; reflexivity.
Qed.

Lemma setSetting_writable `{Host} d key n :
  writable d = true ->
  exists d', setSetting d key n = Normal d' /\
             getSetting d' key = Some (NumberToString n) /\
             processed_transactions d' = processed_transactions d.
Proof.
  intros Hw. unfold setSetting. rewrite Hw. simpl.
  eexists. split; [reflexivity|]. split; [|reflexivity].
  unfold getSetting. simpl. apply lookup_insert_eq.
Qed.

Lemma setSetting_readonly `{Host} d key n :
  writable d = false ->
  setSetting d key n = Throw (SqliteError "attempt to write a readonly database").
Proof. intros Hw. unfold setSetting. now rewrite Hw. Qed.

(** C5 (as amended): for every configuration update with a valid value,
    the handler assigns the in-memory variable first and writes the store
    after.  When the store accepts the write, the reply carries the new
    value and the store holds its text; when the store refuses it, the
    handler throws, the store is unchanged and the in-memory variable
    holds the new value. *)
Theorem update_assigns_then_persists `{Host} (st : State) (req_body : JsVal) (n : Number) :
  (valid_rate (field req_body "rate") n ->
   let r := post_rate st req_body in
   KES_PER_USDT (snd r) = n /\
   (writable (db st) = true ->
      fst r = Normal (json [(js "rate", JNum n)]) /\
      getSetting (db (snd r)) (js "KES_PER_USDT") = Some (NumberToString n)) /\
   (writable (db st) = false ->
      fst r = Throw (SqliteError "attempt to write a readonly database") /\
      db (snd r) = db st)) /\
  (valid_min_deposit (field req_body "minDepositAmount") n ->
   let r := post_min_deposit st req_body in
   MIN_DEPOSIT_AMOUNT (snd r) = n /\
   (writable (db st) = true ->
      fst r = Normal (json [(js "minDepositAmount", JNum n)]) /\
      getSetting (db (snd r)) (js "MIN_DEPOSIT_AMOUNT") = Some (NumberToString n)) /\
   (writable (db st) = false ->
      fst r = Throw (SqliteError "attempt to write a readonly database") /\
      db (snd r) = db st)) /\
  (valid_min_withdrawal (field req_body "minWithdrawalAmount") n ->
   let r := post_min_withdrawal st req_body in
   MIN_WITHDRAWAL_AMOUNT (snd r) = n /\
   (writable (db st) = true ->
      fst r = Normal (json [(js "minWithdrawalAmount", JNum n)]) /\
      getSetting (db (snd r)) (js "MIN_WITHDRAWAL_AMOUNT") = Some (NumberToString n)) /\
   (writable (db st) = false ->
      fst r = Throw (SqliteError "attempt to write a readonly database") /\
      db (snd r) = db st)).
Proof.
  split; [|split].
  - intros (Hn & Ht & Hnan & Hle). unfold post_rate. cbv zeta.
    rewrite Hn, Ht, Hnan, Hle. simpl negb. simpl orb. cbv iota. cbn [db].
    split; [|split].
    + destruct (setSetting _ _ n); reflexivity.
    + intros Hw.
      destruct (setSetting_writable (db st) (js "KES_PER_USDT") n Hw) as (d' & -> & Hg & _).
      simpl. auto.
    + intros Hw. rewrite (setSetting_readonly _ _ _ Hw). simpl. auto.
  - intros (Hn & Ht & Hnan & Hle). unfold post_min_deposit. cbv zeta.
    rewrite Hn, Ht, Hnan, Hle. simpl orb. cbv iota. cbn [db].
    split; [|split].
    + destruct (setSetting _ _ n); reflexivity.
    + intros Hw.
      destruct (setSetting_writable (db st) (js "MIN_DEPOSIT_AMOUNT") n Hw)
        as (d' & -> & Hg & _).
      simpl. auto.
    + intros Hw. rewrite (setSetting_readonly _ _ _ Hw). simpl. auto.
  - intros (Hn & Ht & Hnan & Hle). unfold post_min_withdrawal. cbv zeta.
    rewrite Hn, Ht, Hnan, Hle. simpl orb. cbv iota. cbn [db].
    split; [|split].
    + destruct (setSetting _ _ n); reflexivity.
    + intros Hw.
      destruct (setSetting_writable (db st) (js "MIN_WITHDRAWAL_AMOUNT") n Hw)
        as (d' & -> & Hg & _).
      simpl. auto.
    + intros Hw. rewrite (setSetting_readonly _ _ _ Hw). simpl. auto.
Qed.

Lemma update_assigns_then_persists_witness :
  @valid_rate example_host (field rate_200 "rate") (num 200) /\
  KES_PER_USDT (snd (@post_rate example_host example_state rate_200)) = num 200 /\
  getSetting (db (snd (@post_rate example_host example_state rate_200)))
    (js "KES_PER_USDT") = Some (js "200").
Proof.
  assert (Hv : @valid_rate example_host (field rate_200 "rate") (num 200))
    by (vm_compute; repeat split).
  split; [exact Hv|].
  destruct (proj1 (@update_assigns_then_persists example_host example_state
                     rate_200 (num 200)) Hv) as (Hm & Hw & _).
  split; [exact Hm|].
  apply Hw. reflexivity.
Defined.

(** C5 (as stated) fails: on a database that refuses writes and holds the
    rate 150, the body [{ "rate": 200 }] makes the handler throw, and the
    in-memory rate is then 200 while the store still holds 150. *)
Lemma unpersisted_rate_in_memory :
  KES_PER_USDT readonly_state = num 150 /\
  (forall H : Host,
      fst (@post_rate H readonly_state rate_200)
      = Throw (SqliteError "attempt to write a readonly database") /\
      KES_PER_USDT (snd (@post_rate H readonly_state rate_200)) = num 200 /\
      getSetting (db (snd (@post_rate H readonly_state rate_200))) (js "KES_PER_USDT")
      = Some (js "150")).
Proof.
  split; [reflexivity|]. intros H. repeat split; vm_compute; reflexivity.
Qed.

(** *** Strings *)

Lemma streq_eq a b : streq a b = true <-> a = b.
Proof. unfold streq. apply bool_decide_eq_true. Qed.

Lemma streq_refl a : streq a a = true.
Proof. now apply streq_eq. Qed.

Lemma streq_neq a b : streq a b = false <-> a <> b.
Proof. unfold streq. apply bool_decide_eq_false. Qed.

Lemma startsWith_app p t : startsWith (p ++ t) p = true.
Proof.
  induction p as [|c p IH]; [now destruct t|].
  simpl. now rewrite N.eqb_refl, IH.
Qed.

Lemma normalize_prefixed t : startsWith (normalize t) OFF_CHAIN_PREFIX = true.
Proof.
  unfold normalize. destruct (startsWith t OFF_CHAIN_PREFIX) eqn:E; [exact E|].
  apply startsWith_app.
Qed.

Lemma normalize_idempotent t : normalize (normalize t) = normalize t.
Proof.
  unfold normalize at 1. now rewrite normalize_prefixed.
Qed.

(** *** Stored text *)

Lemma toWellFormed_cons c s :
  isLeadSurrogate c = false -> isTrailSurrogate c = false ->
  toWellFormed (c :: s) = c :: toWellFormed s.
Proof. intros Hl Ht. simpl. now rewrite Hl, Ht. Qed.

Lemma ascii_not_surrogate c :
  N.ltb c 128 = true -> isLeadSurrogate c = false /\ isTrailSurrogate c = false.
Proof.
  intros Hc. apply N.ltb_lt in Hc. unfold isLeadSurrogate, isTrailSurrogate.
  split; apply andb_false_iff; left; apply N.leb_gt; lia.
Qed.

Lemma surrogate_not_ascii a c :
  N.ltb a 128 = true ->
  isLeadSurrogate c = true \/ isTrailSurrogate c = true ->
  N.eqb a c = false.
Proof.
  intros Ha Hc. apply N.ltb_lt in Ha. apply N.eqb_neq. intros <-.
  unfold isLeadSurrogate, isTrailSurrogate in Hc.
  destruct Hc as [Hc | Hc]; apply andb_true_iff in Hc as [Hc _];
    apply N.leb_le in Hc; lia.
Qed.

(** A text of ASCII characters is stored as it is. *)
Lemma toWellFormed_ascii s :
  Forall (fun c => N.ltb c 128 = true) s -> toWellFormed s = s.
Proof.
  induction 1 as [|c s Hc _ IH]; [reflexivity|].
  destruct (ascii_not_surrogate c Hc) as [Hl Ht].
  now rewrite toWellFormed_cons, IH.
Qed.

(** Storing a text neither gives it an ASCII prefix nor takes one away. *)
Lemma startsWith_toWellFormed p s :
  Forall (fun c => N.ltb c 128 = true) p ->
  startsWith (toWellFormed s) p = startsWith s p.
Proof.
  intros Hp. revert s. induction Hp as [|a p Ha _ IH]; intros s.
  - now destruct (toWellFormed s), s.
  - destruct s as [|c rest]; [reflexivity|].
    assert (Hrep : N.eqb a 65533 = false).
    { apply N.eqb_neq. apply N.ltb_lt in Ha. lia. }
    destruct (isLeadSurrogate c) eqn:El.
    + assert (Hac : N.eqb a c = false) by (apply surrogate_not_ascii; auto).
      simpl. rewrite El, Hac. simpl.
      destruct rest as [|c' rest']; simpl; [now rewrite Hrep|].
      destruct (isTrailSurrogate c'); simpl; [now rewrite Hac|now rewrite Hrep].
    + destruct (isTrailSurrogate c) eqn:Et.
      * assert (Hac : N.eqb a c = false) by (apply surrogate_not_ascii; auto).
        simpl. rewrite El, Et, Hac. simpl. now rewrite Hrep.
      * rewrite toWellFormed_cons by assumption. simpl. now rewrite IH.
Qed.

Lemma OFF_CHAIN_PREFIX_ascii :
  Forall (fun c => N.ltb c 128 = true) OFF_CHAIN_PREFIX.
Proof. repeat constructor. Qed.

Lemma stored_real_eq x : isNaN x = false -> num_eq (stored_real x) x = true.
Proof.
  destruct x as [s|s| |s m e]; try discriminate; intros _; try reflexivity.
  - now destruct s.
  - unfold num_eq, SFeqb, SFcompare. simpl.
    destruct s; rewrite Z.compare_refl, ?Pos.compare_cont_refl; try reflexivity.
    all: now rewrite Pos.compare_refl.
Qed.

Lemma stored_real_not_zero x :
  num_eq x zero = false -> stored_real x = x.
Proof. now destruct x as [[|]|s| |s m e]. Qed.

(** *** Canonical identifiers and the two lookup keys *)

Lemma getByTxId_Some d t row :
  getByTxId d t = Some row ->
  exists r, In r (processed_transactions d) /\
            stored_text (txId r) = stored_text t /\
            row = read_back r.
Proof.
  unfold getByTxId. intros Hf.
  destruct (find _ _) as [r|] eqn:E; [|discriminate].
  injection Hf as <-. apply find_some in E as [Hin Heq].
  exists r. split; [exact Hin|]. split; [|reflexivity]. now apply streq_eq.
Qed.

Lemma getByTxId_found d t row :
  getByTxId d t = Some row ->
  exists r, find (same_txId t) (processed_transactions d) = Some r /\ row = read_back r.
Proof.
  unfold getByTxId. destruct (find _ _) as [r|]; [|discriminate].
  intros [= <-]. now exists r.
Qed.

Lemma getByTxId_None d t :
  getByTxId d t = None <-> find (same_txId t) (processed_transactions d) = None.
Proof.
  unfold getByTxId. destruct (find _ _); simpl; split; congruence.
Qed.

Lemma getByTxId_unprefixed d t :
  prefixed_store d -> startsWith t OFF_CHAIN_PREFIX = false -> getByTxId d t = None.
Proof.
  intros Hs Ht. destruct (getByTxId d t) as [row|] eqn:E; [|reflexivity].
  apply getByTxId_Some in E as (r & Hin & Heq & _).
  unfold prefixed_store in Hs. rewrite Forall_forall in Hs.
  specialize (Hs r). rewrite <- list_elem_of_In in Hin.
  specialize (Hs Hin). simpl in Hs.
  rewrite <- (startsWith_toWellFormed _ (txId r) OFF_CHAIN_PREFIX_ascii) in Hs.
  rewrite <- (startsWith_toWellFormed _ t OFF_CHAIN_PREFIX_ascii) in Ht.
  unfold stored_text in Heq. congruence.
Qed.

(** In a store written by the handler, the lookup is the lookup of the
    canonical identifier. *)
Lemma lookup_existing_canonical d t :
  prefixed_store d -> lookup_existing d t (normalize t) = getByTxId d (normalize t).
Proof.
  intros Hs. unfold lookup_existing.
  destruct (getByTxId d (normalize t)) eqn:E; [reflexivity|].
  unfold normalize in *. destruct (startsWith t OFF_CHAIN_PREFIX) eqn:Ep; [exact E|].
  now apply getByTxId_unprefixed.
Qed.

Lemma deposit_txid_begin_string st req_body raw :
  field req_body "txId" = JStr raw ->
  deposit_txid_begin st req_body =
  match trim raw with
  | [] => Answered txId_required
  | _ =>
      match lookup_existing (db st) (trim raw) (normalize (trim raw)) with
      | Some existing => Answered (already_used existing)
      | None => AwaitingHistory (trim raw) (normalize (trim raw))
      end
  end.
Proof.
  intros Hf. unfold deposit_txid_begin. rewrite Hf. simpl.
  destruct raw as [|c raw]; [reflexivity|]. reflexivity.
Qed.

Lemma deposit_matches_spec `{Host} t n d :
  deposit_matches t n d = Normal true <-> is_match t n d.
Proof.
  unfold deposit_matches, is_match. split.
  - destruct (truthy d); [|discriminate].
    destruct (prop d (js "txId")) as [| | | |s| |] eqn:Ep; try discriminate.
    destruct (streq s n || streq (trim s) n || streq s t || streq (trim s) t) eqn:Ec;
      [|discriminate].
    destruct (ToNumber (prop d (js "status"))) as [x|] eqn:Ex; simpl; [|discriminate].
    intros [= Hx]. exists s, x. repeat split; auto.
    rewrite !orb_true_iff, !streq_eq in Ec. tauto.
  - intros (s & x & Hs & Hc & Hx & H1).
    assert (Ht : truthy d = true).
    { destruct d; try discriminate. reflexivity. }
    rewrite Ht, Hs, Hx.
    replace (streq s n || streq (trim s) n || streq s t || streq (trim s) t) with true.
    + unfold cbind. now rewrite H1.
    + symmetry. rewrite !orb_true_iff, !streq_eq. tauto.
Qed.

Lemma deposit_matches_canonical `{Host} t d :
  (forall s, prop d (js "txId") = JStr s -> s <> t /\ trim s <> t) ->
  deposit_matches t (normalize t) d = deposit_matches (normalize t) (normalize t) d.
Proof.
  intros Hd. unfold deposit_matches.
  destruct (truthy d); [|reflexivity].
  destruct (prop d (js "txId")) as [| | | |s| |]; try reflexivity.
  destruct (Hd s eq_refl) as [H1 H2].
  apply streq_neq in H1, H2. rewrite H1, H2.
  destruct (streq s (normalize t)), (streq (trim s) (normalize t)); reflexivity.
Qed.

Lemma insert_prefixed d r d' :
  prefixed_store d ->
  startsWith (rec_txId r) OFF_CHAIN_PREFIX = true ->
  insert d r = Normal d' ->
  prefixed_store d'.
Proof.
  intros Hs Hp. unfold insert.
  destruct (negb (writable d)); [discriminate|].
  destruct (isNaN (rec_amount r)); [discriminate|].
  destruct (isNaN (rec_rewardKes r)); [discriminate|].
  destruct (existsb _ _); [discriminate|].
  intros [= <-]. unfold prefixed_store in *. simpl.
  apply Forall_app. split; [exact Hs|]. constructor; [exact Hp|constructor].
Qed.

Lemma deposit_txid_try_db `{Host} w st t n fetched r d :
  deposit_txid_try w st t n fetched = Normal (r, d) ->
  d = db st \/
  exists rec, rec_txId rec = n /\ insert (db st) rec = Normal d.
Proof.
  unfold deposit_txid_try.
  destruct fetched as [deposits|]; simpl; [|discriminate].
  destruct (find_match t n deposits) as [[m|]|]; simpl; try discriminate.
  - destruct (ToNumber _) as [c|]; simpl; [|discriminate].
    destruct (num_gt _ _ && num_lt _ _); [intros [= _ <-]; now left|].
    destruct (DateToISOString _) as [ts|]; simpl; [|discriminate].
    destruct (insert _ _) as [d0|] eqn:Ei; simpl; [|discriminate].
    intros [= _ <-]. right. eexists. split; [|exact Ei]. reflexivity.
  - intros [= _ <-]. now left.
Qed.

Lemma deposit_txid_resume_prefixed `{Host} e w st t fetched :
  prefixed_store (db st) ->
  prefixed_store (db (snd (deposit_txid_resume e w st t (normalize t) fetched))).
Proof.
  intros Hs. unfold deposit_txid_resume.
  destruct (deposit_txid_try w st t (normalize t) fetched) as [[r d]|] eqn:E;
    [|exact Hs].
  simpl. apply deposit_txid_try_db in E as [-> | (rec & Hn & Hi)]; [exact Hs|].
  eapply insert_prefixed; [exact Hs| |exact Hi].
  rewrite Hn. apply normalize_prefixed.
Qed.

(** *** Settlement *)


Lemma num_eq_not_NaN a b : num_eq a b = true -> isNaN a = false.
Proof. destruct a; try reflexivity. discriminate. Qed.


Lemma num_eq_cases a b :
  num_eq a b = true -> a = b \/ exists s s', a = S754_zero s /\ b = S754_zero s'.
Proof.
  unfold num_eq, SFeqb, SFcompare.
  destruct a as [s|s| |s m e], b as [s'|s'| |s' m' e'];
    try discriminate; try (right; eauto; fail);
    try (destruct s; discriminate); try (destruct s'; discriminate).
  - destruct s, s'; try discriminate; now left.
  - destruct s, s'; try discriminate;
      (destruct (Z.compare e e') eqn:Ee; try discriminate);
      (destruct (Pos.compare_cont Eq m m') eqn:Em; try discriminate);
      apply Z.compare_eq in Ee; apply Pos.compare_eq in Em; subst; now left.
Qed.

Lemma set_db_same st : set_db st (db st) = st.
Proof. now destruct st. Qed.

(** *** Numbers: rounding never yields NaN, and the order is total *)








Lemma SFcompare_antisym a b :
  SFcompare b a = option_map CompOpp (SFcompare a b).
Proof.
  destruct a as [s|s| |s m e], b as [s'|s'| |s' m' e']; simpl;
    try reflexivity; try (now destruct s); try (now destruct s');
    try (now destruct s, s').
  destruct s, s'; try reflexivity; f_equal;
    rewrite (Z.compare_antisym e e');
    replace (Pos.compare_cont Eq m' m) with (CompOpp (Pos.compare_cont Eq m m'))
      by apply (Pos.compare_cont_antisym m m' Eq);
    destruct (e ?= e'); simpl; try reflexivity;
    now destruct (Pos.compare_cont Eq m m').
Qed.

Lemma SFcompare_number a b :
  isNaN a = false -> isNaN b = false -> exists x, SFcompare a b = Some x.
Proof.
  destruct a as [s|s| |s m e], b as [s'|s'| |s' m' e']; try discriminate;
    intros _ _; simpl; eauto.
Qed.

(** On numbers, [a < b] is false exactly when [b <= a]. *)
Lemma not_lt_le a b :
  isNaN a = false -> isNaN b = false -> num_lt a b = false -> num_le b a = true.
Proof.
  intros Ha Hb. unfold num_lt, num_le, SFltb, SFleb.
  rewrite (SFcompare_antisym a b).
  destruct (SFcompare_number a b Ha Hb) as [x ->]. simpl. now destruct x.
Qed.


Lemma find_existsb {A} (f : A -> bool) (l : list A) :
  List.find f l = None -> existsb f l = false.
Proof.
  induction l as [|x l IH]; simpl; [reflexivity|].
  destruct (f x); [discriminate|]. exact IH.
Qed.

Lemma find_existsb_Some {A} (f : A -> bool) (l : list A) x :
  List.find f l = Some x -> existsb f l = true.
Proof.
  induction l as [|y l IH]; simpl; [discriminate|].
  destruct (f y); [reflexivity|]. exact IH.
Qed.

(** The INSERT succeeds on a writable store that has no row with this
    identifier, for numbers that are not NaN, and appends one row. *)
Lemma insert_fresh d n c reward ts :
  writable d = true ->
  getByTxId d n = None ->
  isNaN c = false ->
  isNaN reward = false ->
  exists d',
    insert d {| rec_txId := n; rec_asset := js "USDT"; rec_amount := c;
                rec_rewardKes := reward; rec_confirmedAt := ts |} = Normal d' /\
    processed_transactions d' = processed_transactions d ++ [settled_row d n c reward ts] /\
    settings d' = settings d.
Proof.
  intros Hw Hf Hc Hr. unfold insert. simpl.
  rewrite Hw, Hc, Hr. simpl.
  apply getByTxId_None in Hf. rewrite (find_existsb _ _ Hf).
  eexists. split; [reflexivity|]. split; reflexivity.
Qed.

(** The INSERT fails on the UNIQUE constraint when a row with this
    identifier is present. *)
Lemma insert_duplicate d n c reward ts row :
  writable d = true ->
  getByTxId d n = Some row ->
  isNaN c = false ->
  isNaN reward = false ->
  insert d {| rec_txId := n; rec_asset := js "USDT"; rec_amount := c;
              rec_rewardKes := reward; rec_confirmedAt := ts |}
  = Throw (SqliteError "UNIQUE constraint failed: processed_transactions.txId").
Proof.
  intros Hw Hf Hc Hr. unfold insert. simpl.
  rewrite Hw, Hc, Hr. simpl.
  apply getByTxId_found in Hf as (r & Hf & _).
  now rewrite (find_existsb_Some _ _ _ Hf).
Qed.

(** The [try] block once a record is matched and its amount converted. *)
Lemma deposit_txid_try_matched `{Host} w st t n deposits m c :
  find_match t n deposits = Normal (Some m) ->
  confirmed_amount m = Normal c ->
  deposit_txid_try w st t n (Normal deposits) =
  if below_minimum st c then
    Normal (amount_too_low c (MIN_DEPOSIT_AMOUNT st), db st)
  else
    let! confirmedAt := confirmed_at w m in
    let! d := insert (db st)
                {| rec_txId := n; rec_asset := js "USDT"; rec_amount := c;
                   rec_rewardKes := num_mul c (KES_PER_USDT st);
                   rec_confirmedAt := confirmedAt |} in
    Normal (complete c confirmedAt (num_mul c (KES_PER_USDT st)), d).
Proof.
  intros Hm Hc. unfold deposit_txid_try, confirmed_amount in *.
  unfold cbind at 1 2. rewrite Hm. unfold cbind at 1. rewrite Hc. reflexivity.
Qed.


Lemma resume_settles `{Host} e w st t n deposits m c ts :
  find_match t n deposits = Normal (Some m) ->
  confirmed_amount m = Normal c ->
  below_minimum st c = false ->
  confirmed_at w m = Normal ts ->
  writable (db st) = true ->
  getByTxId (db st) n = None ->
  isNaN c = false ->
  isNaN (num_mul c (KES_PER_USDT st)) = false ->
  exists d,
    deposit_txid_resume e w st t n (Normal deposits)
    = (complete c ts (num_mul c (KES_PER_USDT st)), set_db st d) /\
    processed_transactions d
    = processed_transactions (db st)
      ++ [settled_row (db st) n c (num_mul c (KES_PER_USDT st)) ts] /\
    settings d = settings (db st).
Proof.
  intros Hm Hc Hb Hts Hw Hf Hnc Hnr. unfold deposit_txid_resume.
  rewrite (deposit_txid_try_matched w st t n deposits m c Hm Hc), Hb, Hts.
  unfold cbind at 1.
  destruct (insert_fresh (db st) n c (num_mul c (KES_PER_USDT st)) ts Hw Hf Hnc Hnr)
    as (d & Hi & Hrows & Hset).
  rewrite Hi. simpl. exists d. auto.
Qed.

Lemma resume_duplicate `{Host} e w st t n deposits m c ts row :
  find_match t n deposits = Normal (Some m) ->
  confirmed_amount m = Normal c ->
  below_minimum st c = false ->
  confirmed_at w m = Normal ts ->
  writable (db st) = true ->
  getByTxId (db st) n = Some row ->
  isNaN c = false ->
  isNaN (num_mul c (KES_PER_USDT st)) = false ->
  deposit_txid_resume e w st t n (Normal deposits)
  = (deposit_txid_catch e
       (SqliteError "UNIQUE constraint failed: processed_transactions.txId"), st).
Proof.
  intros Hm Hc Hb Hts Hw Hf Hnc Hnr. unfold deposit_txid_resume.
  rewrite (deposit_txid_try_matched w st t n deposits m c Hm Hc), Hb, Hts.
  unfold cbind at 1.
  now rewrite (insert_duplicate (db st) n c _ ts row Hw Hf Hnc Hnr).
Qed.

(** C4 (as amended): when a confirmed deposit is matched and passes the
    minimum-deposit gate, the reward replied and stored is the binary64
    product of the confirmed amount and the exchange rate of the state in
    which the verification runs (the state when the history arrives, not
    the state when the claim was submitted).  With rate 150 and confirmed
    amount 9 the reward is exactly 1350. *)
Theorem reward_is_double_product `{Host} (e : Env) (w : World) (st0 st1 : State)
    (req_body : JsVal) (t n : jstring) (deposits : list JsVal)
    (calls : list HttpCall) (m : JsVal) (c : Number) (ts : jstring) :
  deposit_txid_begin st0 req_body = AwaitingHistory t n ->
  fetch_history e w = (Normal deposits, calls) ->
  find_match t n deposits = Normal (Some m) ->
  confirmed_amount m = Normal c ->
  below_minimum st1 c = false ->
  confirmed_at w m = Normal ts ->
  writable (db st1) = true ->
  getByTxId (db st1) n = None ->
  isNaN c = false ->
  isNaN (num_mul c (KES_PER_USDT st1)) = false ->
  let reward := num_mul c (KES_PER_USDT st1) in
  (exists d,
     deposit_txid_interleaved e w st0 st1 req_body
     = (complete c ts reward, set_db st1 d, calls) /\
     processed_transactions d
     = processed_transactions (db st1) ++ [settled_row (db st1) n c reward ts]) /\
  reply_field (complete c ts reward) "rewardKes" = JNum reward /\
  reply_field (complete c ts reward) "confirmedAmount" = JNum c /\
  num_mul (num 9) (num 150) = num 1350 /\
  exact (num 9) = Some 9%Q /\ exact (num 150) = Some 150%Q /\
  exact (num 1350) = Some 1350%Q.
Proof.
  intros Hb Hf Hm Hc Hg Hts Hw Hn Hnc Hnr reward.
  split; [|repeat split; vm_compute; reflexivity].
  destruct (resume_settles e w st1 t n deposits m c ts Hm Hc Hg Hts Hw Hn Hnc Hnr)
    as (d & Hd & Hrows & _).
  exists d. split; [|exact Hrows].
  unfold deposit_txid_interleaved. now rewrite Hb, Hf, Hd.
Qed.

Lemma reward_is_double_product_witness :
  deposit_txid_begin submitted_state (claim bare_id) = AwaitingHistory bare_id prefixed_id /\
  @confirmed_amount example_host (record_of (str "9")) = Normal (num 9) /\
  KES_PER_USDT submitted_state = num 150 /\
  KES_PER_USDT repriced_state = num 200 /\
  exists d,
    fst (@deposit_txid_interleaved example_host example_env
           (world_with_history [record_of (str "9")])
           submitted_state repriced_state (claim bare_id))
    = (complete (num 9) example_instant_text (num 1800), set_db repriced_state d).
Proof.
  assert (Hb : deposit_txid_begin submitted_state (claim bare_id)
               = AwaitingHistory bare_id prefixed_id) by (vm_compute; reflexivity).
  assert (Hc : @confirmed_amount example_host (record_of (str "9")) = Normal (num 9))
    by (vm_compute; reflexivity).
  split; [exact Hb|]. split; [exact Hc|]. split; [reflexivity|]. split; [reflexivity|].
  destruct (@reward_is_double_product example_host example_env
              (world_with_history [record_of (str "9")])
              submitted_state repriced_state (claim bare_id) bare_id prefixed_id
              [record_of (str "9")]
              (snd (@fetch_history example_host example_env
                      (world_with_history [record_of (str "9")])))
              (record_of (str "9")) (num 9) example_instant_text
              Hb eq_refl eq_refl Hc eq_refl eq_refl eq_refl eq_refl eq_refl eq_refl)
    as ((d & Hd & _) & _).
  exists d. now rewrite Hd.
Defined.

(** [one_tenth] and [three_tenths] are within half a unit in the last
    place (2^-57 and 2^-55) of 1/10 and 3/10: they are what [Number("0.1")]
    and [Number("0.3")] yield. *)
Lemma nearest_doubles :
  (exists q, exact one_tenth = Some q /\ (Qabs (q - (1 # 10)) < 1 # 2 ^ 57)%Q) /\
  (exists q, exact three_tenths = Some q /\ (Qabs (q - (3 # 10)) < 1 # 2 ^ 55)%Q).
Proof.
  split; eexists; (split; [vm_compute; reflexivity|]); vm_compute; reflexivity.
Qed.

(** C4 (as stated) fails: the product is rounded.  With rate 3 and a
    confirmed amount of 2^53 - 1 the reward is 27021597764222972, one less
    than the product; with rate 3 and the double nearest to 0.1 the reward
    is the double above the one nearest to 0.3. *)
Lemma reward_product_is_rounded :
  (wf max_safe_integer = true /\ wf (num 3) = true /\
   exact max_safe_integer = Some 9007199254740991%Q /\
   exact (num 3) = Some 3%Q /\
   exact (num_mul max_safe_integer (num 3)) = Some 27021597764222972%Q /\
   (9007199254740991 * 3 = 27021597764222973)%Z) /\
  (wf one_tenth = true /\ wf three_tenths = true /\
   num_mul one_tenth (num 3) = S754_finite false 5404319552844596 (-54) /\
   num_eq (num_mul one_tenth (num 3)) three_tenths = false) /\
  reply_field
    (fst (fst (@deposit_txid example_host example_env
                 (world_with_history [record_of (JNum max_safe_integer)])
                 rate_3_state (claim bare_id))))
    "rewardKes"
  = JNum (num 27021597764222972).
Proof.
  split; [|split]; repeat split; vm_compute; reflexivity.
Qed.



(** *** A claim settled by another request in the meantime *)

Lemma catch_unique_violation e :
  deposit_txid_catch e
    (SqliteError "UNIQUE constraint failed: processed_transactions.txId")
  = json [(js "status", str "failed");
          (js "reason", str "verification_error");
          (js "message", str "Failed to verify transaction with Binance");
          (js "details",
             details e (SqliteError "UNIQUE constraint failed: processed_transactions.txId"))].
Proof. reflexivity. Qed.

(** C1 (as amended): when the lookup finds no row but a row with the
    canonical identifier is present by the time the verification inserts,
    the INSERT fails on the UNIQUE constraint, the [catch] block answers
    with HTTP 200, status failed and reason verification_error (no error
    leaves the handler), and the state is unchanged: the row settled by the
    other request stays the only one, and it is not read again. *)
Theorem concurrent_duplicate_reply `{Host} (e : Env) (w : World) (st0 st1 : State)
    (req_body : JsVal) (t n : jstring) (deposits : list JsVal)
    (calls : list HttpCall) (m : JsVal) (c : Number) (ts : jstring) (row : Row) :
  deposit_txid_begin st0 req_body = AwaitingHistory t n ->
  fetch_history e w = (Normal deposits, calls) ->
  find_match t n deposits = Normal (Some m) ->
  confirmed_amount m = Normal c ->
  below_minimum st1 c = false ->
  confirmed_at w m = Normal ts ->
  writable (db st1) = true ->
  isNaN c = false ->
  isNaN (num_mul c (KES_PER_USDT st1)) = false ->
  getByTxId (db st1) n = Some row ->
  let err := SqliteError "UNIQUE constraint failed: processed_transactions.txId" in
  let reply := deposit_txid_catch e err in
  insert (db st1)
    {| rec_txId := n; rec_asset := js "USDT"; rec_amount := c;
       rec_rewardKes := num_mul c (KES_PER_USDT st1); rec_confirmedAt := ts |}
  = Throw err /\
  deposit_txid_interleaved e w st0 st1 req_body = (reply, st1, calls) /\
  status reply = 200 /\
  reply_field reply "status" = str "failed" /\
  reason reply = str "verification_error" /\
  reply_field reply "message" = str "Failed to verify transaction with Binance" /\
  reply_field reply "confirmedAmount" = JUndefined /\
  reply_field reply "rewardKes" = JUndefined /\
  reply_field reply "confirmedAt" = JUndefined.
Proof.
  intros Hb Hf Hm Hc Hg Hts Hw Hnc Hnr Hrow err reply.
  split; [now apply (insert_duplicate (db st1) n c _ ts row)|].
  split; [|repeat split].
  unfold deposit_txid_interleaved. rewrite Hb, Hf.
  now rewrite (resume_duplicate e w st1 t n deposits m c ts row).
Qed.

Lemma concurrent_duplicate_reply_witness :
  deposit_txid_begin submitted_state (claim bare_id)
  = AwaitingHistory bare_id prefixed_id /\
  getByTxId (db overtaken_state) prefixed_id = Some winning_row /\
  fst (@deposit_txid_interleaved example_host example_env
         (world_with_history confirmed_10) submitted_state overtaken_state
         (claim bare_id))
  = (deposit_txid_catch example_env
       (SqliteError "UNIQUE constraint failed: processed_transactions.txId"),
     overtaken_state).
Proof.
  assert (Hb : deposit_txid_begin submitted_state (claim bare_id)
               = AwaitingHistory bare_id prefixed_id) by (vm_compute; reflexivity).
  assert (Hrow : getByTxId (db overtaken_state) prefixed_id = Some winning_row)
    by (vm_compute; reflexivity).
  split; [exact Hb|]. split; [exact Hrow|].
  destruct (@concurrent_duplicate_reply example_host example_env
              (world_with_history confirmed_10) submitted_state overtaken_state
              (claim bare_id) bare_id prefixed_id confirmed_10
              (snd (@fetch_history example_host example_env
                      (world_with_history confirmed_10)))
              (record_of (JNum (num 10))) (num 10) example_instant_text winning_row
              Hb eq_refl eq_refl eq_refl eq_refl eq_refl eq_refl eq_refl eq_refl Hrow)
    as (_ & Hd & _).
  now rewrite Hd.
Defined.

(** C1 (as stated) fails: the lookup finds no row, another request
    settles the claim before the INSERT, and the reply has the reason
    verification_error, not already_used, and carries none of the stored
    amount, reward and settlement time. *)
Lemma concurrent_duplicate_not_already_used :
  lookup_existing (db submitted_state) bare_id prefixed_id = None /\
  deposit_txid_begin submitted_state (claim bare_id)
  = AwaitingHistory bare_id prefixed_id /\
  getByTxId (db overtaken_state) prefixed_id = Some winning_row /\
  insert (db overtaken_state)
    {| rec_txId := prefixed_id; rec_asset := js "USDT"; rec_amount := num 10;
       rec_rewardKes := num 1500; rec_confirmedAt := example_instant_text |}
  = Throw (SqliteError "UNIQUE constraint failed: processed_transactions.txId") /\
  reason (fst (fst (@deposit_txid_interleaved example_host example_env
                      (world_with_history confirmed_10) submitted_state
                      overtaken_state (claim bare_id))))
  = str "verification_error" /\
  reply_field (fst (fst (@deposit_txid_interleaved example_host example_env
                           (world_with_history confirmed_10) submitted_state
                           overtaken_state (claim bare_id))))
    "rewardKes"
  = JUndefined /\
  reason (already_used winning_row) = str "already_used" /\
  reply_field (already_used winning_row) "rewardKes" = JNum (num 1500).
Proof.
  repeat split; vm_compute; reflexivity.
Qed.

(** ** Further properties of the store *)

Lemma find_app_None {A} (f : A -> bool) (l l' : list A) :
  List.find f l = None -> List.find f (l ++ l') = List.find f l'.
Proof.
  induction l as [|x l IH]; simpl; [reflexivity|].
  destruct (f x); [discriminate|]. exact IH.
Qed.

Lemma find_app_Some {A} (f : A -> bool) (l l' : list A) x :
  List.find f l = Some x -> List.find f (l ++ l') = Some x.
Proof.
  induction l as [|y l IH]; simpl; [discriminate|].
  destruct (f y); [trivial|]. exact IH.
Qed.

Lemma existsb_find_None {A} (f : A -> bool) (l : list A) :
  existsb f l = false -> List.find f l = None.
Proof.
  induction l as [|x l IH]; simpl; [reflexivity|].
  destruct (f x); [discriminate|]. exact IH.
Qed.

Lemma insert_Normal d r d' :
  insert d r = Normal d' ->
  writable d = true /\
  getByTxId d (rec_txId r) = None /\
  processed_transactions d' = processed_transactions d ++ [row_of d r] /\
  settings d' = settings d /\
  writable d' = writable d.
Proof.
  unfold insert.
  destruct (writable d); simpl; [|discriminate].
  destruct (isNaN (rec_amount r)); [discriminate|].
  destruct (isNaN (rec_rewardKes r)); [discriminate|].
  destruct (existsb _ _) eqn:E; [discriminate|].
  intros [= <-]. simpl. repeat split.
  apply getByTxId_None. now apply existsb_find_None.
Qed.


Lemma getByTxId_absent d t :
  getByTxId d t = None ->
  ~ In (stored_text t) (map (fun r => stored_text (txId r)) (processed_transactions d)).
Proof.
  intros Hf Hin. apply getByTxId_None in Hf.
  apply in_map_iff in Hin as (row & Ht & Hin).
  apply (find_none _ _ Hf) in Hin. unfold same_txId in Hin.
  rewrite Ht, streq_refl in Hin. discriminate.
Qed.

(** The lookup of an identifier finds the row appended under an
    identifier with the same stored text, when no earlier row has it. *)
Lemma getByTxId_appended d n t row :
  getByTxId d n = None ->
  stored_text t = stored_text n ->
  txId row = n ->
  forall d', processed_transactions d' = processed_transactions d ++ [row] ->
  getByTxId d' t = Some (read_back row).
Proof.
  intros Hnone Ht Hid d' Hrows. apply getByTxId_None in Hnone.
  unfold getByTxId, same_txId in *. rewrite Ht, Hrows, (find_app_None _ _ _ Hnone).
  simpl. now rewrite Hid, streq_refl.
Qed.



Lemma setSetting_Normal `{Host} d key v :
  writable d = true ->
  setSetting d key v =
  Normal {| processed_transactions := processed_transactions d;
            last_id := last_id d;
            settings := <[ key := NumberToString v ]> (settings d);
            datetime_now := datetime_now d;
            writable := writable d |}.
Proof. intros Hw. unfold setSetting. now rewrite Hw. Qed.

(** X2: a successful [setSetting] is read back by [getSetting] as the text
    of the value, replaces what the key held before (one value per key),
    changes no other key and leaves [processed_transactions] alone; a
    refused one throws. *)
Theorem setSetting_then_getSetting `{Host} (d : Database) (key : jstring) (v : Number) :
  (writable d = true ->
   exists d',
     setSetting d key v = Normal d' /\
     getSetting d' key = Some (NumberToString v) /\
     (forall key', key' <> key -> getSetting d' key' = getSetting d key') /\
     (forall v', exists d'',
        setSetting d' key v' = Normal d'' /\
        getSetting d'' key = Some (NumberToString v') /\
        settings d'' = <[ key := NumberToString v' ]> (settings d)) /\
     processed_transactions d' = processed_transactions d /\
     (forall t, getByTxId d' t = getByTxId d t)) /\
  (writable d = false ->
   setSetting d key v = Throw (SqliteError "attempt to write a readonly database")).
Proof.
  split.
  - intros Hw. rewrite (setSetting_Normal d key v Hw).
    eexists. split; [reflexivity|]. unfold getSetting. simpl.
    split; [apply lookup_insert_eq|].
    split; [intros key' Hne; now apply lookup_insert_ne|].
    split; [|split; reflexivity].
    intros v'. rewrite setSetting_Normal by exact Hw.
    eexists. split; [reflexivity|]. simpl.
    split; [apply lookup_insert_eq|]. apply insert_insert_eq.
  - intros Hw. unfold setSetting. now rewrite Hw.
Qed.

Lemma setSetting_then_getSetting_witness :
  writable empty_db = true /\
  exists d',
    @setSetting example_host empty_db (js "KES_PER_USDT") (num 200) = Normal d' /\
    getSetting d' (js "KES_PER_USDT") = Some (js "200").
Proof.
  split; [reflexivity|].
  destruct (proj1 (@setSetting_then_getSetting example_host empty_db
                     (js "KES_PER_USDT") (num 200)) eq_refl)
    as (d' & Hs & Hg & _).
  exists d'. split; [exact Hs|]. rewrite Hg. vm_compute. reflexivity.
Defined.

(** ** Further properties of the deposit handler *)

(** X3: [find_match] returns the first record, in upstream order, that
    the predicate accepts: everything before it was tested and refused;
    and it returns nothing exactly when every record was refused. *)
Theorem find_match_first `{Host} (t n : jstring) (deposits : list JsVal) :
  (forall m,
     find_match t n deposits = Normal (Some m) ->
     exists before after,
       deposits = before ++ m :: after /\
       is_match t n m /\
       Forall (fun d => deposit_matches t n d = Normal false) before) /\
  (find_match t n deposits = Normal None <->
   Forall (fun d => deposit_matches t n d = Normal false) deposits).
Proof.
  induction deposits as [|d rest [IHs IHn]]; simpl.
  - split; [discriminate|]. split; [constructor | reflexivity].
  - destruct (deposit_matches t n d) as [[|]|] eqn:Ed; simpl.
    + split.
      * intros m [= <-]. exists [], rest. split; [reflexivity|].
        split; [now apply deposit_matches_spec | constructor].
      * split; [discriminate|]. intros HF. inversion HF; subst. congruence.
    + split.
      * intros m Hm. destruct (IHs m Hm) as (before & after & -> & His & HF).
        exists (d :: before), after. split; [reflexivity|].
        split; [exact His | now constructor].
      * rewrite IHn. split; [now constructor|]. intros HF. now inversion HF.
    + split; [discriminate|]. split; [discriminate|].
      intros HF. inversion HF; subst. congruence.
Qed.

Lemma catch_status_failed e err :
  reply_field (deposit_txid_catch e err) "status" = str "failed".
Proof. unfold deposit_txid_catch. destruct (is_451 _); reflexivity. Qed.

(** X4: the second stretch of the deposit handler changes the state only
    when it answers complete, and then by appending exactly one row, under
    the canonical identifier, which was absent, with the amount, reward and
    time it replies; every other answer has status failed and leaves the
    state as it was.  The three configuration values and the settings are
    never changed. *)
Theorem resume_writes_only_on_complete `{Host} (e : Env) (w : World) (st : State)
    (t n : jstring) (fetched : Completion (list JsVal)) :
  let r := fst (deposit_txid_resume e w st t n fetched) in
  let st' := snd (deposit_txid_resume e w st t n fetched) in
  (st' = st /\ reply_field r "status" = str "failed") \/
  (exists c ts,
     r = complete c ts (num_mul c (KES_PER_USDT st)) /\
     getByTxId (db st) n = None /\
     processed_transactions (db st')
     = processed_transactions (db st)
       ++ [settled_row (db st) n c (num_mul c (KES_PER_USDT st)) ts] /\
     settings (db st') = settings (db st) /\
     same_config st st').
Proof.
  cbv zeta. unfold deposit_txid_resume.
  destruct (deposit_txid_try w st t n fetched) as [[r d]|err] eqn:E; simpl;
    [|left; split; [reflexivity | apply catch_status_failed]].
  unfold deposit_txid_try in E.
  destruct fetched as [deposits|]; simpl in E; [|discriminate].
  destruct (find_match t n deposits) as [[m|]|]; simpl in E; try discriminate.
  - destruct (ToNumber _) as [c|]; simpl in E; [|discriminate].
    destruct (num_gt _ _ && num_lt _ _).
    + injection E as <- <-. left. rewrite set_db_same. now split.
    + destruct (DateToISOString _) as [ts|]; simpl in E; [|discriminate].
      destruct (insert _ _) as [d0|] eqn:Ei; simpl in E; [|discriminate].
      injection E as <- <-. right. exists c, ts.
      destruct (insert_Normal _ _ _ Ei) as (_ & Hnone & Hrows & Hset & _).
      repeat split; assumption.
  - injection E as <- <-. left. rewrite set_db_same. now split.
Qed.

Lemma config_handle_rows `{Host} st r :
  processed_transactions (db (snd (config_handle st r))) = processed_transactions (db st).
Proof.
  assert (Hs : forall d key v d',
             setSetting d key v = Normal d' ->
             processed_transactions d' = processed_transactions d).
  { intros d key v d'. unfold setSetting. destruct (negb (writable d)); [discriminate|].
    now intros [= <-]. }
  destruct r; simpl; try reflexivity.
  - unfold post_rate. destruct (ToNumber _) as [x|]; [|reflexivity].
    destruct (negb _ || _ || _); [reflexivity|]. cbv zeta.
    destruct (setSetting _ _ x) eqn:E; simpl; [|reflexivity]. now apply Hs in E.
  - unfold post_min_deposit. destruct (ToNumber _) as [x|]; [|reflexivity].
    destruct (nullish _ || _ || _); [reflexivity|]. cbv zeta.
    destruct (setSetting _ _ x) eqn:E; simpl; [|reflexivity]. now apply Hs in E.
  - unfold post_min_withdrawal. destruct (ToNumber _) as [x|]; [|reflexivity].
    destruct (nullish _ || _ || _); [reflexivity|]. cbv zeta.
    destruct (setSetting _ _ x) eqn:E; simpl; [|reflexivity]. now apply Hs in E.
Qed.

Lemma resume_rows `{Host} e w st t n fetched :
  processed_transactions (db (snd (deposit_txid_resume e w st t n fetched)))
  = processed_transactions (db st)
  \/ exists rec,
       rec_txId rec = n /\ getByTxId (db st) n = None /\
       processed_transactions (db (snd (deposit_txid_resume e w st t n fetched)))
       = processed_transactions (db st) ++ [row_of (db st) rec].
Proof.
  unfold deposit_txid_resume.
  destruct (deposit_txid_try w st t n fetched) as [[r d]|] eqn:E; [|now left].
  simpl. apply deposit_txid_try_db in E as [-> | (rec & Hn & Hi)]; [now left|].
  right. exists rec. destruct (insert_Normal _ _ _ Hi) as (_ & Hnone & Hrows & _).
  rewrite Hn in Hnone. auto.
Qed.

Lemma server_step_store `{Host} st st' :
  server_step st st' ->
  (unique_ids (db st) -> unique_ids (db st')) /\
  (prefixed_store (db st) -> prefixed_store (db st')) /\
  (forall t row, getByTxId (db st) t = Some row -> getByTxId (db st') t = Some row).
Proof.
  intros [st0 r | e w st0 t fetched].
  - unfold unique_ids, prefixed_store, getByTxId.
    rewrite (config_handle_rows st0 r). auto.
  - split; [|split; [apply deposit_txid_resume_prefixed|]].
    + unfold unique_ids.
      destruct (resume_rows e w st0 t (normalize t) fetched)
        as [-> | (rec & Hn & Hnone & ->)]; [trivial|].
      intros Hu. rewrite map_app. apply NoDup_app. split; [exact Hu|]. split.
      * intros x Hx Hin. apply list_elem_of_In in Hx, Hin.
        destruct Hin as [<- | []]. simpl in Hx. rewrite Hn in Hx.
        now apply (getByTxId_absent (db st0) (normalize t)).
      * apply NoDup_singleton.
    + intros t0 row Hrow. unfold getByTxId in *.
      destruct (resume_rows e w st0 t (normalize t) fetched)
        as [-> | (rec & _ & _ & ->)]; [exact Hrow|].
      destruct (find _ (processed_transactions (db st0))) as [r0|] eqn:E;
        [|discriminate].
      now rewrite (find_app_Some _ _ _ _ E).
Qed.

Lemma resume_same_config `{Host} e w st t n fetched :
  same_config st (snd (deposit_txid_resume e w st t n fetched)).
Proof.
  unfold deposit_txid_resume.
  destruct (deposit_txid_try w st t n fetched) as [[r d]|]; simpl; repeat split.
Qed.

Lemma server_step_config `{Host} st st' :
  server_step st st' -> config_ok st -> config_ok st'.
Proof.
  intros [st0 r | e w st0 t fetched] Hok.
  - now apply config_handle_preserves.
  - destruct (resume_same_config e w st0 t (normalize t) fetched) as (Hk & Hd & Hw).
    destruct Hok as (H1 & H2 & H3). unfold config_ok. now rewrite Hk, Hd, Hw.
Qed.

Lemma server_run_keeps `{Host} (st st' : State) :
  server_run st st' ->
  (unique_ids (db st) -> unique_ids (db st')) /\
  (prefixed_store (db st) -> prefixed_store (db st')) /\
  (config_ok st -> config_ok st') /\
  (forall t row, getByTxId (db st) t = Some row -> getByTxId (db st') t = Some row).
Proof.
  induction 1 as [st | st st1 st2 Hstep Hrun (IHu & IHp & IHc & IHr)].
  - auto.
  - destruct (server_step_store st st1 Hstep) as (Hu & Hp & Hr).
    pose proof (server_step_config st st1 Hstep) as Hc.
    split; [auto|]. split; [auto|]. split; [auto|].
    intros t row Hrow. auto.
Qed.

(** X5: along every run of the server, identifiers in the store stay
    pairwise distinct, every stored identifier carries the prefix, the
    three configuration values keep their sign conditions, and a row, once
    found under an identifier, is found unchanged ever after (handlers
    neither update nor delete rows). *)
Theorem server_run_invariants `{Host} (st st' : State) :
  server_run st st' ->
  (unique_ids (db st) -> unique_ids (db st')) /\
  (prefixed_store (db st) -> prefixed_store (db st')) /\
  (config_ok st -> config_ok st') /\
  (forall t row, getByTxId (db st) t = Some row -> getByTxId (db st') t = Some row).
Proof. apply server_run_keeps. Qed.


Lemma server_run_witness_steps :
  @server_run example_host submitted_state
    (snd (@deposit_txid_resume example_host example_env
            (world_with_history confirmed_10) submitted_state
            bare_id (normalize bare_id) (Normal confirmed_10))).
Proof.
  eapply run_more; [|apply run_done].
  apply (@step_deposit example_host example_env (world_with_history confirmed_10)
           submitted_state bare_id (Normal confirmed_10)).
Qed.

Lemma server_run_invariants_witness :
  @server_run example_host submitted_state
    (snd (@deposit_txid_resume example_host example_env
            (world_with_history confirmed_10) submitted_state
            bare_id (normalize bare_id) (Normal confirmed_10))) /\
  unique_ids
    (db (snd (@deposit_txid_resume example_host example_env
                (world_with_history confirmed_10) submitted_state
                bare_id (normalize bare_id) (Normal confirmed_10)))).
Proof.
  split; [exact server_run_witness_steps|].
  apply (proj1 (@server_run_invariants example_host _ _ server_run_witness_steps)).
  constructor.
Defined.

Lemma deposit_txid_settled `{Host} e w st req_body raw row :
  field req_body "txId" = JStr raw ->
  trim raw <> [] ->
  getByTxId (db st) (normalize (trim raw)) = Some row ->
  deposit_txid e w st req_body = (already_used row, st, []).
Proof.
  intros Hf Hne Hrow. unfold deposit_txid, deposit_txid_interleaved.
  rewrite (deposit_txid_begin_string st req_body raw Hf).
  destruct (trim raw) as [|c0 t0]; [congruence|].
  unfold lookup_existing. now rewrite Hrow.
Qed.

(** X6: once a verification has settled a claim, every later submission
    whose canonical identifier is the same (the same text, another
    spelling, other surrounding whitespace), in any state the server
    reaches afterwards, is answered with HTTP 200, reason already_used and
    the amount, reward and time of that settlement as the store reads them
    back: amount and reward equal as numbers to the settled ones (a [-0]
    is read back as [0], every other number as it is), and the time as
    its well-formed text (the time itself when it holds no lone
    surrogate); it sends no request to the exchange and changes nothing. *)
Theorem settled_claim_is_refused `{Host} (e : Env) (w : World) (st : State)
    (t : jstring) (deposits : list JsVal) (m : JsVal) (c : Number) (ts : jstring) :
  find_match t (normalize t) deposits = Normal (Some m) ->
  confirmed_amount m = Normal c ->
  below_minimum st c = false ->
  confirmed_at w m = Normal ts ->
  writable (db st) = true ->
  getByTxId (db st) (normalize t) = None ->
  isNaN c = false ->
  isNaN (num_mul c (KES_PER_USDT st)) = false ->
  let reward := num_mul c (KES_PER_USDT st) in
  let settled := deposit_txid_resume e w st t (normalize t) (Normal deposits) in
  fst settled = complete c ts reward /\
  (num_eq (stored_real c) c = true /\
   num_eq (stored_real reward) reward = true /\
   (num_eq c zero = false -> stored_real c = c) /\
   (num_eq reward zero = false -> stored_real reward = reward) /\
   (isWellFormed ts = true -> stored_text ts = ts)) /\
  forall st2,
    server_run (snd settled) st2 ->
    forall e' w' req_body raw,
      field req_body "txId" = JStr raw ->
      trim raw <> [] ->
      normalize (trim raw) = normalize t ->
      exists row,
        deposit_txid e' w' st2 req_body = (already_used row, st2, []) /\
        status (already_used row) = 200 /\
        reason (already_used row) = str "already_used" /\
        reply_field (already_used row) "confirmedAmount" = JNum (stored_real c) /\
        reply_field (already_used row) "rewardKes" = JNum (stored_real reward) /\
        reply_field (already_used row) "confirmedAt" = JStr (stored_text ts).
Proof.
  intros Hm Hc Hg Hts Hw Hnone Hnc Hnr reward settled.
  destruct (resume_settles e w st t (normalize t) deposits m c ts
              Hm Hc Hg Hts Hw Hnone Hnc Hnr) as (d & Hd & Hrows & _).
  unfold settled. rewrite Hd. split; [reflexivity|].
  split.
  { split; [now apply stored_real_eq|].
    split; [now apply stored_real_eq|].
    split; [apply stored_real_not_zero|].
    split; [apply stored_real_not_zero|].
    intros Hwf. now apply streq_eq in Hwf. }
  intros st2 Hrun e' w' req_body raw Hf Hne Hn.
  assert (Hrow : getByTxId d (normalize t)
                 = Some (read_back (settled_row (db st) (normalize t) c reward ts))).
  { now apply (getByTxId_appended (db st) (normalize t)). }
  apply (proj2 (proj2 (proj2 (server_run_keeps _ _ Hrun)))) in Hrow.
  exists (read_back (settled_row (db st) (normalize t) c reward ts)).
  split; [|repeat split].
  apply (deposit_txid_settled e' w' st2 req_body raw); [assumption..|].
  now rewrite Hn.
Qed.



(** ** The deposit handler in the states the server reaches *)

















(** ** Trimming and canonical identifiers *)

Lemma trimStart_whitespace l s : whitespace l -> trimStart (l ++ s) = trimStart s.
Proof.
  induction 1 as [|c l Hc _ IH]; simpl; [reflexivity|]. now rewrite Hc.
Qed.

Lemma trimStart_all_whitespace l : whitespace l -> trimStart l = [].
Proof.
  intros Hl. rewrite <- (app_nil_r l). now rewrite trimStart_whitespace.
Qed.

Lemma trimStart_idempotent s : trimStart (trimStart s) = trimStart s.
Proof.
  induction s as [|c s IH]; simpl; [reflexivity|].
  destruct (isWhiteSpace c) eqn:E; [exact IH|]. simpl. now rewrite E.
Qed.

Lemma trimStart_length s : (length (trimStart s) <= length s)%nat.
Proof.
  induction s as [|c s IH]; simpl; [lia|].
  destruct (isWhiteSpace c); simpl; lia.
Qed.

(** A non-empty string that [trimStart] leaves alone starts with a
    character that is not whitespace, and stays so under concatenation. *)
Lemma trimStart_fixed_head c s :
  trimStart (c :: s) = c :: s -> isWhiteSpace c = false.
Proof.
  simpl. destruct (isWhiteSpace c); [|reflexivity].
  intros Heq. pose proof (trimStart_length s) as Hl. rewrite Heq in Hl.
  simpl in Hl. lia.
Qed.

Lemma trimStart_fixed_app u x :
  trimStart u = u -> u <> [] -> trimStart (u ++ x) = u ++ x.
Proof.
  destruct u as [|c u]; [congruence|]. intros Hu _.
  apply trimStart_fixed_head in Hu. simpl. now rewrite Hu.
Qed.

Lemma whitespace_rev l : whitespace l -> whitespace (rev l).
Proof. unfold whitespace. rewrite !Forall_forall. intros Hl c Hc. apply Hl.
  apply list_elem_of_In. apply list_elem_of_In in Hc. now apply in_rev. Qed.

Lemma trimEnd_whitespace s r : whitespace r -> trimEnd (s ++ r) = trimEnd s.
Proof.
  intros Hr. unfold trimEnd. rewrite rev_app_distr.
  now rewrite trimStart_whitespace by now apply whitespace_rev.
Qed.

Lemma trimEnd_idempotent s : trimEnd (trimEnd s) = trimEnd s.
Proof. unfold trimEnd. now rewrite rev_involutive, trimStart_idempotent. Qed.

Lemma trimStart_snoc a c :
  isWhiteSpace c = false -> trimStart (a ++ [c]) = trimStart a ++ [c].
Proof.
  intros Hc. induction a as [|h a IH]; simpl; [now rewrite Hc|].
  destruct (isWhiteSpace h); [exact IH | reflexivity].
Qed.

Lemma trimEnd_cons c s :
  isWhiteSpace c = false -> trimEnd (c :: s) = c :: trimEnd s.
Proof.
  intros Hc. unfold trimEnd. simpl rev at 2.
  rewrite (trimStart_snoc _ _ Hc), rev_app_distr. reflexivity.
Qed.

Lemma trimStart_trimEnd s :
  trimStart s = s -> trimStart (trimEnd s) = trimEnd s.
Proof.
  destruct s as [|c s]; [reflexivity|]. intros Hs.
  apply trimStart_fixed_head in Hs. rewrite (trimEnd_cons _ _ Hs). simpl.
  now rewrite Hs.
Qed.

Lemma trim_padding l s r :
  whitespace l -> whitespace r -> trim (l ++ s ++ r) = trim s.
Proof.
  intros Hl Hr. unfold trim. rewrite (trimStart_whitespace l _ Hl).
  induction s as [|c s IH]; simpl.
  - now rewrite (trimStart_all_whitespace r Hr).
  - destruct (isWhiteSpace c); [exact IH|].
    exact (trimEnd_whitespace (c :: s) r Hr).
Qed.

Lemma trim_fixed s : trimStart (trim s) = trim s /\ trimEnd (trim s) = trim s.
Proof.
  unfold trim. split.
  - apply trimStart_trimEnd, trimStart_idempotent.
  - apply trimEnd_idempotent.
Qed.

Lemma trim_idempotent s : trim (trim s) = trim s.
Proof.
  destruct (trim_fixed s) as [Hs He]. unfold trim at 1. now rewrite Hs, He.
Qed.

(** A prefix that does not start with whitespace, put before a trimmed
    non-empty string, gives a trimmed string. *)
Lemma trim_prefixed p t :
  trimStart p = p -> p <> [] ->
  trimStart t = t -> trimEnd t = t -> t <> [] ->
  trim (p ++ t) = p ++ t.
Proof.
  intros Hp Hpne Hts Hte Htne. unfold trim.
  rewrite (trimStart_fixed_app p t Hp Hpne).
  unfold trimEnd. rewrite rev_app_distr.
  assert (Hrev : trimStart (rev t) = rev t).
  { unfold trimEnd in Hte. apply (f_equal (@rev N)) in Hte.
    now rewrite rev_involutive in Hte. }
  rewrite trimStart_fixed_app; [|exact Hrev|].
  - now rewrite <- rev_app_distr, rev_involutive.
  - intros Hnil. apply Htne. apply (f_equal (@rev N)) in Hnil.
    now rewrite rev_involutive in Hnil.
Qed.

Lemma canonical_trimmed raw : trim raw <> [] -> trim (canonical raw) = canonical raw.
Proof.
  intros Hne. unfold canonical, normalize.
  destruct (startsWith (trim raw) OFF_CHAIN_PREFIX); [apply trim_idempotent|].
  destruct (trim_fixed raw) as [Hs He].
  apply trim_prefixed; first [assumption | reflexivity | discriminate].
Qed.

Lemma canonical_not_empty raw : canonical raw <> [].
Proof.
  unfold canonical. intros Hn.
  pose proof (normalize_prefixed (trim raw)) as Hp. rewrite Hn in Hp. discriminate.
Qed.

(** *** The two spellings of a claim *)

Lemma prefix_grows t : OFF_CHAIN_PREFIX ++ t <> t.
Proof.
  intros Heq. apply (f_equal (@length N)) in Heq.
  rewrite length_app in Heq. simpl in Heq. lia.
Qed.

(** An upstream record that carries the trimmed text of a submission
    without the prefix, as it is or padded with whitespace, is matched
    through the trimmed key only: the submission of the canonical spelling
    does not match it. *)
Lemma deposit_matches_bare `{Host} raw d s :
  trim raw <> [] ->
  startsWith (trim raw) OFF_CHAIN_PREFIX = false ->
  prop d (js "txId") = JStr s ->
  s = trim raw \/ trim s = trim raw ->
  deposit_matches (canonical raw) (canonical raw) d = Normal false /\
  deposit_matches (trim raw) (canonical raw) d
  = (let! x := ToNumber (prop d (js "status")) in Normal (num_eq x (num 1))).
Proof.
  intros Hne Hp Hs Hor.
  assert (Ht : trim s = trim raw).
  { destruct Hor as [-> | Ht]; [apply trim_idempotent | exact Ht]. }
  assert (Hn : canonical raw = OFF_CHAIN_PREFIX ++ trim raw).
  { unfold canonical, normalize. now rewrite Hp. }
  assert (H1 : trim s <> canonical raw).
  { rewrite Ht, Hn. intros Heq. symmetry in Heq. now apply prefix_grows in Heq. }
  assert (H2 : s <> canonical raw).
  { intros ->. apply H1. now apply canonical_trimmed. }
  assert (Htruthy : truthy d = true).
  { destruct d; try discriminate. reflexivity. }
  unfold deposit_matches. rewrite Htruthy, Hs.
  apply streq_neq in H1, H2. rewrite H1, H2. split; [reflexivity|].
  apply streq_eq in Ht. rewrite Ht. simpl. now rewrite orb_true_r.
Qed.

(** The submission of a canonical identifier has that identifier as both
    of its keys. *)
Lemma deposit_txid_begin_canonical st body raw :
  trim raw <> [] ->
  field body "txId" = JStr (canonical raw) ->
  deposit_txid_begin st body =
  match getByTxId (db st) (canonical raw) with
  | Some row => Answered (already_used row)
  | None => AwaitingHistory (canonical raw) (canonical raw)
  end.
Proof.
  intros Hne Hbody.
  assert (Ht : trim (canonical raw) = canonical raw) by now apply canonical_trimmed.
  assert (Hn : normalize (canonical raw) = canonical raw) by apply normalize_idempotent.
  rewrite (deposit_txid_begin_string st body _ Hbody), Ht, Hn.
  pose proof (canonical_not_empty raw) as Hcn.
  destruct (canonical raw) as [|c0 n0]; [congruence|].
  unfold lookup_existing. destruct (getByTxId (db st) (c0 :: n0)); reflexivity.
Qed.

(** C2 (as amended): the handler trims the submitted string, answers an
    empty one with a 400, and otherwise forms the canonical identifier by
    prefixing unless the prefix is already there; the canonical and the
    trimmed forms are both lookup keys in the store and both candidates in
    the upstream match.  So the bare and the prefixed spelling have the
    same canonical identifier; in a store written by the handler they are
    the same claim for duplicate detection; and they match the same
    upstream records except a record whose txId, as it is or trimmed, is
    the bare spelling: such a record is matched (when its status is 1) by
    the bare submission and not by the prefixed one. *)
Theorem claim_canonicalization `{Host} (st : State) (req_body : JsVal) (raw : jstring) :
  field req_body "txId" = JStr raw ->
  let t := trim raw in
  let n := normalize t in
  (t = [] ->
     deposit_txid_begin st req_body = Answered txId_required /\
     status txId_required = 400) /\
  (startsWith t OFF_CHAIN_PREFIX = true -> n = t) /\
  (startsWith t OFF_CHAIN_PREFIX = false -> n = OFF_CHAIN_PREFIX ++ t) /\
  (t <> [] ->
     deposit_txid_begin st req_body =
     match getByTxId (db st) n with
     | Some row => Answered (already_used row)
     | None =>
         match getByTxId (db st) t with
         | Some row => Answered (already_used row)
         | None => AwaitingHistory t n
         end
     end) /\
  (forall d, deposit_matches t n d = Normal true <-> is_match t n d) /\
  (prefixed_store (db st) -> lookup_existing (db st) t n = getByTxId (db st) n) /\
  (forall e w fetched,
     prefixed_store (db st) ->
     prefixed_store (db (snd (deposit_txid_resume e w st t n fetched)))) /\
  (forall d,
     (forall s, prop d (js "txId") = JStr s -> s <> t /\ trim s <> t) ->
     deposit_matches t n d = deposit_matches n n d) /\
  (t <> [] -> startsWith t OFF_CHAIN_PREFIX = false ->
   forall d s,
     prop d (js "txId") = JStr s ->
     s = t \/ trim s = t ->
     deposit_matches n n d = Normal false /\
     deposit_matches t n d
     = (let! x := ToNumber (prop d (js "status")) in Normal (num_eq x (num 1)))) /\
  (t <> [] ->
   trim n = n /\ normalize (trim n) = n /\
   forall body, field body "txId" = JStr n ->
     deposit_txid_begin st body =
     match getByTxId (db st) n with
     | Some row => Answered (already_used row)
     | None => AwaitingHistory n n
     end) /\
  normalize (trim bare_id) = prefixed_id /\
  normalize (trim prefixed_id) = prefixed_id.
Proof.
  intros Hf t n.
  pose proof (deposit_txid_begin_string st req_body raw Hf) as Hb.
  fold t in Hb. fold n in Hb.
  split; [|split; [|split; [|split; [|split; [|split; [|split; [|split;
    [|split; [|split; [|split]]]]]]]]]].
  - intros Ht. rewrite Hb, Ht. now split.
  - unfold n, normalize. now intros ->.
  - unfold n, normalize. now intros ->.
  - intros Hne. rewrite Hb. destruct t as [|c t']; [congruence|].
    unfold lookup_existing. destruct (getByTxId (db st) n); [reflexivity|].
    destruct (getByTxId (db st) (c :: t')); reflexivity.
  - intros d. apply deposit_matches_spec.
  - apply lookup_existing_canonical.
  - intros e w fetched. apply deposit_txid_resume_prefixed.
  - intros d. apply deposit_matches_canonical.
  - intros Hne Hp d s Hs Hor. now apply (deposit_matches_bare raw d s).
  - intros Hne.
    assert (Htn : trim n = n) by now apply (canonical_trimmed raw).
    split; [exact Htn|]. split; [rewrite Htn; apply normalize_idempotent|].
    intros body Hbody. now apply (deposit_txid_begin_canonical st body raw).
  - vm_compute. reflexivity.
  - vm_compute. reflexivity.
Qed.

Lemma claim_canonicalization_witness :
  field (claim bare_id) "txId" = JStr bare_id /\
  deposit_txid_begin example_state (claim bare_id) = AwaitingHistory bare_id prefixed_id.
Proof.
  assert (Hf : field (claim bare_id) "txId" = JStr bare_id) by reflexivity.
  split; [exact Hf|].
  destruct (@claim_canonicalization example_host example_state (claim bare_id) bare_id Hf)
    as (_ & _ & _ & Hk & _).
  rewrite Hk; [|vm_compute; discriminate].
  vm_compute. reflexivity.
Defined.

(** C2 (as stated) fails for the upstream match: when the exchange
    reports the deposit under the bare spelling, the bare submission is
    matched and the prefixed submission is not, although both spellings
    have the same canonical identifier. *)
Lemma bare_record_matches_bare_submission_only :
  normalize (trim bare_id) = normalize (trim prefixed_id) /\
  (forall H : Host,
     let history := [deposit_record bare_id (str "9") 1] in
     @find_match H (trim bare_id) (normalize (trim bare_id)) history
     = Normal (Some (deposit_record bare_id (str "9") 1)) /\
     @find_match H (trim prefixed_id) (normalize (trim prefixed_id)) history
     = Normal None).
Proof.
  split; [vm_compute; reflexivity|].
  intros H. split; vm_compute; reflexivity.
Qed.

(** X8: surrounding whitespace does not matter: a submission whose text
    is another one padded with whitespace characters on either side gets
    the same answer from the first stretch of the deposit handler (the
    same 400, the same already_used reply, or the same two keys for the
    verification). *)
Theorem surrounding_whitespace_ignored (st : State) (body1 body2 : JsVal)
    (raw l r : jstring) :
  whitespace l -> whitespace r ->
  field body1 "txId" = JStr raw ->
  field body2 "txId" = JStr (l ++ raw ++ r) ->
  trim (l ++ raw ++ r) = trim raw /\
  deposit_txid_begin st body2 = deposit_txid_begin st body1.
Proof.
  intros Hl Hr H1 H2. pose proof (trim_padding l raw r Hl Hr) as Ht.
  split; [exact Ht|].
  rewrite (deposit_txid_begin_string st body1 raw H1).
  rewrite (deposit_txid_begin_string st body2 _ H2). now rewrite Ht.
Qed.

(** X9: the canonical identifier of a non-blank text is itself trimmed,
    non-empty and prefixed, and it is its own canonical identifier; so a
    submission of the stored identifier is looked up and matched under
    that one key. *)
Theorem canonical_is_fixed_point (st : State) (raw : jstring) :
  trim raw <> [] ->
  let n := canonical raw in
  trim n = n /\
  n <> [] /\
  startsWith n OFF_CHAIN_PREFIX = true /\
  canonical n = n /\
  deposit_txid_begin st (claim n) =
  match getByTxId (db st) n with
  | Some row => Answered (already_used row)
  | None => AwaitingHistory n n
  end.
Proof.
  intros Hne n.
  assert (Ht : trim n = n) by now apply canonical_trimmed.
  assert (Hn : n <> []) by apply canonical_not_empty.
  assert (Hp : startsWith n OFF_CHAIN_PREFIX = true) by apply normalize_prefixed.
  assert (Hc : canonical n = n).
  { unfold canonical at 1. rewrite Ht. apply normalize_idempotent. }
  repeat split; try assumption.
  rewrite (deposit_txid_begin_string st (claim n) n eq_refl), Ht.
  destruct n as [|c0 n0] eqn:En; [congruence|]. rewrite <- En in *.
  unfold lookup_existing. fold n.
  replace (normalize n) with n by (symmetry; unfold canonical in Hc; now rewrite Ht in Hc).
  destruct (getByTxId (db st) n); reflexivity.
Qed.

(** ** Start-up and persistence of the settings *)

Lemma load_setting_stored `{Host} key ok from_env text default d s :
  getSetting d (js key) = Some s ->
  isNaN (StringToNumber s) = false ->
  ok (StringToNumber s) = true ->
  load_setting key ok from_env text default d = Normal (StringToNumber s, d).
Proof.
  intros Hg Hn Hok. unfold load_setting. now rewrite Hg, Hn, Hok.
Qed.

(** What one initialiser does to the database: nothing, or one write
    under its own key. *)
Lemma load_setting_result `{Host} key ok from_env text default d n d' :
  load_setting key ok from_env text default d = Normal (n, d') ->
  agrees d' key n /\
  writable d' = writable d /\
  processed_transactions d' = processed_transactions d /\
  (forall k, k <> js key -> getSetting d' k = getSetting d k).
Proof.
  unfold load_setting.
  set (fromEnv := StringToNumber (env_or from_env (js text))).
  set (initial := if negb (isNaN fromEnv) && ok fromEnv then fromEnv else default).
  assert (Hfb : (let! d0 := setSetting d (js key) initial in Normal (initial, d0))
                = Normal (n, d') ->
                agrees d' key n /\ writable d' = writable d /\
                processed_transactions d' = processed_transactions d /\
                (forall k, k <> js key -> getSetting d' k = getSetting d k)).
  { unfold setSetting. destruct (negb (writable d)); simpl; [discriminate|].
    intros [= <- <-]. simpl. repeat split.
    - exists (NumberToString initial). split; [|now right].
      unfold getSetting. simpl. apply lookup_insert_eq.
    - intros k Hk. unfold getSetting. simpl. now apply lookup_insert_ne. }
  destruct (getSetting d (js key)) as [s|] eqn:Hg; [|exact Hfb].
  destruct (negb (isNaN (StringToNumber s)) && ok (StringToNumber s)); [|exact Hfb].
  intros [= <- <-]. repeat split. exists s. auto.
Qed.

Lemma load_setting_writable `{Host} key ok from_env text default d :
  writable d = true ->
  exists n d', load_setting key ok from_env text default d = Normal (n, d').
Proof.
  intros Hw. unfold load_setting.
  assert (Hs : forall v, exists d', setSetting d (js key) v = Normal d').
  { intros v. rewrite (setSetting_Normal d (js key) v Hw). eauto. }
  destruct (getSetting d (js key)) as [s|].
  - destruct (negb (isNaN (StringToNumber s)) && ok (StringToNumber s)); [eauto|].
    destruct (Hs (if negb (isNaN (StringToNumber (env_or from_env (js text))))
                     && ok (StringToNumber (env_or from_env (js text)))
                  then StringToNumber (env_or from_env (js text)) else default))
      as (d' & ->). simpl. eauto.
  - destruct (Hs (if negb (isNaN (StringToNumber (env_or from_env (js text))))
                     && ok (StringToNumber (env_or from_env (js text)))
                  then StringToNumber (env_or from_env (js text)) else default))
      as (d' & ->). simpl. eauto.
Qed.

Lemma setting_keys_distinct :
  js "KES_PER_USDT" <> js "MIN_DEPOSIT_AMOUNT" /\
  js "KES_PER_USDT" <> js "MIN_WITHDRAWAL_AMOUNT" /\
  js "MIN_DEPOSIT_AMOUNT" <> js "MIN_WITHDRAWAL_AMOUNT".
Proof. repeat split; intros Heq; vm_compute in Heq; discriminate. Qed.

Lemma agrees_other_key `{Host} d d' key v :
  (forall k, k <> js key -> getSetting d' k = getSetting d k) ->
  forall key', js key' <> js key -> agrees d key' v -> agrees d' key' v.
Proof.
  intros Hk key' Hne (s & Hs & Hv). exists s. split; [|exact Hv].
  now rewrite Hk.
Qed.

Lemma startup_steps `{Host} e d st :
  startup e d = Normal st ->
  exists d1 d2,
    load_KES_PER_USDT e d = Normal (KES_PER_USDT st, d1) /\
    load_MIN_DEPOSIT_AMOUNT e d1 = Normal (MIN_DEPOSIT_AMOUNT st, d2) /\
    load_MIN_WITHDRAWAL_AMOUNT e d2 = Normal (MIN_WITHDRAWAL_AMOUNT st, db st).
Proof.
  unfold startup.
  destruct (load_KES_PER_USDT e d) as [[rate d1]|] eqn:H1; simpl; [|discriminate].
  destruct (load_MIN_DEPOSIT_AMOUNT e d1) as [[md d2]|] eqn:H2; simpl; [|discriminate].
  destruct (load_MIN_WITHDRAWAL_AMOUNT e d2) as [[mw d3]|] eqn:H3; simpl; [|discriminate].
  intros [= <-]. simpl. eauto.
Qed.

(** X10: start-up succeeds on every database that accepts writes; and
    when it succeeds, the store agrees with each of the three values in
    memory (it holds a text that reads as the value, or the text of the
    value), and no row of [processed_transactions] was touched. *)
Theorem startup_store_agrees `{Host} (e : Env) (d : Database) :
  (writable d = true -> exists st, startup e d = Normal st) /\
  (forall st,
     startup e d = Normal st ->
     agrees (db st) "KES_PER_USDT" (KES_PER_USDT st) /\
     agrees (db st) "MIN_DEPOSIT_AMOUNT" (MIN_DEPOSIT_AMOUNT st) /\
     agrees (db st) "MIN_WITHDRAWAL_AMOUNT" (MIN_WITHDRAWAL_AMOUNT st) /\
     processed_transactions (db st) = processed_transactions d).
Proof.
  split.
  - intros Hw. unfold startup.
    destruct (load_setting_writable "KES_PER_USDT" positive (env_KES_PER_USDT e)
                "150" (num 150) d Hw) as (n1 & d1 & H1).
    destruct (load_setting_result _ _ _ _ _ _ _ _ H1) as (_ & Hw1 & _).
    rewrite Hw in Hw1.
    destruct (load_setting_writable "MIN_DEPOSIT_AMOUNT" non_negative
                (env_MIN_DEPOSIT_AMOUNT e) "0" zero d1 Hw1) as (n2 & d2 & H2).
    destruct (load_setting_result _ _ _ _ _ _ _ _ H2) as (_ & Hw2 & _).
    rewrite Hw1 in Hw2.
    destruct (load_setting_writable "MIN_WITHDRAWAL_AMOUNT" positive
                (env_MIN_WITHDRAWAL_AMOUNT e) "10" (num 10) d2 Hw2) as (n3 & d3 & H3).
    unfold load_KES_PER_USDT, load_MIN_DEPOSIT_AMOUNT, load_MIN_WITHDRAWAL_AMOUNT.
    rewrite H1. cbn [cbind]. rewrite H2. cbn [cbind]. rewrite H3. cbn [cbind]. eauto.
  - intros st Hst. destruct (startup_steps e d st Hst) as (d1 & d2 & H1 & H2 & H3).
    destruct (load_setting_result _ _ _ _ _ _ _ _ H1) as (A1 & _ & R1 & _).
    destruct (load_setting_result _ _ _ _ _ _ _ _ H2) as (A2 & _ & R2 & K2).
    destruct (load_setting_result _ _ _ _ _ _ _ _ H3) as (A3 & _ & R3 & K3).
    destruct setting_keys_distinct as (N12 & N13 & N23).
    split; [|split; [|split]].
    + apply (agrees_other_key d2 (db st) "MIN_WITHDRAWAL_AMOUNT" _ K3); [exact N13|].
      now apply (agrees_other_key d1 d2 "MIN_DEPOSIT_AMOUNT" _ K2).
    + now apply (agrees_other_key d2 (db st) "MIN_WITHDRAWAL_AMOUNT" _ K3).
    + exact A3.
    + congruence.
Qed.

Lemma num_eq_ok a b :
  num_eq a b = true ->
  isNaN a = false /\
  (positive b = true -> a = b) /\
  (non_negative b = true -> non_negative a = true).
Proof.
  intros Heq. split; [now apply num_eq_not_NaN in Heq|].
  destruct (num_eq_cases a b Heq) as [-> | (s & s' & -> & ->)].
  - auto.
  - split; [discriminate | reflexivity].
Qed.

(** Start-up returns a stored setting that passes its check, whatever the
    environment says. *)
Lemma startup_reads `{Host} e d :
  writable d = true ->
  (forall s, getSetting d (js "KES_PER_USDT") = Some s ->
     isNaN (StringToNumber s) = false -> positive (StringToNumber s) = true ->
     exists st, startup e d = Normal st /\ KES_PER_USDT st = StringToNumber s) /\
  (forall s, getSetting d (js "MIN_DEPOSIT_AMOUNT") = Some s ->
     isNaN (StringToNumber s) = false -> non_negative (StringToNumber s) = true ->
     exists st, startup e d = Normal st /\ MIN_DEPOSIT_AMOUNT st = StringToNumber s) /\
  (forall s, getSetting d (js "MIN_WITHDRAWAL_AMOUNT") = Some s ->
     isNaN (StringToNumber s) = false -> positive (StringToNumber s) = true ->
     exists st, startup e d = Normal st /\ MIN_WITHDRAWAL_AMOUNT st = StringToNumber s).
Proof.
  intros Hw.
  destruct (load_setting_writable "KES_PER_USDT" positive (env_KES_PER_USDT e)
              "150" (num 150) d Hw) as (n1 & d1 & H1).
  destruct (load_setting_result _ _ _ _ _ _ _ _ H1) as (_ & Hw1 & _ & K1).
  rewrite Hw in Hw1.
  destruct (load_setting_writable "MIN_DEPOSIT_AMOUNT" non_negative
              (env_MIN_DEPOSIT_AMOUNT e) "0" zero d1 Hw1) as (n2 & d2 & H2).
  destruct (load_setting_result _ _ _ _ _ _ _ _ H2) as (_ & Hw2 & _ & K2).
  rewrite Hw1 in Hw2.
  destruct (load_setting_writable "MIN_WITHDRAWAL_AMOUNT" positive
              (env_MIN_WITHDRAWAL_AMOUNT e) "10" (num 10) d2 Hw2) as (n3 & d3 & H3).
  destruct setting_keys_distinct as (N12 & N13 & N23).
  assert (Hrun : startup e d
                 = Normal {| KES_PER_USDT := n1; MIN_DEPOSIT_AMOUNT := n2;
                             MIN_WITHDRAWAL_AMOUNT := n3; db := d3 |}).
  { unfold startup, load_KES_PER_USDT, load_MIN_DEPOSIT_AMOUNT,
      load_MIN_WITHDRAWAL_AMOUNT.
    rewrite H1. cbn [cbind]. rewrite H2. cbn [cbind]. now rewrite H3. }
  split; [|split]; intros s Hs Hn Hok; eexists; (split; [exact Hrun|]); simpl.
  - rewrite (load_setting_stored _ _ _ _ _ _ s Hs Hn Hok) in H1. congruence.
  - assert (Hs1 : getSetting d1 (js "MIN_DEPOSIT_AMOUNT") = Some s).
    { rewrite K1; [exact Hs | congruence]. }
    rewrite (load_setting_stored _ _ _ _ _ _ s Hs1 Hn Hok) in H2. congruence.
  - assert (Hs2 : getSetting d2 (js "MIN_WITHDRAWAL_AMOUNT") = Some s).
    { rewrite K2, K1; [exact Hs | congruence | congruence]. }
    rewrite (load_setting_stored _ _ _ _ _ _ s Hs2 Hn Hok) in H3. congruence.
Qed.

(** X11: a value accepted by a configuration endpoint and written to the
    store survives a restart: start-up on the database the handler left,
    under any environment, returns it (for the minimum deposit: a number
    equal to it, since -0 is stored as 0), provided its text reads back as
    the value. *)
Theorem update_survives_restart `{Host} (e : Env) (st : State) (req_body : JsVal)
    (n : Number) :
  writable (db st) = true ->
  reads_back n ->
  (valid_rate (field req_body "rate") n ->
   exists st',
     startup e (db (snd (post_rate st req_body))) = Normal st' /\
     KES_PER_USDT st' = n) /\
  (valid_min_deposit (field req_body "minDepositAmount") n ->
   exists st',
     startup e (db (snd (post_min_deposit st req_body))) = Normal st' /\
     num_eq (MIN_DEPOSIT_AMOUNT st') n = true) /\
  (valid_min_withdrawal (field req_body "minWithdrawalAmount") n ->
   exists st',
     startup e (db (snd (post_min_withdrawal st req_body))) = Normal st' /\
     MIN_WITHDRAWAL_AMOUNT st' = n).
Proof.
  intros Hw Hrb. unfold reads_back in Hrb.
  destruct (num_eq_ok _ _ Hrb) as (Hnan & Hpos & Hnn).
  split; [|split].
  - intros (Hn & Ht & Hna & Hle). unfold post_rate.
    rewrite Hn, Ht, Hna, Hle. simpl negb. simpl orb. cbv iota zeta. cbn [db].
    rewrite (setSetting_Normal (db st) (js "KES_PER_USDT") n Hw). cbn [snd set_db db].
    pose proof (not_le_zero_positive n Hna Hle) as Hp.
    match goal with |- exists _, startup e ?d = _ /\ _ =>
      destruct (proj1 (startup_reads e d Hw) (NumberToString n)) as (st' & Hs & Hv)
    end.
    + unfold getSetting. simpl. apply lookup_insert_eq.
    + exact Hnan.
    + now rewrite (Hpos Hp).
    + exists st'. split; [exact Hs|]. rewrite Hv. auto.
  - intros (Hn & Ht & Hna & Hle). unfold post_min_deposit.
    rewrite Hn, Ht, Hna, Hle. simpl orb. cbv iota zeta. cbn [db].
    rewrite (setSetting_Normal (db st) (js "MIN_DEPOSIT_AMOUNT") n Hw).
    cbn [snd set_db db].
    pose proof (not_lt_zero_non_negative n Hna Hle) as Hp.
    match goal with |- exists _, startup e ?d = _ /\ _ =>
      destruct (proj1 (proj2 (startup_reads e d Hw)) (NumberToString n))
        as (st' & Hs & Hv)
    end.
    + unfold getSetting. simpl. apply lookup_insert_eq.
    + exact Hnan.
    + auto.
    + exists st'. split; [exact Hs|]. now rewrite Hv.
  - intros (Hn & Ht & Hna & Hle). unfold post_min_withdrawal.
    rewrite Hn, Ht, Hna, Hle. simpl orb. cbv iota zeta. cbn [db].
    rewrite (setSetting_Normal (db st) (js "MIN_WITHDRAWAL_AMOUNT") n Hw).
    cbn [snd set_db db].
    pose proof (not_le_zero_positive n Hna Hle) as Hp.
    match goal with |- exists _, startup e ?d = _ /\ _ =>
      destruct (proj2 (proj2 (startup_reads e d Hw)) (NumberToString n))
        as (st' & Hs & Hv)
    end.
    + unfold getSetting. simpl. apply lookup_insert_eq.
    + exact Hnan.
    + now rewrite (Hpos Hp).
    + exists st'. split; [exact Hs|]. rewrite Hv. auto.
Qed.

(** ** Further properties of the withdrawal handler *)

Lemma is_str_eq v s : is_str v s = true -> v = str s.
Proof.
  destruct v; try discriminate. simpl. intros Hs. apply streq_eq in Hs. now subst.
Qed.

Lemma detect_network_values a net :
  detect_network a = Some net -> net = js "TRX" \/ net = js "SOL".
Proof.
  unfold detect_network. destruct (trx_shape a); [intros [= <-]; now left|].
  destruct (sol_shape a); [intros [= <-]; now right | discriminate].
Qed.

(** What validation establishes of a request it lets through. *)
Lemma withdraw_validate_inr `{Host} (req_body : JsVal) (wd : Withdrawal) :
  withdraw_validate req_body = Normal (inr wd) ->
  (exists raw, field req_body "address" = JStr raw /\ addressTrimmed wd = trim raw) /\
  addressTrimmed wd <> [] /\
  (detectedNetwork wd = str "TRX" \/ detectedNetwork wd = str "SOL") /\
  (truthy (field req_body "network") = true ->
     detectedNetwork wd = field req_body "network") /\
  (truthy (field req_body "network") = false ->
     exists net, detect_network (addressTrimmed wd) = Some net /\
                 detectedNetwork wd = JStr net) /\
  (nullish (field req_body "amount") = true -> withdrawalAmount wd = None) /\
  (forall a, withdrawalAmount wd = Some a ->
     ToNumber (field req_body "amount") = Normal a /\
     isNaN a = false /\ positive a = true).
Proof.
  unfold withdraw_validate.
  destruct (negb (truthy (field req_body "address")) || _); [discriminate|].
  destruct (field req_body "address") as [| | | |raw| |]; try discriminate.
  destruct (trim raw) as [|c0 t0] eqn:Et; [discriminate|]. rewrite <- Et.
  assert (Hne : trim raw <> []) by (rewrite Et; discriminate).
  assert (Hfinish : forall net amount,
    (net = str "TRX" \/ net = str "SOL") ->
    (truthy (field req_body "network") = true -> net = field req_body "network") ->
    (truthy (field req_body "network") = false ->
       exists n0, detect_network (trim raw) = Some n0 /\ net = JStr n0) ->
    (nullish (field req_body "amount") = true -> amount = None) ->
    (forall a, amount = Some a ->
       ToNumber (field req_body "amount") = Normal a /\
       isNaN a = false /\ positive a = true) ->
    forall wd0,
      wd0 = {| addressTrimmed := trim raw; detectedNetwork := net;
               withdrawalAmount := amount |} ->
      (exists raw0, JStr raw = JStr raw0 /\ addressTrimmed wd0 = trim raw0) /\
      addressTrimmed wd0 <> [] /\
      (detectedNetwork wd0 = str "TRX" \/ detectedNetwork wd0 = str "SOL") /\
      (truthy (field req_body "network") = true ->
         detectedNetwork wd0 = field req_body "network") /\
      (truthy (field req_body "network") = false ->
         exists n0, detect_network (addressTrimmed wd0) = Some n0 /\
                    detectedNetwork wd0 = JStr n0) /\
      (nullish (field req_body "amount") = true -> withdrawalAmount wd0 = None) /\
      (forall a, withdrawalAmount wd0 = Some a ->
         ToNumber (field req_body "amount") = Normal a /\
         isNaN a = false /\ positive a = true)).
  { intros net amount H3 H4 H5 H6 H7 wd0 ->. simpl.
    split; [eauto|]. split; [exact Hne|]. auto. }
  assert (Hamount : forall net,
    (net = str "TRX" \/ net = str "SOL") ->
    (truthy (field req_body "network") = true -> net = field req_body "network") ->
    (truthy (field req_body "network") = false ->
       exists n0, detect_network (trim raw) = Some n0 /\ net = JStr n0) ->
    (if nullish (field req_body "amount") then
       Normal (inr {| addressTrimmed := trim raw; detectedNetwork := net;
                      withdrawalAmount := None |})
     else
       let! n := ToNumber (field req_body "amount") in
       if isNaN n || num_le n zero then
         Normal (inl (bad_request "amount must be a positive number (in USDT)"))
       else
         Normal (inr {| addressTrimmed := trim raw; detectedNetwork := net;
                        withdrawalAmount := Some n |})) = Normal (inr wd) ->
    exists amount,
      wd = {| addressTrimmed := trim raw; detectedNetwork := net;
              withdrawalAmount := amount |} /\
      (nullish (field req_body "amount") = true -> amount = None) /\
      (forall a, amount = Some a ->
         ToNumber (field req_body "amount") = Normal a /\
         isNaN a = false /\ positive a = true)).
  { intros net _ _ _.
    destruct (nullish (field req_body "amount")) eqn:Ea.
    - intros [= <-]. exists None. split; [reflexivity|]. split; [reflexivity|].
      discriminate.
    - destruct (ToNumber _) as [x|] eqn:Ex; simpl; [|discriminate].
      destruct (isNaN x || num_le x zero) eqn:Eg; [discriminate|].
      apply orb_false_iff in Eg as [Hnan Hle].
      intros [= <-]. exists (Some x). split; [reflexivity|]. split; [discriminate|].
      intros a [= <-]. auto using not_le_zero_positive. }
  destruct (truthy (field req_body "network")) eqn:Hn; simpl negb; cbv iota.
  - assert (Hnet : is_str (field req_body "network") "TRX" = true
                   \/ is_str (field req_body "network") "SOL" = true ->
                   field req_body "network" = str "TRX"
                   \/ field req_body "network" = str "SOL").
    { intros [E | E]; apply is_str_eq in E; auto. }
    destruct (is_str (field req_body "network") "TRX") eqn:E1;
      [|destruct (is_str (field req_body "network") "SOL") eqn:E2;
        [|simpl; discriminate]]; simpl andb; cbv iota; intros Hwd;
      (destruct (Hamount (field req_body "network")) as (amount & Hrec & H6 & H7);
         [auto | auto | discriminate | exact Hwd |];
       apply (Hfinish (field req_body "network") amount); auto; discriminate).
  - destruct (detect_network (trim raw)) as [net|] eqn:Ed; [|discriminate].
    simpl andb. cbv iota. intros Hwd.
    assert (Hv : JStr net = str "TRX" \/ JStr net = str "SOL").
    { destruct (detect_network_values _ _ Ed) as [-> | ->]; auto. }
    destruct (Hamount (JStr net)) as (amount & Hrec & H6 & H7);
      [exact Hv | discriminate | eauto | exact Hwd |].
    apply (Hfinish (JStr net) amount); eauto; discriminate.
Qed.

(** X12: a withdrawal request that passes validation has a non-empty
    address equal to the trimmed text submitted, a network that is TRX or
    SOL (the one supplied, or the one detected from the address when none
    was supplied), and an amount that, when given, is a number greater
    than 0. *)
Theorem validated_withdrawal `{Host} (req_body : JsVal) (wd : Withdrawal) :
  withdraw_validate req_body = Normal (inr wd) ->
  (exists raw, field req_body "address" = JStr raw /\ addressTrimmed wd = trim raw) /\
  addressTrimmed wd <> [] /\
  (detectedNetwork wd = str "TRX" \/ detectedNetwork wd = str "SOL") /\
  (truthy (field req_body "network") = true ->
     detectedNetwork wd = field req_body "network") /\
  (truthy (field req_body "network") = false ->
     exists net, detect_network (addressTrimmed wd) = Some net /\
                 detectedNetwork wd = JStr net) /\
  (nullish (field req_body "amount") = true -> withdrawalAmount wd = None) /\
  (forall a, withdrawalAmount wd = Some a ->
     ToNumber (field req_body "amount") = Normal a /\
     isNaN a = false /\ positive a = true).
Proof. apply withdraw_validate_inr. Qed.

Lemma binanceGet_calls `{Host} c w path params :
  Forall (fun call => call_method call = GET) (snd (binanceGet c w path params)).
Proof.
  unfold binanceGet. destruct (absent _ || absent _); [constructor|].
  destruct (signed_url c w path params); simpl; repeat constructor.
Qed.

Lemma getUSDTBalance_calls `{Host} c w :
  Forall (fun call => call_method call = GET) (snd (getUSDTBalance c w)).
Proof.
  unfold getUSDTBalance, net_bind.
  pose proof (binanceGet_calls c w (js "/api/v3/account") []) as Hg.
  destruct (binanceGet c w (js "/api/v3/account") []) as [[account|err] calls];
    simpl in *; [|exact Hg].
  destruct (if truthy account then prop account (js "balances") else JUndefined);
    simpl; rewrite ?app_nil_r; exact Hg.
Qed.

Lemma withdraw_gates_Cleared `{Host} st amount availableAmount finalAmount :
  withdraw_gates st amount availableAmount = Cleared finalAmount ->
  finalAmount = match amount with Some a => a | None => availableAmount end /\
  num_le availableAmount zero = false /\
  num_lt finalAmount (MIN_WITHDRAWAL_AMOUNT st) = false /\
  num_gt finalAmount availableAmount = false.
Proof.
  unfold withdraw_gates.
  destruct (num_le availableAmount zero); [discriminate|].
  destruct (num_lt _ (MIN_WITHDRAWAL_AMOUNT st)) eqn:E1; [discriminate|].
  destruct (num_gt _ availableAmount) eqn:E2; [discriminate|].
  intros [= <-]. auto.
Qed.

(** X13: the withdrawal handler submits a withdrawal (its only POST) only
    for a request that passed validation, after a balance query that
    returned, and when none of the three tests of the handler holds: the
    balance is not [<= 0], the resolved amount is not below the minimum
    withdrawal and not above the balance.  When the balance is a number,
    this means that the balance is above 0 and that the resolved amount
    is a number above 0, at most the balance and (when the minimum is a
    number) at least the minimum.  A balance that is NaN, which is what
    [Number(free)] yields for a [free] that is not numeric, passes the
    three tests as well: a request without an amount is then submitted
    with the amount NaN. *)
Theorem withdrawal_submitted_only_when_cleared `{Host} (e : Env) (w : World)
    (st : State) (req_body : JsVal) :
  (forall call,
     In call (snd (withdraw e w st req_body)) ->
     call_method call = POST ->
     exists wd availableAmount calls,
       withdraw_validate req_body = Normal (inr wd) /\
       getUSDTBalance (credentials e) w = (Normal availableAmount, calls) /\
       num_le availableAmount zero = false /\
       num_lt (resolved_amount wd availableAmount) (MIN_WITHDRAWAL_AMOUNT st) = false /\
       num_gt (resolved_amount wd availableAmount) availableAmount = false /\
       (isNaN availableAmount = false ->
          positive availableAmount = true /\
          isNaN (resolved_amount wd availableAmount) = false /\
          positive (resolved_amount wd availableAmount) = true /\
          num_le (resolved_amount wd availableAmount) availableAmount = true /\
          (isNaN (MIN_WITHDRAWAL_AMOUNT st) = false ->
             num_ge (resolved_amount wd availableAmount) (MIN_WITHDRAWAL_AMOUNT st)
             = true)) /\
       snd (withdraw e w st req_body)
       = calls ++ snd (withdrawUSDT (credentials e) w (addressTrimmed wd)
                         (resolved_amount wd availableAmount) (detectedNetwork wd))) /\
  (forall wd availableAmount calls,
     withdraw_validate req_body = Normal (inr wd) ->
     getUSDTBalance (credentials e) w = (Normal availableAmount, calls) ->
     isNaN availableAmount = true ->
     withdrawalAmount wd = None ->
     snd (withdraw e w st req_body)
     = calls ++ snd (withdrawUSDT (credentials e) w (addressTrimmed wd)
                       availableAmount (detectedNetwork wd))).
Proof.
  split.
  - intros call. unfold withdraw.
    destruct (withdraw_validate req_body) as [[r|wd]|err] eqn:Hv; simpl;
      try contradiction.
    unfold withdraw_try, net_bind.
    pose proof (getUSDTBalance_calls (credentials e) w) as Hget.
    destruct (getUSDTBalance (credentials e) w) as [[availableAmount|err] calls];
      simpl in Hget.
    + destruct (withdraw_gates st (withdrawalAmount wd) availableAmount)
        as [r|finalAmount] eqn:Eg.
      * simpl. rewrite app_nil_r. intros Hin Hpost.
        rewrite Forall_forall in Hget. apply list_elem_of_In in Hin.
        apply Hget in Hin. congruence.
      * apply withdraw_gates_Cleared in Eg as (Hf & H0 & H1 & H2).
        fold (resolved_amount wd availableAmount) in Hf. subst finalAmount.
        intros _ _. exists wd, availableAmount, calls.
        split; [reflexivity|]. split; [reflexivity|].
        split; [exact H0|]. split; [exact H1|]. split; [exact H2|]. split.
        -- intros Hna.
           pose proof (not_le_zero_positive _ Hna H0) as Hpos.
           assert (Hnf : isNaN (resolved_amount wd availableAmount) = false
                         /\ positive (resolved_amount wd availableAmount) = true).
           { unfold resolved_amount.
             destruct (withdrawalAmount wd) as [a|] eqn:Ea; [|now split].
             destruct (withdraw_validate_inr req_body wd Hv)
               as (_ & _ & _ & _ & _ & _ & Ha).
             destruct (Ha a Ea) as (_ & Hn & Hp). now split. }
           destruct Hnf as [Hnf Hpf].
           split; [exact Hpos|]. split; [exact Hnf|]. split; [exact Hpf|].
           split; [now apply not_lt_le|].
           intros Hnm. now apply (not_lt_le _ _ Hnf Hnm).
        -- destruct (withdrawUSDT _ _ _ _ _) as [[result|err] calls'];
             [destruct (nullish result)|]; simpl; rewrite ?app_nil_r; reflexivity.
    + simpl. intros Hin Hpost.
      rewrite Forall_forall in Hget. apply list_elem_of_In in Hin.
      apply Hget in Hin. congruence.
  - intros wd availableAmount calls Hv Hb Hnan Hnone.
    unfold withdraw, withdraw_try, net_bind. rewrite Hv, Hb.
    assert (Hg : withdraw_gates st (withdrawalAmount wd) availableAmount
                 = Cleared availableAmount).
    { rewrite Hnone. destruct availableAmount; try discriminate. reflexivity. }
    rewrite Hg.
    destruct (withdrawUSDT _ _ _ _ _) as [[result|err] calls'];
      [destruct (nullish result)|]; simpl; rewrite ?app_nil_r; reflexivity.
Qed.

Lemma find_usdt_none balances :
  Forall other_asset balances -> find_usdt balances = Normal None.
Proof.
  induction 1 as [|b rest [Hn Ha] _ IH]; simpl; [reflexivity|].
  rewrite Hn. destruct (prop b (js "asset")) as [| | | |a| |]; try exact IH.
  destruct (streq a (js "USDT")) eqn:E; [|exact IH].
  apply streq_eq in E. subst. now elim Ha.
Qed.

Lemma find_usdt_first before b after :
  Forall other_asset before ->
  nullish b = false ->
  prop b (js "asset") = str "USDT" ->
  find_usdt (before ++ b :: after) = Normal (Some b).
Proof.
  intros Hb Hn Ha. induction Hb as [|x rest [Hxn Hxa] _ IH]; simpl.
  - rewrite Hn, Ha. unfold str. now rewrite streq_refl.
  - rewrite Hxn. destruct (prop x (js "asset")) as [| | | |a| |]; try exact IH.
    destruct (streq a (js "USDT")) eqn:E; [|exact IH].
    apply streq_eq in E. subst. now elim Hxa.
Qed.

Lemma find_usdt_null before b after :
  Forall other_asset before ->
  nullish b = true ->
  find_usdt (before ++ b :: after) = Throw (cannot_read b "asset").
Proof.
  intros Hb Hn. induction Hb as [|x rest [Hxn Hxa] _ IH]; simpl.
  - now rewrite Hn.
  - rewrite Hxn. destruct (prop x (js "asset")) as [| | | |a| |]; try exact IH.
    destruct (streq a (js "USDT")) eqn:E; [|exact IH].
    apply streq_eq in E. subst. now elim Hxa.
Qed.

(** Every list of entries falls under one of the three cases. *)
Lemma balances_cases balances :
  Forall other_asset balances \/
  exists before b after,
    balances = before ++ b :: after /\ Forall other_asset before /\
    (nullish b = true \/ (nullish b = false /\ prop b (js "asset") = str "USDT")).
Proof.
  induction balances as [|x rest IH]; [left; constructor|].
  destruct (nullish x) eqn:Hn.
  { right. exists [], x, rest. split; [reflexivity|]. split; [constructor|]. now left. }
  assert (Hdec : prop x (js "asset") = str "USDT" \/ prop x (js "asset") <> str "USDT").
  { destruct (prop x (js "asset")) as [| | | |a| |]; try (right; discriminate).
    destruct (streq a (js "USDT")) eqn:E.
    - apply streq_eq in E. left. now subst.
    - apply streq_neq in E. right. unfold str. congruence. }
  destruct Hdec as [Ha | Ha].
  { right. exists [], x, rest. split; [reflexivity|]. split; [constructor|]. now right. }
  destruct IH as [Hall | (before & b & after & -> & Hbefore & Hb)].
  - left. constructor; [now split | exact Hall].
  - right. exists (x :: before), b, after. split; [reflexivity|].
    split; [constructor; [now split | exact Hbefore] | exact Hb].
Qed.

(** X14: with credentials set, a signed address and an account answer
    whose [balances] is an array, the balance is 0 when no entry is the
    USDT one and none is [null]; it is [Number(free || 0)] of the first
    USDT entry when no entry before it is [null]; and an entry that is
    [null] or [undefined] and comes before any USDT entry makes the call
    throw the TypeError of reading its [asset].  Every array falls under
    one of these cases, and in each exactly one request was sent, the
    signed GET of the account. *)
Theorem balance_is_first_usdt_entry `{Host} (c : Credentials) (w : World)
    (url : jstring) (account : JsVal) (balances : list JsVal) :
  absent (BINANCE_API_KEY c) = false ->
  absent (BINANCE_API_SECRET c) = false ->
  signed_url c w (js "/api/v3/account") [] = Normal url ->
  axios w (account_call c url) = Normal account ->
  truthy account = true ->
  prop account (js "balances") = JArr balances ->
  (Forall other_asset balances ->
     getUSDTBalance c w = (Normal zero, [account_call c url])) /\
  (forall before b after,
     balances = before ++ b :: after ->
     Forall other_asset before ->
     nullish b = false ->
     prop b (js "asset") = str "USDT" ->
     getUSDTBalance c w
     = (ToNumber (logical_or (prop b (js "free")) (JNum zero)), [account_call c url])) /\
  (forall before b after,
     balances = before ++ b :: after ->
     Forall other_asset before ->
     nullish b = true ->
     getUSDTBalance c w = (Throw (cannot_read b "asset"), [account_call c url]) /\
     name (cannot_read b "asset") = js "TypeError") /\
  (Forall other_asset balances \/
   exists before b after,
     balances = before ++ b :: after /\ Forall other_asset before /\
     (nullish b = true \/ (nullish b = false /\ prop b (js "asset") = str "USDT"))).
Proof.
  intros Hk Hs Hurl Hax Ht Hb.
  assert (Hget : binanceGet c w (js "/api/v3/account") []
                 = (Normal account, [account_call c url])).
  { unfold binanceGet, net_send. rewrite Hk, Hs, Hurl. simpl.
    fold (account_call c url). now rewrite Hax. }
  unfold getUSDTBalance, net_bind. rewrite Hget, Ht, Hb.
  split; [|split; [|split]].
  - intros Hall. now rewrite (find_usdt_none balances Hall).
  - intros before b after -> Hbefore Hn Ha.
    now rewrite (find_usdt_first before b after Hbefore Hn Ha).
  - intros before b after -> Hbefore Hn.
    rewrite (find_usdt_null before b after Hbefore Hn).
    split; [reflexivity|]. now destruct b.
  - apply balances_cases.
Qed.

(** ** The debug listing *)

Lemma safe_records_map deposits :
  Forall (fun d => nullish d = false) deposits ->
  safe_records deposits = Normal (map safe_record deposits).
Proof.
  induction 1 as [|d rest Hd _ IH]; simpl; [reflexivity|].
  now rewrite Hd, IH.
Qed.

Lemma safe_record_hides d k :
  ~ In k listed_keys -> prop (safe_record d) k = JUndefined.
Proof.
  intros Hk. unfold safe_record, prop, assoc.
  repeat match goal with
  | |- context [streq k ?x] =>
      let E := fresh in
      destruct (streq k x) eqn:E;
      [apply streq_eq in E; subst k; exfalso; apply Hk; unfold listed_keys; simpl; tauto|]
  end.
  reflexivity.
Qed.

Lemma safe_records_null before d after :
  Forall (fun d => nullish d = false) before ->
  nullish d = true ->
  safe_records (before ++ d :: after) = Throw (cannot_read d "txId").
Proof.
  intros Hb Hd. induction Hb as [|x rest Hx _ IH]; simpl.
  - now rewrite Hd.
  - now rewrite Hx, IH.
Qed.

Lemma cannot_read_text v key :
  nullish v = true ->
  name (cannot_read v key) = js "TypeError" /\
  error_text (cannot_read v key) = message (cannot_read v key) /\
  response (cannot_read v key) = JUndefined.
Proof. destruct v; try discriminate; intros _; repeat split. Qed.

(** X15: outside development mode the debug endpoint answers 404 and
    sends nothing to the exchange.  In development mode, when none of the
    records of the deposit history is [null], it lists them in order, each
    cut down to its five listed fields (no other field of an upstream
    record can be read from the listing), with their count; a record that
    is [null] (or [undefined]) makes it answer with a 500 that carries the
    text of the TypeError of reading its [txId]; and an error of the
    history call is answered with a 500 carrying its text. *)
Theorem debug_listing `{Host} (e : Env) (w : World) :
  (is_development e = false ->
     debug_deposits e w = (status_json 404 [(js "error", str "Not found")], [])) /\
  (is_development e = true ->
   forall records calls,
     fetch_recent e w = (Normal records, calls) ->
     Forall (fun d => nullish d = false) records ->
     debug_deposits e w
     = (json [(js "count", JNum (num (Z.of_nat (length records))));
              (js "deposits", JArr (map safe_record records))], calls)) /\
  (is_development e = true ->
   forall before d after calls,
     fetch_recent e w = (Normal (before ++ d :: after), calls) ->
     Forall (fun d => nullish d = false) before ->
     nullish d = true ->
     debug_deposits e w
     = (status_json 500 [(js "error", JStr (message (cannot_read d "txId")))], calls) /\
     name (cannot_read d "txId") = js "TypeError") /\
  (is_development e = true ->
   forall err calls,
     fetch_recent e w = (Throw err, calls) ->
     debug_deposits e w = (status_json 500 [(js "error", JStr (error_text err))], calls)) /\
  (forall d k, ~ In k listed_keys -> prop (safe_record d) k = JUndefined).
Proof.
  unfold debug_deposits, fetch_recent.
  split; [|split; [|split; [|split]]].
  - now intros ->.
  - intros -> records calls -> Hall. simpl.
    rewrite (safe_records_map records Hall). now rewrite length_map.
  - intros -> before d after calls -> Hbefore Hd. simpl.
    rewrite (safe_records_null before d after Hbefore Hd).
    destruct (cannot_read_text d "txId" Hd) as (Hname & Htext & _).
    now rewrite Htext.
  - now intros -> err calls ->.
  - apply safe_record_hides.
Qed.

Lemma debug_listing_witness :
  is_development example_env = false /\
  @debug_deposits example_host example_env (world_with_history confirmed_10)
  = (status_json 404 [(js "error", str "Not found")], []) /\
  is_development development_env = true /\
  fst (@debug_deposits example_host development_env (world_with_history confirmed_10))
  = json [(js "count", JNum (num 1));
          (js "deposits", JArr [safe_record (record_of (JNum (num 10)))])].
Proof.
  split; [reflexivity|]. split.
  - apply (proj1 (@debug_listing example_host example_env
                    (world_with_history confirmed_10))). reflexivity.
  - split; [reflexivity|].
    rewrite (proj1 (proj2 (@debug_listing example_host development_env
                             (world_with_history confirmed_10))) eq_refl confirmed_10
               (snd (@fetch_recent example_host development_env
                       (world_with_history confirmed_10)))).
    + reflexivity.
    + vm_compute. reflexivity.
    + repeat constructor.
Defined.

(** ** The maintenance script *)

(** X16: on an existing database that accepts writes, clear-db reports
    the numbers of rows it found and leaves both tables empty: afterwards
    no identifier is found, so every non-blank claim goes to verification
    again, and no setting is stored, so the next start-up takes the three
    values from the environment (or the defaults), whatever had been set
    before.  On a missing file it does nothing. *)
Theorem clear_db_forgets `{Host} (d : Database) :
  clear_db None = None /\
  (writable d = true ->
   exists report,
     clear_db (Some d) = Some (Normal report) /\
     txCount report = length (processed_transactions d) /\
     settingsCount report = size (settings d) /\
     (forall t, getByTxId (cleared_db report) t = None) /\
     (forall key, getSetting (cleared_db report) key = None) /\
     (forall st req_body raw,
        db st = cleared_db report ->
        field req_body "txId" = JStr raw ->
        trim raw <> [] ->
        deposit_txid_begin st req_body = AwaitingHistory (trim raw) (normalize (trim raw))) /\
     (forall e,
        let fromEnv := StringToNumber (env_or (env_KES_PER_USDT e) (js "150")) in
        exists st,
          startup e (cleared_db report) = Normal st /\
          KES_PER_USDT st
          = if negb (isNaN fromEnv) && positive fromEnv then fromEnv else num 150)).
Proof.
  split; [reflexivity|]. intros Hw. unfold clear_db. rewrite Hw. simpl.
  eexists. split; [reflexivity|]. simpl.
  split; [reflexivity|]. split; [reflexivity|].
  split; [reflexivity|]. split; [intros key; apply lookup_empty|].
  split.
  - intros st req_body raw Hdb Hf Hne.
    rewrite (deposit_txid_begin_string st req_body raw Hf).
    destruct (trim raw) as [|c0 t0]; [congruence|]. now rewrite Hdb.
  - intros e.
    set (fromEnv := StringToNumber (env_or (env_KES_PER_USDT e) (js "150"))).
    match goal with |- exists _, startup e ?d0 = _ /\ _ => set (d' := d0) end.
    assert (Hw' : writable d' = true) by reflexivity.
    destruct (load_setting_writable "KES_PER_USDT" positive (env_KES_PER_USDT e)
                "150" (num 150) d' Hw') as (n1 & d1 & H1).
    destruct (load_setting_result _ _ _ _ _ _ _ _ H1) as (_ & Hw1 & _).
    rewrite Hw' in Hw1.
    destruct (load_setting_writable "MIN_DEPOSIT_AMOUNT" non_negative
                (env_MIN_DEPOSIT_AMOUNT e) "0" zero d1 Hw1) as (n2 & d2 & H2).
    destruct (load_setting_result _ _ _ _ _ _ _ _ H2) as (_ & Hw2 & _).
    rewrite Hw1 in Hw2.
    destruct (load_setting_writable "MIN_WITHDRAWAL_AMOUNT" positive
                (env_MIN_WITHDRAWAL_AMOUNT e) "10" (num 10) d2 Hw2) as (n3 & d3 & H3).
    eexists. split.
    + unfold startup, load_KES_PER_USDT, load_MIN_DEPOSIT_AMOUNT,
        load_MIN_WITHDRAWAL_AMOUNT.
      rewrite H1. cbn [cbind]. rewrite H2. cbn [cbind]. now rewrite H3.
    + simpl. unfold load_setting in H1.
      replace (getSetting d' (js "KES_PER_USDT")) with (@None jstring) in H1
        by (symmetry; apply lookup_empty).
      fold fromEnv in H1.
      destruct (setSetting d' (js "KES_PER_USDT") _); simpl in H1; congruence.
Qed.

(** ** Request signing *)

Lemma str_lt_irrefl a : str_lt a a = false.
Proof.
  induction a as [|x a IH]; simpl; [reflexivity|].
  now rewrite N.ltb_irrefl, N.eqb_refl, IH.
Qed.

Lemma str_lt_cons x a y b :
  str_lt (x :: a) (y :: b) = true <-> (x < y)%N \/ (x = y /\ str_lt a b = true).
Proof.
  simpl. rewrite orb_true_iff, andb_true_iff, N.ltb_lt, N.eqb_eq. tauto.
Qed.

Lemma str_lt_trans a : forall b c,
  str_lt a b = true -> str_lt b c = true -> str_lt a c = true.
Proof.
  induction a as [|x a IH]; intros [|y b] [|z c]; try discriminate; try reflexivity.
  rewrite !str_lt_cons. intros [H1 | [-> H1]] [H2 | [-> H2]].
  - left. lia.
  - now left.
  - now left.
  - right. split; [reflexivity|]. now apply (IH b c).
Qed.

Lemma str_lt_total a : forall b,
  str_lt a b = false -> str_lt b a = false -> a = b.
Proof.
  induction a as [|x a IH]; intros [|y b]; try discriminate; [reflexivity|].
  simpl. rewrite !orb_false_iff, !andb_false_iff, !N.ltb_ge, !N.eqb_neq.
  intros [H1 H2] [H3 H4].
  assert (x = y) by lia. subst y. f_equal. apply IH.
  - destruct H2; [congruence | assumption].
  - destruct H4; [congruence | assumption].
Qed.

Lemma str_lt_asym a b : str_lt a b = true -> str_lt b a = true -> False.
Proof.
  intros H1 H2. pose proof (str_lt_trans a b a H1 H2) as H3.
  rewrite str_lt_irrefl in H3. discriminate.
Qed.

Lemma sort_insert_perm e l : Permutation (e :: l) (sort_insert e l).
Proof.
  induction l as [|e' l IH]; simpl; [reflexivity|].
  destruct (str_lt (fst e') (fst e)); [|reflexivity].
  rewrite <- IH. apply perm_swap.
Qed.

Lemma sort_entries_perm l : Permutation l (sort_entries l).
Proof.
  induction l as [|e l IH]; simpl; [reflexivity|].
  rewrite <- sort_insert_perm. now constructor.
Qed.

Lemma sort_insert_sorted e l :
  StronglySorted key_lt l ->
  ~ In (fst e) (map fst l) ->
  StronglySorted key_lt (sort_insert e l).
Proof.
  induction 1 as [|e' l Hs IH Hall]; intros Hnew; simpl.
  - repeat constructor.
  - destruct (str_lt (fst e') (fst e)) eqn:E.
    + constructor.
      * apply IH. intros Hin. apply Hnew. now right.
      * rewrite <- sort_insert_perm. constructor; [exact E | exact Hall].
    + assert (Hlt : key_lt e e').
      { unfold key_lt. destruct (str_lt (fst e) (fst e')) eqn:E'; [reflexivity|].
        exfalso. apply Hnew. left. symmetry. now apply str_lt_total. }
      constructor; [now constructor|].
      constructor; [exact Hlt|].
      eapply Forall_impl; [exact Hall|]. intros x Hx.
      unfold key_lt in *. now apply (str_lt_trans _ (fst e')).
Qed.

Lemma sort_entries_sorted l :
  NoDup (map fst l) -> StronglySorted key_lt (sort_entries l).
Proof.
  induction l as [|e l IH]; simpl; intros Hnd; [constructor|].
  apply NoDup_cons in Hnd as [Hnew Hnd].
  apply sort_insert_sorted; [now apply IH|].
  intros Hin. apply Hnew. apply list_elem_of_In in Hin.
  now rewrite (Permutation_map fst (sort_entries_perm l)).
Qed.

(** X17: the entries that [signParams] signs are the given parameters,
    each once, in strictly ascending order of their keys; so the query
    string and its signature do not depend on the order in which the
    caller lists the parameters. *)
Theorem signParams_canonical `{Host} (c : Credentials)
    (params params' : list (jstring * JsVal)) :
  NoDup (map fst params) ->
  Permutation params params' ->
  Permutation params (sort_entries params) /\
  StronglySorted key_lt (sort_entries params) /\
  sort_entries params = sort_entries params' /\
  signParams c params = signParams c params'.
Proof.
  intros Hnd Hperm.
  assert (Hnd' : NoDup (map fst params')).
  { now rewrite <- (Permutation_map fst Hperm). }
  assert (Heq : sort_entries params = sort_entries params').
  { apply (StronglySorted_unique_strong key_lt).
    - intros x1 x2 _ _ H1 H2. exfalso. exact (str_lt_asym _ _ H1 H2).
    - now apply sort_entries_sorted.
    - now apply sort_entries_sorted.
    - now rewrite <- !sort_entries_perm. }
  split; [apply sort_entries_perm|]. split; [now apply sort_entries_sorted|].
  split; [exact Heq|]. unfold signParams. now rewrite Heq.
Qed.

Lemma signParams_canonical_witness :
  NoDup (map fst params_ab) /\
  Permutation params_ab params_ba /\
  @signParams example_host (credentials example_env) params_ab
  = @signParams example_host (credentials example_env) params_ba.
Proof.
  assert (Hnd : NoDup (map fst params_ab)).
  { apply NoDup_cons. split; [|apply NoDup_singleton].
    intros Hin. apply list_elem_of_In in Hin. destruct Hin as [Heq | []].
    vm_compute in Heq. discriminate. }
  assert (Hp : Permutation params_ab params_ba) by apply perm_swap.
  split; [exact Hnd|]. split; [exact Hp|].
  apply (@signParams_canonical example_host (credentials example_env)
           params_ab params_ba Hnd Hp).
Defined.

Lemma assoc_obj_set_eq k v o : assoc k (obj_set k v o) = v.
Proof.
  induction o as [|[k' v'] o IH]; simpl.
  - now rewrite streq_refl.
  - destruct (streq k k') eqn:E; simpl; [now rewrite streq_refl|].
    now rewrite E.
Qed.

Lemma assoc_obj_set_ne k k' v o :
  k <> k' -> assoc k' (obj_set k v o) = assoc k' o.
Proof.
  intros Hne. induction o as [|[k0 v0] o IH]; simpl.
  - apply not_eq_sym in Hne. apply streq_neq in Hne. now rewrite Hne.
  - destruct (streq k k0) eqn:E; simpl.
    + apply streq_eq in E. subst k0.
      apply not_eq_sym in Hne. apply streq_neq in Hne. now rewrite Hne.
    + destruct (streq k' k0); [reflexivity | exact IH].
Qed.

Lemma obj_set_keys k v o k0 :
  In k0 (map fst (obj_set k v o)) <-> k0 = k \/ In k0 (map fst o).
Proof.
  induction o as [|[k' v'] o IH]; simpl; [intuition|].
  destruct (streq k k') eqn:E; simpl.
  - apply streq_eq in E. subst k'. intuition.
  - rewrite IH. intuition.
Qed.

Lemma obj_set_NoDup k v o : NoDup (map fst o) -> NoDup (map fst (obj_set k v o)).
Proof.
  induction o as [|[k' v'] o IH]; simpl; intros Hnd.
  - apply NoDup_singleton.
  - apply NoDup_cons in Hnd as [Hnew Hnd]. destruct (streq k k') eqn:E; simpl.
    + apply streq_eq in E. subst k'. apply NoDup_cons. now split.
    + apply NoDup_cons. split; [|now apply IH].
      intros Hin. apply list_elem_of_In, obj_set_keys in Hin as [-> | Hin].
      * rewrite streq_refl in E. discriminate.
      * apply Hnew. now apply list_elem_of_In.
Qed.

Lemma spread_absent b : forall a k,
  ~ In k (map fst b) -> assoc k (spread a b) = assoc k a.
Proof.
  unfold spread. induction b as [|[k1 v1] b IH]; intros a k Hk; simpl; [reflexivity|].
  rewrite IH by (intros Hin; apply Hk; now right).
  apply assoc_obj_set_ne. intros ->. apply Hk. now left.
Qed.

Lemma spread_present b : forall a k v,
  NoDup (map fst b) -> In (k, v) b -> assoc k (spread a b) = v.
Proof.
  induction b as [|[k1 v1] b IH]; intros a k v Hnd Hin; [contradiction|].
  simpl in Hnd. apply NoDup_cons in Hnd as [Hnew Hnd].
  change (spread a ((k1, v1) :: b)) with (spread (obj_set k1 v1 a) b).
  destruct Hin as [[= -> ->] | Hin].
  - rewrite spread_absent; [apply assoc_obj_set_eq|].
    intros Hin. apply Hnew. now apply list_elem_of_In.
  - now apply IH.
Qed.

Lemma spread_NoDup b : forall a, NoDup (map fst a) -> NoDup (map fst (spread a b)).
Proof.
  unfold spread. induction b as [|[k1 v1] b IH]; intros a Ha; simpl; [exact Ha|].
  apply IH. now apply obj_set_NoDup.
Qed.

(** X18: in the parameters a signed request carries, [timestamp] is the
    clock's value whatever the caller passed under that key, [recvWindow]
    is 60000 unless the caller passed one, every other parameter of the
    caller is carried with its value, and no key occurs twice. *)
Theorem signed_params_fields `{Host} (c : Credentials) (w : World) (path : jstring)
    (params : list (jstring * JsVal)) :
  NoDup (map fst params) ->
  signed_url c w path params
  = (let! signedQuery := signParams c (signed_params w params) in
     Normal (BINANCE_BASE_URL ++ path ++ js "?" ++ signedQuery)) /\
  assoc (js "timestamp") (signed_params w params) = JNum (Date_now w) /\
  (~ In (js "recvWindow") (map fst params) ->
     assoc (js "recvWindow") (signed_params w params) = JNum (num 60000)) /\
  (forall k v, In (k, v) params -> k <> js "timestamp" ->
     assoc k (signed_params w params) = v) /\
  NoDup (map fst (signed_params w params)).
Proof.
  intros Hnd. unfold signed_params.
  split; [reflexivity|]. split; [apply assoc_obj_set_eq|].
  split; [|split].
  - intros Hk. rewrite assoc_obj_set_ne by (intros Heq; vm_compute in Heq; discriminate).
    rewrite spread_absent by exact Hk. reflexivity.
  - intros k v Hin Hne. rewrite assoc_obj_set_ne by congruence.
    now apply spread_present.
  - apply obj_set_NoDup, spread_NoDup. apply NoDup_singleton.
Qed.

Lemma signed_params_fields_witness :
  NoDup (map fst [(js "timestamp", JNum (num 1)); (js "coin", str "USDT")]) /\
  assoc (js "timestamp")
    (signed_params quiet_world [(js "timestamp", JNum (num 1)); (js "coin", str "USDT")])
  = JNum example_instant.
Proof.
  assert (Hnd : NoDup (map fst [(js "timestamp", JNum (num 1)); (js "coin", str "USDT")])).
  { apply NoDup_cons. split; [|apply NoDup_singleton].
    intros Hin. apply list_elem_of_In in Hin. destruct Hin as [Heq | []].
    vm_compute in Heq. discriminate. }
  split; [exact Hnd|].
  exact (proj1 (proj2 (@signed_params_fields example_host (credentials example_env)
                         quiet_world (js "/api/v3/account") _ Hnd))).
Defined.

(** ** Parameters that cannot be encoded *)





(** ** Worked examples of the further properties *)

Lemma settled_claim_is_refused_witness :
  @find_match example_host bare_id (normalize bare_id) confirmed_10
  = Normal (Some (record_of (JNum (num 10)))) /\
  getByTxId (db submitted_state) (normalize bare_id) = None /\
  normalize (trim padded_id) = normalize bare_id /\
  exists row,
    @deposit_txid example_host example_env quiet_world settled_state (claim padded_id)
    = (already_used row, settled_state, []) /\
    reply_field (already_used row) "rewardKes" = JNum (num 1500).
Proof.
  assert (Hm : @find_match example_host bare_id (normalize bare_id) confirmed_10
               = Normal (Some (record_of (JNum (num 10))))) by (vm_compute; reflexivity).
  assert (Hn : normalize (trim padded_id) = normalize bare_id)
    by (vm_compute; reflexivity).
  split; [exact Hm|]. split; [reflexivity|]. split; [exact Hn|].
  destruct (@settled_claim_is_refused example_host example_env
              (world_with_history confirmed_10) submitted_state bare_id confirmed_10
              (record_of (JNum (num 10))) (num 10) example_instant_text
              Hm eq_refl eq_refl eq_refl eq_refl eq_refl eq_refl eq_refl)
    as (_ & _ & Hlater).
  destruct (Hlater settled_state (run_done _) example_env quiet_world
              (claim padded_id) padded_id eq_refl)
    as (row & Hd & _ & _ & _ & Hr & _).
  - vm_compute. discriminate.
  - exact Hn.
  - exists row. split; [exact Hd | exact Hr].
Defined.


Lemma surrounding_whitespace_ignored_witness :
  whitespace [32%N] /\ whitespace [10%N] /\
  deposit_txid_begin example_state (claim padded_id)
  = deposit_txid_begin example_state (claim prefixed_id).
Proof.
  assert (Hl : whitespace [32%N]) by (repeat constructor).
  assert (Hr : whitespace [10%N]) by (repeat constructor).
  split; [exact Hl|]. split; [exact Hr|].
  exact (proj2 (surrounding_whitespace_ignored example_state (claim prefixed_id)
                  (claim padded_id) prefixed_id [32%N] [10%N] Hl Hr eq_refl eq_refl)).
Defined.

Lemma canonical_is_fixed_point_witness :
  trim bare_id <> [] /\
  canonical bare_id = prefixed_id /\
  canonical (canonical bare_id) = canonical bare_id.
Proof.
  assert (Hne : trim bare_id <> []) by (vm_compute; discriminate).
  split; [exact Hne|]. split; [vm_compute; reflexivity|].
  exact (proj1 (proj2 (proj2 (proj2 (canonical_is_fixed_point example_state bare_id Hne))))).
Defined.

Lemma update_survives_restart_witness :
  writable (db example_state) = true /\
  @reads_back example_host (num 200) /\
  @valid_rate example_host (field rate_200 "rate") (num 200) /\
  exists st',
    @startup example_host development_env
      (db (snd (@post_rate example_host example_state rate_200))) = Normal st' /\
    KES_PER_USDT st' = num 200.
Proof.
  assert (Hrb : @reads_back example_host (num 200)) by (vm_compute; reflexivity).
  assert (Hv : @valid_rate example_host (field rate_200 "rate") (num 200))
    by (vm_compute; repeat split).
  split; [reflexivity|]. split; [exact Hrb|]. split; [exact Hv|].
  exact (proj1 (@update_survives_restart example_host development_env example_state
                  rate_200 (num 200) eq_refl Hrb) Hv).
Defined.

Lemma validated_withdrawal_witness :
  @withdraw_validate example_host withdraw_all_request
  = Normal (inr withdraw_all_validated) /\
  (detectedNetwork withdraw_all_validated = str "TRX"
   \/ detectedNetwork withdraw_all_validated = str "SOL").
Proof.
  assert (Hv : @withdraw_validate example_host withdraw_all_request
               = Normal (inr withdraw_all_validated)) by (vm_compute; reflexivity).
  split; [exact Hv|].
  exact (proj1 (proj2 (proj2 (@validated_withdrawal example_host withdraw_all_request
                                withdraw_all_validated Hv)))).
Defined.

Lemma withdrawal_submitted_only_when_cleared_witness :
  In withdraw_20_post withdraw_20_calls /\
  call_method withdraw_20_post = POST /\
  (exists wd availableAmount,
     @withdraw_validate example_host withdraw_20_request = Normal (inr wd) /\
     resolved_amount wd availableAmount = num 20 /\
     availableAmount = num 50) /\
  @withdraw_validate example_host withdraw_all_request
  = Normal (inr withdraw_all_validated) /\
  fst (@getUSDTBalance example_host (credentials example_env)
         (world_with_balance "abc")) = Normal NaN /\
  map call_method
    (snd (@withdraw example_host example_env (world_with_balance "abc") example_state
            withdraw_all_request))
  = [GET; POST].
Proof.
  assert (Hin : In withdraw_20_post withdraw_20_calls)
    by (vm_compute; right; left; reflexivity).
  assert (Hp : call_method withdraw_20_post = POST) by (vm_compute; reflexivity).
  assert (Hall : @withdraw_validate example_host withdraw_all_request
                 = Normal (inr withdraw_all_validated)) by (vm_compute; reflexivity).
  split; [exact Hin|]. split; [exact Hp|]. split.
  - destruct (proj1 (@withdrawal_submitted_only_when_cleared example_host example_env
                       (world_with_balance "50") example_state withdraw_20_request)
                withdraw_20_post Hin Hp)
      as (wd & availableAmount & calls & Hv & Hb & _).
    exists wd, availableAmount. split; [exact Hv|].
    vm_compute in Hv. injection Hv as <-.
    vm_compute in Hb. injection Hb as <- _.
    split; reflexivity.
  - split; [exact Hall|]. split; [vm_compute; reflexivity|].
    rewrite (proj2 (@withdrawal_submitted_only_when_cleared example_host example_env
                      (world_with_balance "abc") example_state withdraw_all_request)
               withdraw_all_validated NaN
               (snd (@getUSDTBalance example_host (credentials example_env)
                       (world_with_balance "abc")))
               Hall eq_refl eq_refl eq_refl).
    vm_compute. reflexivity.
Defined.

Lemma balance_is_first_usdt_entry_witness :
  absent (BINANCE_API_KEY (credentials example_env)) = false /\
  absent (BINANCE_API_SECRET (credentials example_env)) = false /\
  other_asset btc_entry /\
  fst (@getUSDTBalance example_host (credentials example_env) (world_with_balance "5"))
  = Normal (num 5).
Proof.
  assert (Hb : other_asset btc_entry).
  { split; [reflexivity|]. intros Heq. vm_compute in Heq. discriminate. }
  assert (Hall : Forall other_asset [btc_entry]) by (constructor; [exact Hb | constructor]).
  split; [reflexivity|]. split; [reflexivity|]. split; [exact Hb|].
  rewrite (proj1 (proj2 (@balance_is_first_usdt_entry example_host
                           (credentials example_env) (world_with_balance "5")
                           account_url
                           (JObj [(js "balances", JArr [btc_entry; usdt_entry "5"])])
                           [btc_entry; usdt_entry "5"]
                           eq_refl eq_refl eq_refl eq_refl eq_refl eq_refl))
             [btc_entry] (usdt_entry "5") [] eq_refl
             Hall eq_refl eq_refl).
  vm_compute. reflexivity.
Defined.

(** ** Requests sent and errors received *)

Lemma getDepositHistory_calls `{Host} c w coin startTime endTime limit :
  Forall (fun call => call_method call = GET)
    (snd (getDepositHistory c w coin startTime endTime limit)) /\
  (length (snd (getDepositHistory c w coin startTime endTime limit)) <= 1)%nat.
Proof.
  unfold getDepositHistory, net_bind.
  match goal with |- context [binanceGet c w ?p ?ps] =>
    pose proof (binanceGet_calls c w p ps) as Hg;
    assert (Hl : (length (snd (binanceGet c w p ps)) <= 1)%nat)
      by (unfold binanceGet; destruct (absent _ || absent _); [simpl; lia|];
          destruct (signed_url c w p ps); simpl; lia);
    destruct (binanceGet c w p ps) as [[data|err] calls]
  end; simpl in *; [|now split].
  destruct data; simpl; rewrite ?app_nil_r; now split.
Qed.

(** X19: a deposit submission sends at most one request to the exchange,
    and only GET requests; it sends none when the claim is answered by
    validation or by the lookup in the store (400 or already_used), in
    which case the state is unchanged too. *)
Theorem deposit_sends_at_most_one_get `{Host} (e : Env) (w : World) (st0 st1 : State)
    (req_body : JsVal) :
  let calls := snd (deposit_txid_interleaved e w st0 st1 req_body) in
  Forall (fun call => call_method call = GET) calls /\
  (length calls <= 1)%nat /\
  (forall r, deposit_txid_begin st0 req_body = Answered r ->
     deposit_txid_interleaved e w st0 st1 req_body = (r, st0, [])).
Proof.
  cbv zeta. unfold deposit_txid_interleaved.
  destruct (deposit_txid_begin st0 req_body) as [r|t n].
  - simpl. split; [constructor|]. split; [lia|]. now intros r0 [= <-].
  - unfold fetch_history.
    pose proof (getDepositHistory_calls (credentials e) w (str "USDT") JUndefined
                  JUndefined (JNum (num 1000))) as [Hg Hl].
    destruct (getDepositHistory _ _ _ _ _ _) as [fetched calls].
    destruct (deposit_txid_resume e w st1 t n fetched) as [r st'].
    simpl in *. split; [exact Hg|]. split; [exact Hl|]. discriminate.
Qed.

(** When the history call throws, the verification changes nothing
    and answers with HTTP 200 and status failed: with reason
    region_restricted when the error carries a response whose status is
    the number 451, and otherwise with reason verification_error and, as
    message, the [msg] of the response data if it has one, else its
    [message], else a fixed text. *)
Lemma history_error_reply `{Host} (e : Env) (w : World) (st : State)
    (t n : jstring) (err : JsError) :
  let reply := fst (deposit_txid_resume e w st t n (Throw err)) in
  let data := logical_and (response err) (prop (response err) (js "data")) in
  let upstream :=
    logical_and data (logical_or (prop data (js "msg")) (prop data (js "message"))) in
  snd (deposit_txid_resume e w st t n (Throw err)) = st /\
  status reply = 200 /\
  reply_field reply "status" = str "failed" /\
  (is_451 (logical_and (response err) (prop (response err) (js "status"))) = true ->
     reason reply = str "region_restricted" /\
     reply_field reply "binanceMessage" = upstream) /\
  (is_451 (logical_and (response err) (prop (response err) (js "status"))) = false ->
     reason reply = str "verification_error" /\
     reply_field reply "message"
     = logical_or upstream (str "Failed to verify transaction with Binance")).
Proof.
  cbv zeta. unfold deposit_txid_resume, deposit_txid_try. simpl.
  unfold deposit_txid_catch.
  destruct (is_451 _); repeat split; try reflexivity; discriminate.
Qed.

(** ** Errors and success of a withdrawal *)




(** X21: when the three gates clear and the exchange accepts the
    submission, the reply is complete with the exchange's withdrawal id,
    the resolved amount (the whole balance when none was given), the
    trimmed address and the network; the requests are those of the balance
    query followed by those of the submission. *)
Theorem withdrawal_completes `{Host} (e : Env) (w : World) (st : State)
    (req_body : JsVal) (wd : Withdrawal) (availableAmount : Number)
    (result : JsVal) (calls1 calls2 : list HttpCall) :
  withdraw_validate req_body = Normal (inr wd) ->
  getUSDTBalance (credentials e) w = (Normal availableAmount, calls1) ->
  let finalAmount := resolved_amount wd availableAmount in
  num_le availableAmount zero = false ->
  num_lt finalAmount (MIN_WITHDRAWAL_AMOUNT st) = false ->
  num_gt finalAmount availableAmount = false ->
  withdrawUSDT (credentials e) w (addressTrimmed wd) finalAmount (detectedNetwork wd)
  = (Normal result, calls2) ->
  nullish result = false ->
  let reply := withdrawal_complete result finalAmount wd in
  withdraw e w st req_body = (Normal reply, calls1 ++ calls2) /\
  reply_field reply "status" = str "complete" /\
  reply_field reply "withdrawalId" = prop result (js "id") /\
  reply_field reply "amount" = JNum finalAmount /\
  reply_field reply "address" = JStr (addressTrimmed wd) /\
  reply_field reply "network" = detectedNetwork wd /\
  (withdrawalAmount wd = None -> finalAmount = availableAmount).
Proof.
  intros Hv Hb finalAmount H0 H1 H2 Hw Hn reply.
  split; [|repeat split].
  - unfold withdraw, withdraw_try, net_bind. rewrite Hv, Hb.
    unfold withdraw_gates. rewrite H0.
    fold (resolved_amount wd availableAmount). fold finalAmount.
    rewrite H1, H2, Hw, Hn. simpl. now rewrite app_nil_r.
  - unfold finalAmount, resolved_amount. now intros ->.
Qed.

Lemma withdrawal_completes_witness :
  @withdraw_validate example_host withdraw_all_request
  = Normal (inr withdraw_all_validated) /\
  fst (@withdraw example_host example_env (world_with_balance "50") example_state
         withdraw_all_request)
  = Normal (withdrawal_complete (JObj [(js "id", str "w-1")]) (num 50)
              withdraw_all_validated).
Proof.
  assert (Hv : @withdraw_validate example_host withdraw_all_request
               = Normal (inr withdraw_all_validated)) by (vm_compute; reflexivity).
  split; [exact Hv|].
  rewrite (proj1 (@withdrawal_completes example_host example_env
                    (world_with_balance "50") example_state withdraw_all_request
                    withdraw_all_validated (num 50) (JObj [(js "id", str "w-1")])
                    (balance_calls "50")
                    (snd (@withdrawUSDT example_host (credentials example_env)
                            (world_with_balance "50") address_sol (num 50) (str "SOL")))
                    Hv eq_refl eq_refl eq_refl eq_refl eq_refl eq_refl)).
  reflexivity.
Defined.


(** ** What a configuration update leaves alone *)

Lemma setSetting_frame `{Host} d key v d' :
  setSetting d key v = Normal d' ->
  processed_transactions d' = processed_transactions d /\
  last_id d' = last_id d /\
  (forall k, k <> key -> getSetting d' k = getSetting d k).
Proof.
  unfold setSetting. destruct (negb (writable d)); [discriminate|].
  intros [= <-]. simpl. repeat split.
  intros k Hk. unfold getSetting. simpl. now apply lookup_insert_ne.
Qed.

(** X22: a request to a configuration endpoint changes at most its own
    variable and its own key of the settings: the other two values, the
    settings under every other key and all settled claims are left as they
    were, whether the request is accepted, rejected or fails; and a GET
    changes nothing and replies the value in memory. *)
Theorem config_update_frame `{Host} (st : State) (req_body : JsVal) :
  (let st' := snd (post_rate st req_body) in
   MIN_DEPOSIT_AMOUNT st' = MIN_DEPOSIT_AMOUNT st /\
   MIN_WITHDRAWAL_AMOUNT st' = MIN_WITHDRAWAL_AMOUNT st /\
   processed_transactions (db st') = processed_transactions (db st) /\
   (forall k, k <> js "KES_PER_USDT" -> getSetting (db st') k = getSetting (db st) k)) /\
  (let st' := snd (post_min_deposit st req_body) in
   KES_PER_USDT st' = KES_PER_USDT st /\
   MIN_WITHDRAWAL_AMOUNT st' = MIN_WITHDRAWAL_AMOUNT st /\
   processed_transactions (db st') = processed_transactions (db st) /\
   (forall k, k <> js "MIN_DEPOSIT_AMOUNT" -> getSetting (db st') k = getSetting (db st) k)) /\
  (let st' := snd (post_min_withdrawal st req_body) in
   KES_PER_USDT st' = KES_PER_USDT st /\
   MIN_DEPOSIT_AMOUNT st' = MIN_DEPOSIT_AMOUNT st /\
   processed_transactions (db st') = processed_transactions (db st) /\
   (forall k, k <> js "MIN_WITHDRAWAL_AMOUNT" ->
      getSetting (db st') k = getSetting (db st) k)) /\
  (forall r : ConfigRequest,
     match r with
     | GetRate => config_handle st r = (Normal (json [(js "rate", JNum (KES_PER_USDT st))]), st)
     | GetMinDeposit =>
         config_handle st r
         = (Normal (json [(js "minDepositAmount", JNum (MIN_DEPOSIT_AMOUNT st))]), st)
     | GetMinWithdrawal =>
         config_handle st r
         = (Normal (json [(js "minWithdrawalAmount", JNum (MIN_WITHDRAWAL_AMOUNT st))]), st)
     | _ => True
     end).
Proof.
  split; [|split; [|split]].
  - cbv zeta. unfold post_rate.
    destruct (ToNumber _) as [n|]; [|now repeat split].
    destruct (negb _ || isNaN n || num_le n zero); [now repeat split|]. cbv zeta.
    destruct (setSetting _ _ n) as [d|] eqn:E; simpl; [|now repeat split].
    destruct (setSetting_frame _ _ _ _ E) as (Hr & _ & Hk). simpl in *. auto.
  - cbv zeta. unfold post_min_deposit.
    destruct (ToNumber _) as [n|]; [|now repeat split].
    destruct (nullish _ || isNaN n || num_lt n zero); [now repeat split|]. cbv zeta.
    destruct (setSetting _ _ n) as [d|] eqn:E; simpl; [|now repeat split].
    destruct (setSetting_frame _ _ _ _ E) as (Hr & _ & Hk). simpl in *. auto.
  - cbv zeta. unfold post_min_withdrawal.
    destruct (ToNumber _) as [n|]; [|now repeat split].
    destruct (nullish _ || isNaN n || num_le n zero); [now repeat split|]. cbv zeta.
    destruct (setSetting _ _ n) as [d|] eqn:E; simpl; [|now repeat split].
    destruct (setSetting_frame _ _ _ _ E) as (Hr & _ & Hk). simpl in *. auto.
  - intros []; reflexivity || exact I.
Qed.
